(** * HIP-3 dashboard: the data-acquisition layer of [api.py]

    A shallow embedding of [api.py] (the HTTP client with backoff, the
    per-sub-exchange market fetch, the listing-date resolver with its
    process-wide cache, and the aggregator) together with the properties
    its specification states about it.

    Conventions of the embedding:
    - a JSON document, once decoded by [resp.json()], is a [value];
      Python's dynamic operations on it ([len], indexing, [.get],
      iteration, truthiness, [float]) are total functions that return a
      [result], the raised exception being data;
    - a Python [float] is a binary64 number: Rocq's primitive [float];
    - a Python [str] is a [string], one character per code point (code
      points above 255 are outside the model);
    - a timezone-aware UTC [datetime] is the number of microseconds
      since 1970-01-01T00:00:00Z;
    - effects (HTTP requests, [time.sleep], the module-level listing-date
      cache, the order in which [as_completed] yields futures) are threaded
      through a [world]; the remote API is any function from the history
      of the world and a payload to a reply. *)

From Stdlib Require Import ZArith String Ascii List Floats Lia OrderedTypeEx.
From stdpp Require Import base option list gmap strings sorting.

Open Scope string_scope.
Open Scope list_scope.
Open Scope Z_scope.

(** ** Decoded JSON *)

#[warnings="-register-all"]
Inductive value : Type :=
  | VNone
  | VBool (b : bool)
  | VInt (n : Z)
  | VFloat (x : float)
  | VStr (s : string)
  | VList (xs : list value)
  | VDict (kvs : list (string * value)).

(** ** Exceptions *)

Inductive exn : Type :=
  | HTTPError (status : Z)   (* requests.HTTPError, from raise_for_status *)
  | ConnectionError          (* requests.post itself failed *)
  | JSONDecodeError          (* a subclass of ValueError *)
  | KeyError
  | IndexError
  | TypeError
  | ValueError
  | AttributeError
  | OverflowError
  | Unsupported.             (* a behaviour the embedding does not cover *)

Inductive result (A : Type) : Type :=
  | Ok (a : A)
  | Raise (e : exn).
Arguments Ok {A} a.
Arguments Raise {A} e.

#[global] Instance result_ret : MRet result := @Ok.
#[global] Instance result_bind : MBind result :=
  fun A B f r => match r with Ok a => f a | Raise e => Raise e end.

(** [except (ValueError, TypeError)]; [JSONDecodeError] derives from
    [ValueError]. *)
Definition is_value_or_type_error (e : exn) : bool :=
  match e with
  | ValueError | TypeError | JSONDecodeError => true
  | _ => false
  end.

(** ** Python's dynamic operations on decoded JSON *)

Module Py.

Definition is_none (v : value) : bool :=
  match v with VNone => true | _ => false end.

Definition is_dict (v : value) : bool :=
  match v with VDict _ => true | _ => false end.

(** [bool(v)]. A NaN is true (it is not equal to zero); [-0.0] is false. *)
Definition truthy (v : value) : bool :=
  match v with
  | VNone => false
  | VBool b => b
  | VInt n => negb (Z.eqb n 0)
  | VFloat x => negb (PrimFloat.eqb x 0)
  | VStr s => negb (String.eqb s "")
  | VList xs => match xs with [] => false | _ => true end
  | VDict kvs => match kvs with [] => false | _ => true end
  end.

(** [a or b] *)
Definition or (a b : value) : value := if truthy a then a else b.

(** Lookup in the association list of a JSON object. *)
Fixpoint assoc (kvs : list (string * value)) (k : string) : option value :=
  match kvs with
  | [] => None
  | (k', v) :: rest => if String.eqb k' k then Some v else assoc rest k
  end.

(** [v.get(k, d)]: only a dict has the method. *)
Definition get (v : value) (k : string) (d : value) : result value :=
  match v with
  | VDict kvs => Ok (match assoc kvs k with Some x => x | None => d end)
  | _ => Raise AttributeError
  end.

(** [len(v)] *)
Definition len (v : value) : result Z :=
  match v with
  | VStr s => Ok (Z.of_nat (String.length s))
  | VList xs => Ok (Z.of_nat (List.length xs))
  | VDict kvs => Ok (Z.of_nat (List.length kvs))
  | _ => Raise TypeError
  end.

(** The characters of a string, each a string of length one. *)
Fixpoint chars (s : string) : list value :=
  match s with
  | EmptyString => []
  | String c rest => VStr (String c EmptyString) :: chars rest
  end.

(** [iter(v)], run to the end: the elements of a list, the characters of
    a string, the keys of a dict. *)
Definition iter (v : value) : result (list value) :=
  match v with
  | VStr s => Ok (chars s)
  | VList xs => Ok xs
  | VDict kvs => Ok (map (fun kv => VStr (fst kv)) kvs)
  | _ => Raise TypeError
  end.

(** [v[i]] for a literal index [i >= 0]. The keys of a decoded JSON
    object are strings, so an integer key is never found. *)
Definition index (v : value) (i : nat) : result value :=
  match v with
  | VList xs =>
      match nth_error xs i with Some x => Ok x | None => Raise IndexError end
  | VStr s =>
      match nth_error (chars s) i with
      | Some x => Ok x
      | None => Raise IndexError
      end
  | VDict _ => Raise KeyError
  | _ => Raise TypeError
  end.

(** [v[k]] for a literal string key [k]. *)
Definition item (v : value) (k : string) : result value :=
  match v with
  | VDict kvs =>
      match assoc kvs k with Some x => Ok x | None => Raise KeyError end
  | _ => Raise TypeError
  end.

(** [s[:n]] on a string. *)
Fixpoint take_str (n : nat) (s : string) : string :=
  match n, s with
  | S n', String c rest => String c (take_str n' rest)
  | _, _ => EmptyString
  end.

End Py.

(** A UTC [datetime], in microseconds since the epoch. *)
Abbreviation datetime := Z (only parsing).

(** ** Binary64 helpers *)

Definition SF64 (n : Z) : spec_float := binary_normalize prec emax n 0 false.

(** [float(n)] for an [int]: the nearest binary64 number (ties to even),
    [OverflowError] when that is not finite. *)
Definition float_of_int (n : Z) : result float :=
  match SF64 n with
  | S754_infinity _ => Raise OverflowError
  | sf => Ok (SF2Prim sf)
  end.

(** [a / b] for two [int]s with [b > 0]: the correctly rounded quotient. *)
Definition int_truediv (a : Z) (b : positive) : result float :=
  match a with
  | Z0 => Ok 0%float
  | Zpos m =>
      match SF64div (S754_finite false m 0) (S754_finite false b 0) with
      | S754_infinity _ => Raise OverflowError
      | sf => Ok (SF2Prim sf)
      end
  | Zneg m =>
      match SF64div (S754_finite true m 0) (S754_finite false b 0) with
      | S754_infinity _ => Raise OverflowError
      | sf => Ok (SF2Prim sf)
      end
  end.

(** Python comparisons on floats. *)
Definition float_gt (x y : float) : bool := PrimFloat.ltb y x.
Definition float_ge (x y : float) : bool := PrimFloat.leb y x.
Definition is_nan (x : float) : bool := negb (PrimFloat.eqb x x).

(** ** Built-in parsers taken as parameters

    [float(s)] and [datetime.fromisoformat(s)] on a string are Python
    built-ins; the development holds for every pair of functions in
    their place. [float_of_str s] is [None] when [float(s)] raises
    [ValueError]. [fromisoformat s] is [None] when the call raises
    [ValueError]; otherwise it is the wall-clock reading of the parsed
    datetime counted in microseconds from 1970-01-01T00:00:00, whatever
    offset the string carried: [.replace(tzinfo=timezone.utc)] keeps the
    reading and declares it UTC. *)

Class Builtins : Type := {
  float_of_str : string -> option float;
  fromisoformat : string -> option datetime;
}.

(** [float(v)] *)
Definition py_float `{Builtins} (v : value) : result float :=
  match v with
  | VNone => Raise TypeError
  | VBool b => Ok (if b then 1%float else 0%float)
  | VInt n => float_of_int n
  | VFloat x => Ok x
  | VStr s =>
      match float_of_str s with Some x => Ok x | None => Raise ValueError end
  | VList _ | VDict _ => Raise TypeError
  end.

(** ** The world: network, clock, scheduler and the module-level cache *)

Inductive reply : Type :=
  | Response (status_code : Z) (body : option value)
      (* [body] is [None] when the response body is not a JSON document *)
  | NoResponse.
      (* [requests.post] raised: connection failure or the 10s timeout *)

Inductive event : Type :=
  | Request (payload : value)   (* requests.post(API_URL, json=payload) *)
  | Sleep (seconds : float).    (* time.sleep(seconds) *)

Record world : Type := World {
  log : list event;                          (* oldest first *)
  _listing_date_cache : gmap string (option datetime);
  sched : list nat;                          (* pending scheduler choices *)
  now : datetime;                            (* datetime.now(tz=utc) *)
}.

(** The remote API: its reply to a payload, given everything this
    process has done so far. *)
Class Remote : Type := { server : list event -> value -> reply }.

Definition IO (A : Type) : Type := world -> result A * world.

#[global] Instance IO_ret : MRet IO := fun A a w => (Ok a, w).
#[global] Instance IO_bind : MBind IO :=
  fun A B f m w =>
    match m w with
    | (Ok a, w') => f a w'
    | (Raise e, w') => (Raise e, w')
    end.

Definition raise {A} (e : exn) : IO A := fun w => (Raise e, w).

Definition lift {A} (r : result A) : IO A := fun w => (r, w).

(** [try: body except Exception: handler] *)
Definition try_except {A} (body : IO A) (handler : IO A) : IO A :=
  fun w =>
    match body w with
    | (Ok a, w') => (Ok a, w')
    | (Raise _, w') => handler w'
    end.

Definition record (ev : event) (w : world) : world :=
  World (log w ++ [ev]) (_listing_date_cache w) (sched w) (now w).

(** [requests.post(API_URL, json=payload, timeout=10)] *)
Definition requests_post `{Remote} (payload : value) : IO (Z * option value) :=
  fun w =>
    match server (log w) payload with
    | Response st body => (Ok (st, body), record (Request payload) w)
    | NoResponse => (Raise ConnectionError, record (Request payload) w)
    end.

Definition time_sleep (seconds : float) : IO unit :=
  fun w => (Ok tt, record (Sleep seconds) w).

(** [resp.raise_for_status()] *)
Definition raise_for_status (resp : Z * option value) : result unit :=
  let st := fst resp in
  if (400 <=? st) && (st <? 600) then Raise (HTTPError st) else Ok tt.

(** [resp.json()] *)
Definition json (resp : Z * option value) : result value :=
  match snd resp with
  | Some v => Ok v
  | None => Raise JSONDecodeError
  end.

(** ** [_post] *)

(** The [for attempt in range(retries)] loop with [n] iterations left,
    followed by the final attempt. *)
Fixpoint post_loop `{Remote} (payload : value) (n : nat) (delay : float)
  : IO value :=
  match n with
  | S n' =>
      resp ← requests_post payload;
      if fst resp =? 429 then
        time_sleep delay;;
        post_loop payload n' (delay * 2)%float
      else
        lift (raise_for_status resp);;
        lift (json resp)
  | O =>
      (* Final attempt: let it raise *)
      resp ← requests_post payload;
      lift (raise_for_status resp);;
      lift (json resp)
  end.

Definition _post `{Remote} (payload : value) (retries : nat) : IO value :=
  post_loop payload retries 1%float.

(** The default [retries=4], which every caller uses. *)
Definition post `{Remote} (payload : value) : IO value := _post payload 4.

(** ** [get_dexes] *)

Definition perp_dexs_payload : value := VDict [("type", VStr "perpDexs")].

(** Return list of HIP-3 DEX dicts (nulls filtered out). *)
Definition get_dexes `{Remote} : IO (list value) :=
  data ← post perp_dexs_payload;
  ds ← lift (Py.iter data);
  mret (List.filter (fun d => negb (Py.is_none d)) ds).

(** ** [get_dex_markets] *)

Module Market.
Record t : Type := Make {
  asset : value;
  max_leverage : value;
  growth_mode : value;
  last_growth_mode_change_time : value;
  funding : value;
  open_interest : value;
  prev_day_px : value;
  day_ntl_vlm : value;
  mark_px : value;
  oracle_px : value;
}.
End Market.

Definition markets_payload (dex_name : value) : value :=
  VDict [("type", VStr "metaAndAssetCtxs"); ("dex", dex_name)].

(** One iteration of the loop over [zip(universe, asset_ctxs)]:
    [None] when the iteration ends in [continue]. *)
Definition snapshot (meta ctx : value) : result (option Market.t) :=
  let ctx := if Py.is_none ctx then VDict [] else ctx in
  delisted ← Py.get meta "isDelisted" VNone;
  if Py.truthy delisted then Ok None
  else
    name ← Py.get meta "name" (VStr "");
    lev ← Py.get meta "maxLeverage" VNone;
    gm ← Py.get meta "growthMode" VNone;
    gmt ← Py.get meta "lastGrowthModeChangeTime" VNone;
    fd ← Py.get ctx "funding" VNone;
    oi ← Py.get ctx "openInterest" VNone;
    pd ← Py.get ctx "prevDayPx" VNone;
    vlm ← Py.get ctx "dayNtlVlm" VNone;
    mk ← Py.get ctx "markPx" VNone;
    orc ← Py.get ctx "oraclePx" VNone;
    Ok (Some (Market.Make name lev gm gmt fd oi pd vlm mk orc)).

(** The loop itself; [zip] stops at the end of the shorter sequence. *)
Fixpoint zip_markets (universe asset_ctxs : list value)
  : result (list Market.t) :=
  match universe, asset_ctxs with
  | meta :: universe', ctx :: asset_ctxs' =>
      o ← snapshot meta ctx;
      rest ← zip_markets universe' asset_ctxs';
      Ok (match o with Some m => m :: rest | None => rest end)
  | _, _ => Ok []
  end.

(** [data[0].get("universe", []) if len(data) > 0 and
    isinstance(data[0], dict) else []] *)
Definition universe_of (data : value) : result value :=
  n ← Py.len data;
  if 0 <? n then
    d0 ← Py.index data 0;
    if Py.is_dict d0 then Py.get d0 "universe" (VList []) else Ok (VList [])
  else Ok (VList []).

(** [data[1] if len(data) > 1 else []] *)
Definition asset_ctxs_of (data : value) : result value :=
  n ← Py.len data;
  if 1 <? n then Py.index data 1 else Ok (VList []).

(** What [get_dex_markets] does with the decoded response. *)
Definition markets_of (data : value) : result (list Market.t) :=
  universe ← universe_of data;
  asset_ctxs ← asset_ctxs_of data;
  us ← Py.iter universe;
  cs ← Py.iter asset_ctxs;
  zip_markets us cs.

(** Fetch metaAndAssetCtxs for a DEX and zip universe + asset contexts. *)
Definition get_dex_markets `{Remote} (dex_name : value)
  : IO (list Market.t) :=
  data ← post (markets_payload dex_name);
  lift (markets_of data).

(** ** [datetime.fromtimestamp(x, tz=timezone.utc)]

    The float is split into its integral and fractional parts ([modf],
    exact), the fraction is multiplied by 1e6 in binary64 and rounded
    half to even, and the carry is folded back into the seconds. A NaN
    raises [ValueError], an infinity or a value beyond [time_t] raises
    [OverflowError], a year outside 1..9999 raises [ValueError]. *)

(** [m * 2^e] rounded toward zero. *)
Definition trunc_mag (m : positive) (e : Z) : Z :=
  match e with
  | Zneg k => Z.shiftr (Zpos m) (Zpos k)
  | _ => Z.shiftl (Zpos m) e
  end.

(** [m * 2^e] rounded to the nearest integer, ties to even. *)
Definition rne_mag (m : positive) (e : Z) : Z :=
  match e with
  | Zneg k =>
      let q := Z.shiftr (Zpos m) (Zpos k) in
      let r := Zpos m - Z.shiftl q (Zpos k) in
      let half := Z.shiftl 1 (Zpos k - 1) in
      if r <? half then q
      else if half <? r then q + 1
      else if Z.even q then q else q + 1
  | _ => Z.shiftl (Zpos m) e
  end.

Definition float_trunc (x : float) : Z :=
  match Prim2SF x with
  | S754_finite s m e => cond_Zopp s (trunc_mag m e)
  | _ => 0
  end.

Definition float_round (x : float) : Z :=
  match Prim2SF x with
  | S754_finite s m e => cond_Zopp s (rne_mag m e)
  | _ => 0
  end.

Definition min_timestamp : Z := -62135596800.   (* 0001-01-01T00:00:00Z *)
Definition max_timestamp : Z := 253402300799.   (* 9999-12-31T23:59:59Z *)

Definition fromtimestamp_utc (x : float) : result datetime :=
  match Prim2SF x with
  | S754_nan => Raise ValueError
  | S754_infinity _ => Raise OverflowError
  | _ =>
      let intpart := float_trunc x in
      let floatpart := (x - SF2Prim (SF64 intpart))%float in
      let us := float_round (floatpart * 1000000)%float in
      let '(sec, us) :=
        if 1000000 <=? us then (intpart + 1, us - 1000000)
        else if us <? 0 then (intpart - 1, us + 1000000)
        else (intpart, us) in
      if (sec <? - 2 ^ 63) || (2 ^ 63 <=? sec) then Raise OverflowError
      else if (sec <? min_timestamp) || (max_timestamp <? sec)
      then Raise ValueError
      else Ok (sec * 1000000 + us)
  end.

(** [t / 1000] *)
Definition truediv_1000 (t : value) : result float :=
  match t with
  | VInt n => int_truediv n 1000
  | VBool b => int_truediv (if b then 1 else 0) 1000
  | VFloat x => Ok (x / 1000)%float
  | _ => Raise TypeError
  end.

(** ** [_fetch_listing_date] *)

Definition candle_payload (asset : string) : value :=
  VDict [("type", VStr "candleSnapshot");
         ("req", VDict [("coin", VStr asset);
                        ("interval", VStr "1h");
                        ("startTime", VInt 0);
                        ("endTime", VInt 9999999999999)])].

(** The body of the first [try], after the request:
    [if candles and len(candles) > 0: return datetime.fromtimestamp(
     candles[0]["t"] / 1000, tz=timezone.utc)]; [None] when the [if] is
    not taken. *)
Definition first_candle_time (candles : value)
  : result (option datetime) :=
  if Py.truthy candles then
    n ← Py.len candles;
    if 0 <? n then
      c ← Py.index candles 0;
      t ← Py.item c "t";
      x ← truediv_1000 t;
      dt ← fromtimestamp_utc x;
      Ok (Some dt)
    else Ok None
  else Ok None.

(** [datetime.fromisoformat(fallback_iso[:26]).replace(tzinfo=utc)].
    Slicing a number raises [TypeError]; a list can be sliced but is not
    a [str]; slicing a dict raises [KeyError] (Python 3.12 and later,
    where a slice is hashable; [TypeError] before). *)
Definition parse_fallback `{Builtins} (fallback_iso : value)
  : result datetime :=
  match fallback_iso with
  | VStr s =>
      match fromisoformat (Py.take_str 26 s) with
      | Some dt => Ok dt
      | None => Raise ValueError
      end
  | VDict _ => Raise KeyError
  | _ => Raise TypeError
  end.

(** First 1h candle open time = listing date proxy (hour precision).
    Fallback: lastGrowthModeChangeTime for zero-volume markets. *)
Definition _fetch_listing_date `{Builtins, Remote}
    (asset : string) (fallback_iso : value) : IO (option datetime) :=
  found ← try_except
            (candles ← post (candle_payload asset);
             lift (first_candle_time candles))
            (mret None);
  match found with
  | Some dt => mret (Some dt)
  | None =>
      if Py.truthy fallback_iso then
        match parse_fallback fallback_iso with
        | Ok dt => mret (Some dt)
        | Raise e => if is_value_or_type_error e then mret None else raise e
        end
      else mret None
  end.

(** ** Thread pools

    A pool runs its tasks to completion and [as_completed] yields them in
    an order the scheduler chooses. The embedding runs each task as one
    step, in the order of completion; the order is read from the
    scheduler's pending choices [sched]: every choice picks one of the
    tasks still pending, so every order of completion is some [sched]. *)

(** Remove the element at position [i]. *)
Fixpoint take_out {A} (i : nat) (l : list A) {struct l}
  : option (A * list A) :=
  match l with
  | [] => None
  | x :: l' =>
      match i with
      | O => Some (x, l')
      | S i' =>
          match take_out i' l' with
          | Some (y, r) => Some (y, x :: r)
          | None => None
          end
      end
  end.

Fixpoint completion_order {A} (n : nat) (choices : list nat)
    (pending : list A) : list A :=
  match n with
  | O => []
  | S n' =>
      let i := Nat.modulo (hd O choices) (length pending) in
      match take_out i pending with
      | Some (x, rest) => x :: completion_order n' (tl choices) rest
      | None => []
      end
  end.

Definition as_completed {A} (futures : list A) : IO (list A) :=
  fun w =>
    (Ok (completion_order (length futures) (sched w) futures),
     World (log w) (_listing_date_cache w)
           (drop (length futures) (sched w)) (now w)).

(** [ThreadPoolExecutor(max_workers=n)]: the constructor raises
    [ValueError] ("max_workers must be greater than 0") for [n <= 0]. *)
Definition ThreadPoolExecutor (max_workers : nat) : IO unit :=
  match max_workers with
  | O => raise ValueError
  | S _ => mret tt
  end.

(** ** [_get_listing_dates] *)

(** The first loop: cached assets go to [results], the others to
    [to_fetch]. *)
Definition split_cached (cache : gmap string (option datetime))
    (assets_with_fallbacks : list (string * value))
  : gmap string (option datetime) * list (string * value) :=
  foldl (fun acc item =>
           match cache !! item.1 with
           | Some dt => (<[item.1 := dt]> acc.1, acc.2)
           | None => (acc.1, acc.2 ++ [item])
           end)
        (∅, []) assets_with_fallbacks.

(** [_listing_date_cache[asset] = dt] *)
Definition cache_store (asset : string) (dt : option datetime) : IO unit :=
  fun w =>
    (Ok tt,
     World (log w) (<[asset := dt]> (_listing_date_cache w)) (sched w)
           (now w)).

(** The loop over [as_completed(futures)]. *)
Fixpoint collect `{Builtins, Remote} (completed : list (string * value))
    (results : gmap string (option datetime))
  : IO (gmap string (option datetime)) :=
  match completed with
  | [] => mret results
  | (asset, fallback) :: rest =>
      dt ← try_except (_fetch_listing_date asset fallback) (mret None);
      cache_store asset dt;;
      collect rest (<[asset := dt]> results)
  end.

(** Fetch listing dates in parallel, skipping already-cached assets. *)
Definition _get_listing_dates `{Builtins, Remote}
    (assets_with_fallbacks : list (string * value))
  : IO (gmap string (option datetime)) :=
  fun w =>
    let '(results, to_fetch) :=
      split_cached (_listing_date_cache w) assets_with_fallbacks in
    match to_fetch with
    | [] => (Ok results, w)
    | _ :: _ =>
        (ThreadPoolExecutor 12;;
         completed ← as_completed to_fetch;
         collect completed results) w
    end.

(** ** [_to_float] and the coercions of [get_all_markets] *)

Definition _to_float `{Builtins} (val : value) : result (option float) :=
  match val with
  | VNone => Ok None
  | _ =>
      match py_float val with
      | Ok x => Ok (Some x)
      | Raise e => if is_value_or_type_error e then Ok None else Raise e
      end
  end.

(** [try: x = float(v or 0) except (ValueError, TypeError): x = 0.0] *)
Definition float_or_zero `{Builtins} (v : value) : result float :=
  match py_float (Py.or v (VInt 0)) with
  | Ok x => Ok x
  | Raise e => if is_value_or_type_error e then Ok 0%float else Raise e
  end.

(** ** The first loop of [get_all_markets]: caps and sub-exchange info *)

(** A value used as a dict key. A list or a dict is unhashable. Keys
    that are hashable but not strings (null, booleans, numbers) are
    outside the embedding when the key is a sub-exchange name. *)
Definition dict_key (name : value) : result string :=
  match name with
  | VStr s => Ok s
  | VList _ | VDict _ => Raise TypeError
  | _ => Raise Unsupported
  end.

(** [oi_cap_lookup[key] = cap]. A hashable key that is not a string is
    stored by Python under a key that no asset (a string) is equal to;
    the embedding leaves the lookup as it is. *)
Definition store_cap (lookup : gmap string float) (key : value) (cap : float)
  : result (gmap string float) :=
  match key with
  | VStr s => Ok (<[s := cap]> lookup)
  | VList _ | VDict _ => Raise TypeError
  | _ => Ok lookup
  end.

(** One iteration of [for pair in ...]. *)
Definition add_cap `{Builtins} (lookup : gmap string float) (pair : value)
  : result (gmap string float) :=
  if Py.is_none pair then Ok lookup
  else
    n ← Py.len pair;
    if n <? 2 then Ok lookup
    else
      match (p1 ← Py.index pair 1;
             cap ← py_float p1;
             p0 ← Py.index pair 0;
             store_cap lookup p0 cap) with
      | Ok lookup' => Ok lookup'
      | Raise e => if is_value_or_type_error e then Ok lookup else Raise e
      end.

Fixpoint add_caps `{Builtins} (lookup : gmap string float)
    (pairs : list value) : result (gmap string float) :=
  match pairs with
  | [] => Ok lookup
  | p :: rest => lookup' ← add_cap lookup p; add_caps lookup' rest
  end.

(** One iteration of [for dex in dexes]. *)
Definition scan_dex `{Builtins}
    (acc : gmap string float * gmap string (value * value)) (dex : value)
  : result (gmap string float * gmap string (value * value)) :=
  name ← Py.get dex "name" (VStr "");
  full_name ← Py.get dex "fullName" name;
  deployer ← Py.get dex "deployer" (VStr "");
  key ← dict_key name;
  let dex_info := <[key := (full_name, deployer)]> acc.2 in
  caps ← Py.get dex "assetToStreamingOiCap" (VList []);
  pairs ← Py.iter (Py.or caps (VList []));
  oi_cap_lookup ← add_caps acc.1 pairs;
  Ok (oi_cap_lookup, dex_info).

Fixpoint scan_dexes `{Builtins}
    (acc : gmap string float * gmap string (value * value))
    (dexes : list value)
  : result (gmap string float * gmap string (value * value)) :=
  match dexes with
  | [] => Ok acc
  | dex :: rest => acc' ← scan_dex acc dex; scan_dexes acc' rest
  end.

(** ** The rows of [get_all_markets] *)

Module RawRow.
Record t : Type := Make {
  dex : string;
  dex_full_name : value;
  deployer : value;
  asset : string;
  ticker : string;
  mark_px : option float;
  oracle_px : option float;
  day_ntl_vlm : option float;
  open_interest : float;          (* open_interest_usd *)
  oi_cap : option float;
  oi_cap_pct : option float;
  funding : option float;
  max_leverage : value;
  growth_mode : value;
  _fallback_iso : value;
}.
End RawRow.

Module Row.
Record t : Type := Make {
  dex : string;
  dex_full_name : value;
  deployer : value;
  asset : string;
  ticker : string;
  mark_px : option float;
  oracle_px : option float;
  day_ntl_vlm : option float;
  open_interest : float;          (* open_interest_usd *)
  oi_cap : option float;
  oi_cap_pct : option float;
  funding : option float;
  max_leverage : value;
  growth_mode : value;
  listing_date : option datetime;
  market_age_days : option Z;
}.
End Row.

(** [":" in s] *)
Fixpoint contains_colon (s : string) : bool :=
  match s with
  | EmptyString => false
  | String c rest => Ascii.eqb c ":" || contains_colon rest
  end.

(** [s.split(":")] *)
Fixpoint split_colon (s : string) : list string :=
  match s with
  | EmptyString => [EmptyString]
  | String c rest =>
      if Ascii.eqb c ":" then EmptyString :: split_colon rest
      else
        match split_colon rest with
        | piece :: pieces => String c piece :: pieces
        | [] => [String c EmptyString]
        end
  end.

(** [asset.split(":")[-1] if ":" in asset else asset] *)
Definition ticker_of (asset : string) : string :=
  if contains_colon asset then List.last (split_colon asset) EmptyString
  else asset.

Definition is_colon (v : value) : bool :=
  match v with
  | VStr s => String.eqb s ":"
  | _ => false
  end.

(** What the first lines of the loop body need of [m["asset"]]: the
    membership test raises [TypeError] on null, a boolean or a number;
    a list or a dict passes the test but has no [split] when it holds
    [":"], and is unhashable at [oi_cap_lookup.get(asset)] otherwise. *)
Definition asset_str (v : value) : result string :=
  match v with
  | VStr s => Ok s
  | VList xs =>
      if existsb is_colon xs then Raise AttributeError else Raise TypeError
  | VDict kvs =>
      if existsb (fun kv => String.eqb (fst kv) ":") kvs
      then Raise AttributeError else Raise TypeError
  | _ => Raise TypeError
  end.

(** [if oi_cap and oi_cap > 0: oi_cap_pct = open_interest_usd / oi_cap * 100] *)
Definition cap_pct (open_interest_usd : float) (oi_cap : option float)
  : option float :=
  match oi_cap with
  | Some cap =>
      if Py.truthy (VFloat cap) && float_gt cap 0
      then Some (open_interest_usd / cap * 100)%float
      else None
  | None => None
  end.

(** The body of [for m in markets]. *)
Definition build_raw_row `{Builtins} (oi_cap_lookup : gmap string float)
    (dex_name : string) (info : option (value * value)) (m : Market.t)
  : result RawRow.t :=
  asset ← asset_str (Market.asset m);
  let ticker := ticker_of asset in
  let oi_cap := oi_cap_lookup !! asset in
  oi_float ← float_or_zero (Market.open_interest m);
  mark_float ← float_or_zero (Market.mark_px m);
  let open_interest_usd := (oi_float * mark_float)%float in
  let oi_cap_pct := cap_pct open_interest_usd oi_cap in
  mark ← _to_float (Market.mark_px m);
  oracle ← _to_float (Market.oracle_px m);
  vlm ← _to_float (Market.day_ntl_vlm m);
  fund ← _to_float (Market.funding m);
  Ok (RawRow.Make
        dex_name
        (match info with Some i => i.1 | None => VStr dex_name end)
        (match info with Some i => i.2 | None => VStr "" end)
        asset ticker mark oracle vlm open_interest_usd oi_cap oi_cap_pct
        fund (Market.max_leverage m) (Market.growth_mode m)
        (Market.last_growth_mode_change_time m)).

Fixpoint build_raw_rows `{Builtins} (oi_cap_lookup : gmap string float)
    (dex_name : string) (info : option (value * value))
    (markets : list Market.t) : result (list RawRow.t) :=
  match markets with
  | [] => Ok []
  | m :: rest =>
      row ← build_raw_row oi_cap_lookup dex_name info m;
      rows ← build_raw_rows oi_cap_lookup dex_name info rest;
      Ok (row :: rows)
  end.

(** One iteration of [for future in as_completed(futures)]: the task of
    [dex] completes; a failed fetch is skipped ([continue]). *)
Definition process_dex `{Builtins, Remote}
    (oi_cap_lookup : gmap string float)
    (dex_info : gmap string (value * value))
    (raw_rows : list RawRow.t) (dex : value) : IO (list RawRow.t) :=
  dex_name ← lift (Py.get dex "name" (VStr ""));
  key ← lift (dict_key dex_name);
  fetched ← try_except (markets ← get_dex_markets dex_name;
                        mret (Some markets))
                       (mret None);
  match fetched with
  | None => mret raw_rows
  | Some markets =>
      rows ← lift (build_raw_rows oi_cap_lookup key (dex_info !! key)
                     markets);
      mret (raw_rows ++ rows)
  end.

Fixpoint process_dexes `{Builtins, Remote}
    (oi_cap_lookup : gmap string float)
    (dex_info : gmap string (value * value))
    (raw_rows : list RawRow.t) (completed : list value)
  : IO (list RawRow.t) :=
  match completed with
  | [] => mret raw_rows
  | dex :: rest =>
      raw_rows' ← process_dex oi_cap_lookup dex_info raw_rows dex;
      process_dexes oi_cap_lookup dex_info raw_rows' rest
  end.

(** [(now - listing_dt).days]: whole days, rounded down. *)
Definition days_between (now listing_dt : datetime) : Z :=
  (now - listing_dt) / 86400000000.

(** The second loop: join the listing date onto a raw row. *)
Definition finish_row (listing_dates : gmap string (option datetime))
    (now : datetime)
    (row : RawRow.t) : Row.t :=
  let listing_dt :=
    match listing_dates !! RawRow.asset row with
    | Some dt => dt
    | None => None
    end in
  let market_age_days :=
    match listing_dt with
    | Some dt => Some (days_between now dt)
    | None => None
    end in
  Row.Make (RawRow.dex row) (RawRow.dex_full_name row) (RawRow.deployer row)
           (RawRow.asset row) (RawRow.ticker row) (RawRow.mark_px row)
           (RawRow.oracle_px row) (RawRow.day_ntl_vlm row)
           (RawRow.open_interest row) (RawRow.oi_cap row)
           (RawRow.oi_cap_pct row) (RawRow.funding row)
           (RawRow.max_leverage row) (RawRow.growth_mode row)
           listing_dt market_age_days.

(** ** [df.sort_values(["dex", "day_ntl_vlm"], ascending=[True, False])]

    Pandas sorts on several columns with a stable lexicographic sort;
    a missing value ([None] or NaN) of a column goes last among the rows
    that agree on the columns before it, whatever the direction. *)

Definition vlm_key (r : Row.t) : option float :=
  match Row.day_ntl_vlm r with
  | Some x => if is_nan x then None else Some x
  | None => None
  end.

(** [a] may stand before [b] in the column [day_ntl_vlm], descending. *)
Definition vlm_leb (a b : Row.t) : bool :=
  match vlm_key a, vlm_key b with
  | _, None => true
  | None, Some _ => false
  | Some x, Some y => float_ge x y
  end.

(** [a] may stand before [b] in the sorted table. *)
Definition row_leb (a b : Row.t) : bool :=
  match String.compare (Row.dex a) (Row.dex b) with
  | Lt => true
  | Eq => vlm_leb a b
  | Gt => false
  end.

Fixpoint insert_row (r : Row.t) (sorted : list Row.t) : list Row.t :=
  match sorted with
  | [] => [r]
  | r' :: rest =>
      if row_leb r r' then r :: r' :: rest else r' :: insert_row r rest
  end.

Fixpoint sort_values (rows : list Row.t) : list Row.t :=
  match rows with
  | [] => []
  | r :: rest => insert_row r (sort_values rest)
  end.

(** ** [get_all_markets] *)

Definition clock : IO datetime := fun w => (Ok (now w), w).

(** Fetch all HIP-3 markets across all DEXes and return a flat
    DataFrame (its rows, in order; the empty list for [pd.DataFrame()]). *)
Definition get_all_markets `{Builtins, Remote} : IO (list Row.t) :=
  dexes ← get_dexes;
  tables ← lift (scan_dexes (∅, ∅) dexes);
  let oi_cap_lookup := tables.1 in
  let dex_info := tables.2 in
  ThreadPoolExecutor (length dexes);;
  completed ← as_completed dexes;
  raw_rows ← process_dexes oi_cap_lookup dex_info [] completed;
  match raw_rows with
  | [] => mret []
  | _ :: _ =>
      listing_dates ←
        _get_listing_dates
          (map (fun r => (RawRow.asset r, RawRow._fallback_iso r)) raw_rows);
      now ← clock;
      mret (sort_values (map (finish_row listing_dates now) raw_rows))
  end.

(** * Vocabulary of the statements *)

(** Append events to the log. *)
Definition extend (evs : list event) (w : world) : world :=
  World (log w ++ evs) (_listing_date_cache w) (sched w) (now w).

(** The events of [k] rate-limited rounds that start with delay [d]:
    a request, a sleep of [d], a request, a sleep of [2 d], ... *)
Fixpoint backoff (payload : value) (k : nat) (d : float) : list event :=
  match k with
  | O => []
  | S k' => Request payload :: Sleep d :: backoff payload k' (d * 2)%float
  end.

(** The reply is a 429. *)
Definition rate_limited (r : reply) : bool :=
  match r with
  | Response st _ => st =? 429
  | NoResponse => false
  end.

(** What a reply becomes when it is not retried. *)
Definition outcome (r : reply) : result value :=
  match r with
  | Response st body => raise_for_status (st, body);; json (st, body)
  | NoResponse => Raise ConnectionError
  end.

(** The reply to the request that follows [i] rate-limited rounds. *)
Definition reply_after `{Remote} (w : world) (payload : value) (d : float)
    (i : nat) : reply :=
  server (log w ++ backoff payload i d) payload.

Definition is_request (ev : event) : bool :=
  match ev with Request _ => true | Sleep _ => false end.

(** How many requests, and which sleeps, a stretch of the log holds. *)
Definition requests_in (evs : list event) : nat :=
  length (List.filter is_request evs).

Definition sleeps_in (evs : list event) : list float :=
  omap (fun ev => match ev with Sleep d => Some d | Request _ => None end)
       evs.

(** A fresh process: nothing logged, nothing cached. *)
Definition fresh_world (choices : list nat) (now : Z) : world :=
  World [] ∅ choices now.

(** An API that answers every request with 429. *)
Definition always_rate_limited : Remote :=
  {| server := fun _ _ => Response 429 None |}.

(** ** Market fetch *)

(** The asset is flagged delisted: [meta.get("isDelisted")] is true. *)
Definition delisted (meta : value) : bool :=
  match Py.get meta "isDelisted" VNone with
  | Ok flag => Py.truthy flag
  | Raise _ => false
  end.


(** The snapshot a pair contributes, if any. *)
Definition kept (pair : value * value) : option Market.t :=
  match snapshot pair.1 pair.2 with
  | Ok (Some m) => Some m
  | _ => None
  end.

(** The sequences [get_dex_markets] zips, out of the decoded response. *)
Definition zipped_sequences (data : value)
  : result (list value * list value) :=
  universe ← universe_of data;
  asset_ctxs ← asset_ctxs_of data;
  us ← Py.iter universe;
  cs ← Py.iter asset_ctxs;
  Ok (us, cs).


(** ** Listing dates *)

(** The listing date [_get_listing_dates] settles on for a task: what
    [_fetch_listing_date] returns, [None] when it raises. *)
Definition resolved `{Builtins, Remote} (asset : string) (fallback : value)
    (w : world) : option Z :=
  match (_fetch_listing_date asset fallback w).1 with
  | Ok dt => dt
  | Raise _ => None
  end.

(** Every request among [evs] is a candle request for one of [assets]. *)
Definition candle_traffic (assets : list string) (evs : list event) : Prop :=
  forall payload, Request payload ∈ evs ->
    exists asset, asset ∈ assets /\ payload = candle_payload asset.

(** The world after a series of calls of [_get_listing_dates]. *)
Fixpoint resolutions `{Builtins, Remote}
    (batches : list (list (string * value))) (w : world) : world :=
  match batches with
  | [] => w
  | batch :: rest => resolutions rest (_get_listing_dates batch w).2
  end.

(** The assets of a batch that the cache does not hold. *)
Definition uncached (cache : gmap string (option Z))
    (batch : list (string * value)) : list string :=
  (filter (fun item => cache !! item.1 = None) batch).*1.

(** The candle request found nothing: it raised, or it returned an empty
    list. *)
Definition no_candle `{Remote} (asset : string) (w w' : world) : Prop :=
  (exists e, post (candle_payload asset) w = (Raise e, w'))
  \/ post (candle_payload asset) w = (Ok (VList []), w').

(** ** Binary64 *)

(** A float that is neither a NaN nor an infinity. *)
Definition finite (x : float) : bool :=
  match Prim2SF x with
  | S754_zero _ | S754_finite _ _ _ => true
  | _ => false
  end.

(** [x >= 0] *)
Definition nonneg (x : float) : bool := float_ge x 0.

(** [x == 0] *)
Definition is_zero (x : float) : bool := PrimFloat.eqb x 0.

(** [f] is a number (not a NaN) whose sign bit is [s]. *)
Definition has_sign (s : bool) (f : spec_float) : Prop :=
  match f with
  | S754_zero s' | S754_infinity s' | S754_finite s' _ _ => s' = s
  | S754_nan => False
  end.

(** The sign bit of a number. *)
Definition sf_sign (f : spec_float) : option bool :=
  match f with
  | S754_zero s | S754_infinity s | S754_finite s _ _ => Some s
  | S754_nan => None
  end.

(** Neither a NaN nor an infinity. *)
Definition sf_finite (f : spec_float) : bool :=
  match f with
  | S754_zero _ | S754_finite _ _ _ => true
  | _ => false
  end.

(** The binary64 number equal to the integer [p], for [p] below [2^53]:
    the mantissa is [p] shifted to 53 bits. *)
Definition binary64_of_pos (p : positive) : spec_float :=
  let d := Z.log2 (Zpos p) + 1 in
  S754_finite false (Z.to_pos (Zpos p * 2 ^ (53 - d))) (d - 53).

(** ** Aggregated rows *)

(** [m] is a snapshot the market fetch returned for the sub-exchange
    [name]. *)
Definition fetched `{Remote} (name : string) (m : Market.t) : Prop :=
  exists w markets w',
    get_dex_markets (VStr name) w = (Ok markets, w') /\ m ∈ markets.

(** [raw] is the row the loop body builds for the fetched snapshot [m]
    under the cap table [lookup]. *)
Definition raw_row_of `{Builtins, Remote} (lookup : gmap string float)
    (m : Market.t) (raw : RawRow.t) : Prop :=
  exists name info,
    fetched name m /\ build_raw_row lookup name info m = Ok raw.

(** [row] is the aggregated row of the fetched snapshot [m]: its raw
    row with a listing date joined on. *)
Definition aggregates `{Builtins, Remote} (lookup : gmap string float)
    (m : Market.t) (row : Row.t) : Prop :=
  exists raw dates now,
    raw_row_of lookup m raw /\ row = finish_row dates now raw.

(** The rows in the order they are fetched: the fan-out of
    [get_all_markets] over the sub-exchanges, up to the end of its
    [as_completed] loop. *)
Definition fetch_rows `{Builtins, Remote}
    (tables : gmap string float * gmap string (value * value))
    (dexes : list value) : IO (list RawRow.t) :=
  completed ← as_completed dexes;
  process_dexes tables.1 tables.2 [] completed.

(** Two rows with the same sort key: the same sub-exchange, and volumes
    that are both missing or equal as numbers. *)
Definition same_key (a b : Row.t) : bool := row_leb a b && row_leb b a.

(** ** The cap lookup, pair by pair *)





(** ** Sample environments, for the examples

    The statements below hold for every [Builtins] and every [Remote].
    The examples run the code on these. *)

Definition digit_of (c : ascii) : option Z :=
  let n := Z.of_nat (nat_of_ascii c) in
  if (48 <=? n) && (n <=? 57) then Some (n - 48) else None.

(** The longest prefix of digits: its value after [acc], how many digits
    it has, and what follows it. *)
Fixpoint scan_digits (s : string) (acc : Z) (n : nat) : Z * nat * string :=
  match s with
  | String c rest =>
      match digit_of c with
      | Some d => scan_digits rest (acc * 10 + d) (S n)
      | None => (acc, n, s)
      end
  | EmptyString => (acc, n, s)
  end.

Definition signed_quotient (neg : bool) (num den : Z) : option float :=
  if num =? 0 then Some (if neg then (-0)%float else 0%float)
  else
    match int_truediv (if neg then - num else num) (Z.to_pos den) with
    | Ok x => Some x
    | Raise _ => None
    end.

(** [float(s)] on plain decimal literals: an optional minus sign, digits,
    and an optional point followed by digits. *)
Definition decimal_float (s : string) : option float :=
  let '(neg, body) :=
    match s with
    | String "-" rest => (true, rest)
    | _ => (false, s)
    end in
  let '(int_part, n1, rest) := scan_digits body 0 O in
  match rest with
  | EmptyString =>
      if Nat.eqb n1 O then None else signed_quotient neg int_part 1
  | String "." frac =>
      let '(all, n2, rest') := scan_digits frac int_part O in
      match rest' with
      | EmptyString =>
          if Nat.eqb (n1 + n2) O then None
          else signed_quotient neg all (10 ^ Z.of_nat n2)
      | _ => None
      end
  | _ => None
  end.

(** Days from 1970-01-01 to the given date of the proleptic Gregorian
    calendar. *)
Definition days_from_civil (y m d : Z) : Z :=
  let y' := if m <=? 2 then y - 1 else y in
  let era := y' / 400 in
  let yoe := y' - era * 400 in
  let mp := if 2 <? m then m - 3 else m + 9 in
  let doy := (153 * mp + 2) / 5 + d - 1 in
  let doe := yoe * 365 + yoe / 4 - yoe / 100 + doy in
  era * 146097 + doe - 719468.

Definition days_in_month (y m : Z) : Z :=
  if m =? 2 then
    if ((y mod 4 =? 0) && negb (y mod 100 =? 0)) || (y mod 400 =? 0)
    then 29 else 28
  else if (m =? 4) || (m =? 6) || (m =? 9) || (m =? 11) then 30 else 31.

(** A field of exactly [n] digits at position [i]. *)
Definition field (s : string) (i n : nat) : option Z :=
  match scan_digits (substring i n s) 0 O with
  | (v, k, EmptyString) => if Nat.eqb k n then Some v else None
  | _ => None
  end.

Definition char_is (s : string) (i : nat) (c : ascii) : bool :=
  match String.get i s with
  | Some c' => Ascii.eqb c c'
  | None => false
  end.

(** [datetime.fromisoformat(s)] on the two layouts
    [YYYY-MM-DDTHH:MM:SS] and [YYYY-MM-DDTHH:MM:SS.ffffff]. *)
Definition iso_seconds (s : string) : option Z :=
  let n := String.length s in
  if negb (Nat.eqb n 19 || Nat.eqb n 26) then None
  else if negb (char_is s 4 "-" && char_is s 7 "-" && char_is s 10 "T"
                && char_is s 13 ":" && char_is s 16 ":") then None
  else
    y ← field s 0 4; mo ← field s 5 2; d ← field s 8 2;
    h ← field s 11 2; mi ← field s 14 2; sec ← field s 17 2;
    us ← (if Nat.eqb n 26
          then if char_is s 19 "." then field s 20 6 else None
          else Some 0);
    if (1 <=? y) && (1 <=? mo) && (mo <=? 12) && (1 <=? d)
       && (d <=? days_in_month y mo) && (h <? 24) && (mi <? 60)
       && (sec <? 60)
    then Some ((((days_from_civil y mo d * 24 + h) * 60 + mi) * 60 + sec)
               * 1000000 + us)
    else None.

Definition sample_builtins : Builtins :=
  {| float_of_str := decimal_float; fromisoformat := iso_seconds |}.

(** The operation a payload names. *)
Definition payload_type (payload : value) : string :=
  match payload with
  | VDict kvs =>
      match Py.assoc kvs "type" with
      | Some (VStr t) => t
      | _ => ""
      end
  | _ => ""
  end.

Definition payload_dex (payload : value) : value :=
  match payload with
  | VDict kvs =>
      match Py.assoc kvs "dex" with
      | Some v => v
      | None => VNone
      end
  | _ => VNone
  end.

Definition payload_coin (payload : value) : string :=
  match payload with
  | VDict kvs =>
      match Py.assoc kvs "req" with
      | Some (VDict req) =>
          match Py.assoc req "coin" with
          | Some (VStr c) => c
          | _ => ""
          end
      | _ => ""
      end
  | _ => ""
  end.

Definition ok_json (v : value) : reply := Response 200 (Some v).

(** Two sub-exchanges behind a null placeholder: [one] lists a single
    asset (volume 100), [two] lists two live assets (volumes 50 and 200)
    and a delisted one. Candles exist for [one:AAA] only; [two:BBB] has
    a growth-mode timestamp to fall back on. *)
Definition demo_dexes : value :=
  VList [VNone;
         VDict [("name", VStr "two"); ("fullName", VStr "Second");
                ("deployer", VStr "0x02");
                ("assetToStreamingOiCap",
                 VList [VList [VStr "two:BBB"; VStr "1000"];
                        VList [VStr "two:CCC"; VStr "n/a"];
                        VList [VStr "short"]])];
         VNone;
         VDict [("name", VStr "one"); ("fullName", VStr "First");
                ("deployer", VStr "0x01")]].

Definition demo_markets (dex_name : value) : value :=
  match dex_name with
  | VStr "one" =>
      VList [VDict [("universe",
                     VList [VDict [("name", VStr "one:AAA");
                                   ("maxLeverage", VInt 10)]])];
             VList [VDict [("dayNtlVlm", VStr "100");
                           ("openInterest", VStr "2.5");
                           ("markPx", VStr "4")]]]
  | VStr "two" =>
      VList [VDict [("universe",
                     VList [VDict [("name", VStr "two:BBB");
                                   ("lastGrowthModeChangeTime",
                                    VStr "2024-01-15T10:30:00.123456789")];
                            VDict [("name", VStr "two:OLD");
                                   ("isDelisted", VBool true)];
                            VDict [("name", VStr "two:CCC")]])];
             VList [VDict [("dayNtlVlm", VStr "50");
                           ("openInterest", VStr "10");
                           ("markPx", VStr "20")];
                    VDict [("dayNtlVlm", VStr "999")];
                    VDict [("dayNtlVlm", VStr "200")]]]
  | _ => VList []
  end.

Definition demo_api : Remote :=
  {| server := fun _ payload =>
       let t := payload_type payload in
       if String.eqb t "perpDexs" then ok_json demo_dexes
       else if String.eqb t "metaAndAssetCtxs"
       then ok_json (demo_markets (payload_dex payload))
       else if String.eqb (payload_coin payload) "one:AAA"
       then ok_json (VList [VDict [("t", VInt 1700000000000)]])
       else ok_json (VList []) |}.

(** An API with no sub-exchange at all. *)
Definition empty_api : Remote :=
  {| server := fun _ _ => ok_json (VList []) |}.

(** The demo API seen from a fresh process. *)
Definition demo_world : world := fresh_world [] 1705400000000000.

Definition demo_run : result (list Row.t) * world :=
  Eval vm_compute in @get_all_markets sample_builtins demo_api demo_world.

Definition demo_table : list Row.t :=
  match demo_run.1 with
  | Ok rows => rows
  | Raise _ => []
  end.

(** One sub-exchange with a short position reported as a negative open
    interest, and an asset with no open interest and an infinite mark
    price. *)
Definition signed_api : Remote :=
  {| server := fun _ payload =>
       let t := payload_type payload in
       if String.eqb t "perpDexs"
       then ok_json (VList [VDict [("name", VStr "x")]])
       else if String.eqb t "metaAndAssetCtxs"
       then ok_json
              (VList [VDict [("universe",
                              VList [VDict [("name", VStr "x:NEG")];
                                     VDict [("name", VStr "x:INF")]])];
                      VList [VDict [("openInterest", VStr "-1");
                                    ("markPx", VStr "2");
                                    ("dayNtlVlm", VStr "7")];
                             VDict [("markPx", VFloat infinity);
                                    ("dayNtlVlm", VStr "3")]]])
       else ok_json (VList []) |}.

Definition signed_run : result (list Row.t) * world :=
  Eval vm_compute in
    @get_all_markets sample_builtins signed_api (fresh_world [] 0).

(** A process that has already resolved ["one:AAA"]. *)
Definition cached_world : world :=
  World [] {["one:AAA" := Some 1700000000000000]} [] 0.

(** An API whose discovery lists one sub-exchange and whose market
    fetch always ends in a server error. *)
Definition failing_fetch_api : Remote :=
  {| server := fun _ payload =>
       if String.eqb (payload_type payload) "perpDexs"
       then ok_json (VList [VDict [("name", VStr "x")]])
       else Response 500 None |}.


(** An API whose discovery holds null placeholders only. *)
Definition placeholder_api : Remote :=
  {| server := fun _ _ => ok_json (VList [VNone; VNone]) |}.


(** ** Vocabulary of the further properties *)

(** The delays of [k] rate-limited rounds: [d], [2 d], [4 d], ... *)
Fixpoint delays (k : nat) (d : float) : list float :=
  match k with
  | O => []
  | S k' => d :: delays k' (d * 2)%float
  end.

(** A candle response that yields no date: reading its first candle
    raises, or there is no candle to read. *)
Definition unusable (candles : value) : bool :=
  match first_candle_time candles with
  | Ok (Some _) => false
  | _ => true
  end.

(** An API whose candles carry their open time under another key. *)
Definition odd_candle_api : Remote :=
  {| server := fun _ _ => ok_json (VList [VDict [("T", VInt 1700000000000)]]) |}.

(** [w'] is the process at some point after [w]: its log extends the
    log of [w]. *)
Definition later (w w' : world) : Prop :=
  exists evs, log w' = log w ++ evs.

(** The three operations of the API that the module asks for. *)
Definition api_operation (payload : value) : Prop :=
  payload = perp_dexs_payload
  \/ (exists dex_name, payload = markets_payload dex_name)
  \/ (exists asset, payload = candle_payload asset).

(** No sub-exchange of the list carries the name. *)
Definition unnamed (name : string) (dexes : list value) : Prop :=
  forall dex, dex ∈ dexes -> Py.get dex "name" (VStr "") <> Ok (VStr name).

(** [raw] is the row built, under the tables of the first loop, for the
    snapshot [m] that the market fetch of [dex] returned at some point
    between [w] and [w']. *)
Definition row_fetched `{Builtins, Remote}
    (tables : gmap string float * gmap string (value * value))
    (w w' : world) (dex : value) (m : Market.t) (raw : RawRow.t) : Prop :=
  exists name w0 markets w0',
    Py.get dex "name" (VStr "") = Ok (VStr name)
    /\ later w w0 /\ later w0' w'
    /\ get_dex_markets (VStr name) w0 = (Ok markets, w0')
    /\ m ∈ markets
    /\ build_raw_row tables.1 name (tables.2 !! name) m = Ok raw.

(** The pricing context a snapshot reads: null stands for an empty
    object. *)
Definition context_of (ctx : value) : value :=
  if Py.is_none ctx then VDict [] else ctx.

(** An API whose only market has a null for a name. *)
Definition nameless_api : Remote :=
  {| server := fun _ payload =>
       let t := payload_type payload in
       if String.eqb t "perpDexs"
       then ok_json (VList [VDict [("name", VStr "x")]])
       else ok_json (VList [VDict [("universe",
                                    VList [VDict [("name", VNone)]])];
                            VList [VNone]]) |}.

(** The demo API a day later, seen from the process that [demo_run]
    leaves behind: the log and the cache are kept, the clock has moved
    on. *)
Definition refresh_world : world :=
  World (log demo_run.2) (_listing_date_cache demo_run.2) []
        (now demo_run.2 + 86400000000).

Definition refresh_run : result (list Row.t) * world :=
  Eval vm_compute in @get_all_markets sample_builtins demo_api refresh_world.

Definition refresh_table : list Row.t :=
  match refresh_run.1 with
  | Ok rows => rows
  | Raise _ => []
  end.

(** An API whose market responses have odd shapes, one per
    sub-exchange name. *)
Definition odd_markets (dex_name : value) : value :=
  match dex_name with
  | VStr "scalar" => VList [VInt 5]
  | VStr "universe" => VList [VDict [("universe", VInt 5)]]
  | VStr "contexts" => VList [VInt 5; VInt 7]
  | _ => VList []
  end.

Definition odd_shape_api : Remote :=
  {| server := fun _ payload => ok_json (odd_markets (payload_dex payload)) |}.

(** * Properties *)

(** ** Inversion of the two monads *)

Lemma result_bind_ok {A B} (r : result A) (f : A -> result B) b :
  r ≫= f = Ok b -> exists a, r = Ok a /\ f a = Ok b.
Proof. destruct r as [a|e]; [eauto | discriminate]. Qed.

Lemma IO_bind_ok {A B} (m : IO A) (f : A -> IO B) w b w' :
  (m ≫= f) w = (Ok b, w') ->
  exists a w1, m w = (Ok a, w1) /\ f a w1 = (Ok b, w').
Proof.
  unfold mbind, IO_bind. destruct (m w) as [[a|e] w1]; [eauto | discriminate].
Qed.

Lemma IO_bind_run {A B} (m : IO A) (f : A -> IO B) w a w1 :
  m w = (Ok a, w1) -> (m ≫= f) w = f a w1.
Proof. unfold mbind, IO_bind. by intros ->. Qed.

Lemma IO_bind_raise {A B} (m : IO A) (f : A -> IO B) w e w1 :
  m w = (Raise e, w1) -> (m ≫= f) w = (Raise e, w1).
Proof. unfold mbind, IO_bind. by intros ->. Qed.

Lemma lift_ok {A} (r : result A) w a w' :
  lift r w = (Ok a, w') -> r = Ok a /\ w' = w.
Proof. unfold lift. by intros [= -> ->]. Qed.

(** Split a successful run along its binds. *)
Ltac inv_io :=
  repeat match goal with
    | H : (_ ≫= _) _ = (Ok _, _) |- _ =>
        apply IO_bind_ok in H as (? & ? & ? & H)
    | H : lift _ _ = (Ok _, _) |- _ => apply lift_ok in H as [H ->]
    | H : mret _ _ = (Ok _, _) |- _ => injection H as <- <-
    | H : _ ≫= _ = Ok _ |- _ => apply result_bind_ok in H as (? & ? & H)
    | H : Ok _ = Ok _ |- _ => injection H as H
    end.

(** ** The HTTP client *)

Section Post.
Context `{Remote}.

Lemma extend_nil w : extend [] w = w.
Proof. destruct w; unfold extend; simpl. by rewrite app_nil_r. Qed.

Lemma extend_extend evs evs' w :
  extend evs' (extend evs w) = extend (evs ++ evs') w.
Proof. unfold extend; simpl. by rewrite app_assoc. Qed.

Lemma record_extend ev w : record ev w = extend [ev] w.
Proof. reflexivity. Qed.

(** The loop with [n] iterations: after [k <= n] rate-limited rounds the
    next reply is final, either because it is not a 429 or because the
    budget is spent. *)
Lemma post_loop_spec payload n : forall k d w,
  (k <= n)%nat ->
  (forall i, (i < k)%nat -> rate_limited (reply_after w payload d i) = true) ->
  ((k < n)%nat -> rate_limited (reply_after w payload d k) = false) ->
  post_loop payload n d w =
    (outcome (reply_after w payload d k),
     extend (backoff payload k d ++ [Request payload]) w).
Proof.
  induction n as [|n IH]; intros k d w Hk Hlim Hstop.
  - assert (k = O) as -> by lia.
    unfold reply_after; simpl. rewrite app_nil_r.
    unfold mbind, IO_bind, requests_post.
    destruct (server (log w) payload) as [st body|]; simpl; [|done].
    unfold lift, outcome. destruct (raise_for_status (st, body)); simpl; done.
  - destruct k as [|k].
    + specialize (Hstop ltac:(lia)).
      unfold reply_after in *; simpl in *. rewrite app_nil_r in *.
      unfold mbind, IO_bind, requests_post.
      destruct (server (log w) payload) as [st body|]; simpl in *; [|done].
      rewrite Hstop. unfold lift, outcome.
      destruct (raise_for_status (st, body)); simpl; done.
    + pose proof (Hlim O ltac:(lia)) as H0.
      unfold reply_after in H0; simpl in H0. rewrite app_nil_r in H0.
      cbn [post_loop]. unfold mbind at 1, IO_bind at 1, requests_post.
      destruct (server (log w) payload) as [st body|]; simpl in H0; [|done].
      cbn [fst]. rewrite H0.
      unfold mbind at 1, IO_bind at 1, time_sleep.
      rewrite !record_extend, extend_extend.
      rewrite (IH k (d * 2)%float); [| lia | |].
      * unfold reply_after. cbn [backoff extend log].
        rewrite extend_extend. f_equal.
        -- do 2 f_equal. by rewrite <- app_assoc.
      * intros i Hi. specialize (Hlim (S i) ltac:(lia)).
        unfold reply_after in *. cbn [backoff extend log] in *.
        by rewrite <- app_assoc.
      * intros Hlt. specialize (Hstop ltac:(lia)).
        unfold reply_after in *. cbn [backoff extend log] in *.
        by rewrite <- app_assoc.
Qed.

Lemma requests_in_backoff payload k d :
  requests_in (backoff payload k d ++ [Request payload]) = S k.
Proof.
  revert d. induction k as [|k IH]; intros d; [done|].
  unfold requests_in in *. simpl. by rewrite IH.
Qed.

Lemma outcome_error st body :
  400 <= st < 600 -> outcome (Response st body) = Raise (HTTPError st).
Proof.
  intros Hst. unfold outcome, raise_for_status. cbn [fst].
  replace ((400 <=? st) && (st <? 600)) with true; [done|].
  symmetry. apply andb_true_intro. split; [apply Z.leb_le | apply Z.ltb_lt]; lia.
Qed.

Lemma outcome_success st body :
  ~ 400 <= st < 600 -> outcome (Response st body) = json (st, body).
Proof.
  intros Hst. unfold outcome, raise_for_status. cbn [fst].
  destruct ((400 <=? st) && (st <? 600)) eqn:E; [|done].
  apply andb_prop in E as [?%Z.leb_le ?%Z.ltb_lt]. lia.
Qed.

(** C1. [_post] with its budget of 4: while the reply is a 429 it sleeps
    1, 2, 4, 8 seconds between requests; the first reply that is not a
    429 is final (an error status raises at once, no retry); after four
    rate-limited rounds a fifth request is sent and its outcome, whatever
    it is, is the outcome of the call. So [k] rate-limited replies cost
    [k + 1] requests, and a payload that is always rate-limited costs 5. *)
Theorem post_backoff payload w k :
  (k <= 4)%nat ->
  (forall i, (i < k)%nat ->
     rate_limited (reply_after w payload 1 i) = true) ->
  ((k < 4)%nat -> rate_limited (reply_after w payload 1 k) = false) ->
  let final := reply_after w payload 1 k in
  let events := backoff payload k 1 ++ [Request payload] in
  _post payload 4 w = (outcome final, extend events w)
  /\ sleeps_in events = take k [1; 2; 4; 8]%float
  /\ requests_in events = S k
  /\ (k = 4%nat -> requests_in events = 5%nat)
  /\ (forall st body, final = Response st body -> 400 <= st < 600 ->
        outcome final = Raise (HTTPError st))
  /\ (forall st body, final = Response st body -> ~ 400 <= st < 600 ->
        outcome final = json (st, body))
  /\ (final = NoResponse -> outcome final = Raise ConnectionError).
Proof.
  intros Hk Hlim Hstop final events. repeat split.
  - by apply post_loop_spec.
  - subst events. do 5 (destruct k as [|k]; [reflexivity|]). lia.
  - apply requests_in_backoff.
  - intros ->. apply requests_in_backoff.
  - intros st body -> Hst. by apply outcome_error.
  - intros st body -> Hst. by apply outcome_success.
  - by intros ->.
Qed.

End Post.

(** A payload that is rate-limited for ever: five requests, sleeps of
    1, 2, 4 and 8 seconds, and the fifth 429 is raised. *)
Lemma post_backoff_witness :
  @_post always_rate_limited perp_dexs_payload 4 (fresh_world [] 0)
  = (Raise (HTTPError 429),
     extend [Request perp_dexs_payload; Sleep 1; Request perp_dexs_payload;
             Sleep 2; Request perp_dexs_payload; Sleep 4;
             Request perp_dexs_payload; Sleep 8;
             Request perp_dexs_payload] (fresh_world [] 0)).
Proof.
  apply (@post_backoff always_rate_limited perp_dexs_payload
           (fresh_world [] 0) 4).
  - lia.
  - intros i Hi. reflexivity.
  - lia.
Defined.

(** ** Tickers *)

Lemma split_colon_nonempty s : split_colon s <> [].
Proof.
  destruct s as [|c s]; simpl; [done|].
  destruct (Ascii.eqb c ":"); [done|]. by destruct (split_colon s).
Qed.

Lemma split_colon_plain s : contains_colon s = false -> split_colon s = [s].
Proof.
  induction s as [|c s IH]; simpl; [done|].
  destruct (Ascii.eqb c ":"); simpl; [done|].
  intros Hs. by rewrite IH.
Qed.

Lemma split_colon_single s piece :
  split_colon s = [piece] -> contains_colon s = false.
Proof.
  revert piece. induction s as [|c s IH]; intros piece; simpl; [done|].
  destruct (Ascii.eqb c ":"); simpl.
  - intros [= _ Hs]. by apply split_colon_nonempty in Hs.
  - destruct (split_colon s) as [|h [|h' t]] eqn:Hs.
    + by apply split_colon_nonempty in Hs.
    + intros _. by apply (IH h).
    + done.
Qed.

Lemma last_cons_nonempty {A} (x : A) l d :
  l <> [] -> List.last (x :: l) d = List.last l d.
Proof. by destruct l. Qed.

(** The last piece has no colon, and it is what follows the last colon
    whenever there is one. *)
Lemma split_colon_last s :
  contains_colon (List.last (split_colon s) EmptyString) = false
  /\ (contains_colon s = true ->
      exists prefix,
        s = String.append prefix
              (String ":" (List.last (split_colon s) EmptyString))).
Proof.
  induction s as [|c s [IH1 IH2]]; [done|].
  cbn [split_colon contains_colon].
  destruct (Ascii.eqb c ":") eqn:Ec.
  - apply Ascii.eqb_eq in Ec as ->.
    rewrite last_cons_nonempty by apply split_colon_nonempty.
    split; [done|]. intros _.
    destruct (contains_colon s) eqn:Es.
    + destruct (IH2 eq_refl) as [p Hp]. exists (String ":" p).
      by rewrite Hp at 1.
    + rewrite split_colon_plain by done. by exists EmptyString.
  - cbn [orb]. destruct (contains_colon s) eqn:Es.
    + destruct (split_colon s) as [|h [|h' t]] eqn:Hsplit.
      * by apply split_colon_nonempty in Hsplit.
      * apply split_colon_single in Hsplit. congruence.
      * rewrite last_cons_nonempty by done.
        rewrite last_cons_nonempty in IH1, IH2 by done.
        split; [done|]. intros _.
        destruct (IH2 eq_refl) as [p Hp]. exists (String c p).
        by rewrite Hp at 1.
    + rewrite split_colon_plain by done.
      cbn [List.last contains_colon]. rewrite Ec, Es. done.
Qed.

(** The ticker is what follows the last colon of the asset identifier,
    and the whole identifier when it has no colon. *)
Lemma ticker_of_spec asset :
  (contains_colon asset = true ->
     contains_colon (ticker_of asset) = false
     /\ exists prefix,
          asset = String.append prefix (String ":" (ticker_of asset)))
  /\ (contains_colon asset = false -> ticker_of asset = asset).
Proof.
  unfold ticker_of. split; intros E; rewrite E; [|done].
  destruct (split_colon_last asset) as [H1 H2]. split; [done|]. by apply H2.
Qed.

(** ** Signs of binary64 products *)

Section Binary64.

Lemma shr_1_nonneg mrs : 0 <= shr_m mrs -> 0 <= shr_m (shr_1 mrs).
Proof.
  destruct mrs as [m r s]; simpl. destruct m as [|p|p]; simpl; [lia| |lia].
  destruct p; simpl; lia.
Qed.

Lemma iter_pos_nonneg p : forall mrs,
  0 <= shr_m mrs -> 0 <= shr_m (SpecFloat.iter_pos shr_1 p mrs).
Proof.
  induction p as [p IH|p IH|]; intros mrs Hm; simpl.
  - apply IH, IH. by apply shr_1_nonneg.
  - by apply IH, IH.
  - by apply shr_1_nonneg.
Qed.

Lemma shr_fexp_nonneg m e l :
  0 <= m -> 0 <= shr_m (shr_fexp prec emax m e l).1.
Proof.
  intros Hm. unfold shr_fexp, shr.
  assert (0 <= shr_m (shr_record_of_loc m l)) as H0
    by (destruct l as [|[]]; simpl; lia).
  destruct (fexp prec emax (Zdigits2 m + e) - e); simpl; try done.
  by apply iter_pos_nonneg.
Qed.

Lemma round_nearest_even_nonneg m l : 0 <= m -> 0 <= round_nearest_even m l.
Proof.
  intros Hm. destruct l as [|[]]; simpl; try lia.
  destruct (Z.even m); lia.
Qed.

Lemma binary_round_aux_sign s m e l :
  0 <= m -> has_sign s (binary_round_aux prec emax s m e l).
Proof.
  intros Hm. unfold binary_round_aux.
  pose proof (shr_fexp_nonneg m e l Hm) as H1.
  destruct (shr_fexp prec emax m e l) as [mrs' e'].
  simpl in H1.
  pose proof (round_nearest_even_nonneg (shr_m mrs') (loc_of_shr_record mrs') H1) as H2.
  pose proof (shr_fexp_nonneg _ e' loc_Exact H2) as H3.
  destruct (shr_fexp prec emax _ e' loc_Exact) as [mrs'' e''].
  simpl in H3. destruct (shr_m mrs''); simpl; [done| |lia].
  by destruct (e'' <=? emax - prec).
Qed.

Lemma SF64mul_sign x y sx sy :
  sf_finite x = true -> sf_finite y = true ->
  sf_sign x = Some sx -> sf_sign y = Some sy ->
  has_sign (xorb sx sy) (SF64mul x y).
Proof.
  destruct x as [?|?| |? mx ex], y as [?|?| |? my ey]; try done;
    intros _ _ [= ->] [= ->]; try done.
  unfold SF64mul, SFmul. apply binary_round_aux_sign. lia.
Qed.

Lemma Prim2SF_zero : Prim2SF 0 = S754_zero false.
Proof. reflexivity. Qed.

Lemma nonneg_spec x :
  nonneg x = match Prim2SF x with
             | S754_zero _ => true
             | S754_infinity s | S754_finite s _ _ => negb s
             | S754_nan => false
             end.
Proof.
  unfold nonneg, float_ge. rewrite FloatAxioms.leb_spec, Prim2SF_zero.
  by destruct (Prim2SF x) as [[]|[]| |[] ? ?].
Qed.

Lemma is_zero_spec x :
  is_zero x = match Prim2SF x with S754_zero _ => true | _ => false end.
Proof.
  unfold is_zero. rewrite FloatAxioms.eqb_spec, Prim2SF_zero.
  by destruct (Prim2SF x) as [[]|[]| |[] ? ?].
Qed.


(** The product of two finite numbers that are [>= 0] is [>= 0]. *)
Lemma mul_nonneg x y :
  finite x = true -> finite y = true ->
  nonneg x = true -> nonneg y = true -> nonneg (x * y) = true.
Proof.
  unfold finite. rewrite !nonneg_spec, FloatAxioms.mul_spec.
  intros Hfx Hfy.
  pose proof (SF64mul_sign (Prim2SF x) (Prim2SF y)) as Hs.
  destruct (Prim2SF x) as [sx|sx| |sx mx ex]; try done;
    destruct (Prim2SF y) as [sy|sy| |sy my ey]; try done; intros Hx Hy;
    specialize (Hs _ _ eq_refl eq_refl eq_refl eq_refl);
    try (by destruct (SF64mul _ _)).
  apply negb_true_iff in Hx as ->, Hy as ->.
  destruct (SF64mul _ _); simpl in *; subst; done.
Qed.

(** Zero times a finite number is zero. *)
Lemma mul_zero_l x y :
  is_zero x = true -> finite y = true -> is_zero (x * y) = true.
Proof.
  unfold finite. rewrite !is_zero_spec, FloatAxioms.mul_spec.
  by destruct (Prim2SF x) as [sx|sx| |sx mx ex], (Prim2SF y) as [sy|sy| |sy my ey].
Qed.

Lemma mul_zero_r x y :
  finite x = true -> is_zero y = true -> is_zero (x * y) = true.
Proof.
  unfold finite. rewrite !is_zero_spec, FloatAxioms.mul_spec.
  by destruct (Prim2SF x) as [sx|sx| |sx mx ex], (Prim2SF y) as [sy|sy| |sy my ey].
Qed.


End Binary64.

(** ** Whole seconds in binary64 *)

Section WholeSeconds.

Lemma Zdigits2_log2 p : Zdigits2 (Zpos p) = Z.log2 (Zpos p) + 1.
Proof.
  assert (forall q, Zpos (digits2_pos q) = Zpos (Pos.size q)) as Hsize.
  { induction q as [q IH|q IH|]; simpl; [| |done]; by rewrite ?Pos2Z.inj_succ, IH. }
  simpl. rewrite Hsize. destruct p; simpl; lia.
Qed.

Lemma log2_bounds n : 0 < n -> 2 ^ Z.log2 n <= n < 2 ^ (Z.log2 n + 1).
Proof. intros Hn. pose proof (Z.log2_spec n Hn). by rewrite <- Z.add_1_r in H. Qed.

Lemma log2_shiftl n s : 0 < n -> 0 <= s -> Z.log2 (n * 2 ^ s) = Z.log2 n + s.
Proof. intros Hn Hs. rewrite Z.log2_mul_pow2 by lia. lia. Qed.

Lemma log2_times_1000 n :
  0 < n -> Z.log2 (1000 * n) = Z.log2 n + 9 \/ Z.log2 (1000 * n) = Z.log2 n + 10.
Proof.
  intros Hn. pose proof (log2_bounds n Hn) as [Hlo Hhi].
  pose proof (Z.log2_nonneg n) as Hl.
  assert (2 ^ (Z.log2 n + 9) <= 1000 * n) as H1.
  { rewrite Z.pow_add_r by lia. change (2 ^ 9) with 512. lia. }
  assert (1000 * n < 2 ^ (Z.log2 n + 11)) as H2.
  { replace (Z.log2 n + 11) with (Z.log2 n + 1 + 10) by lia.
    rewrite Z.pow_add_r by lia. change (2 ^ 10) with 1024. lia. }
  assert (Z.log2 n + 9 <= Z.log2 (1000 * n)) as H3.
  { apply Z.log2_le_pow2; lia. }
  assert (Z.log2 (1000 * n) < Z.log2 n + 11) as H4.
  { apply Z.log2_lt_pow2; lia. }
  lia.
Qed.


Lemma Zpos_iter_xO p k : Zpos (Pos.iter xO p k) = Zpos p * 2 ^ Zpos k.
Proof.
  induction k as [|k IH] using Pos.peano_ind.
  - simpl. lia.
  - rewrite Pos.iter_succ, Pos2Z.inj_xO, IH, Pos2Z.inj_succ, Z.pow_succ_r; lia.
Qed.

(** A mantissa of 53 bits is not rounded. *)
Lemma binary_round_aux_53 m e :
  Z.log2 (Zpos m) = 52 -> -1074 <= e <= 971 ->
  binary_round_aux prec emax false (Zpos m) e loc_Exact = S754_finite false m e.
Proof.
  intros Hm He. unfold binary_round_aux, shr_fexp.
  rewrite Zdigits2_log2, Hm.
  assert (fexp prec emax (52 + 1 + e) - e = 0) as ->
    by (unfold fexp, emin, prec, emax; lia).
  cbn [shr shr_record_of_loc shr_m loc_of_shr_record round_nearest_even].
  rewrite Zdigits2_log2, Hm.
  assert (fexp prec emax (52 + 1 + e) - e = 0) as ->
    by (unfold fexp, emin, prec, emax; lia).
  cbn [shr shr_record_of_loc shr_m].
  replace (e <=? emax - prec) with true; [done|].
  symmetry. apply Z.leb_le. unfold emax, prec. lia.
Qed.

Lemma log2_aligned p :
  Z.log2 (Zpos p) < 52 ->
  let d := Z.log2 (Zpos p) + 1 in
  Zpos (Z.to_pos (Zpos p * 2 ^ (53 - d))) = Zpos p * 2 ^ (53 - d)
  /\ Z.log2 (Zpos p * 2 ^ (53 - d)) = 52.
Proof.
  intros Hp d. pose proof (Z.log2_nonneg (Zpos p)) as Hl.
  assert (0 < 2 ^ (53 - d)) by (apply Z.pow_pos_nonneg; lia).
  split; [rewrite Z2Pos.id; lia|].
  rewrite log2_shiftl by lia. lia.
Qed.

(** [float(p)] for a small integer [p]. *)
Lemma SF64_small p :
  Z.log2 (Zpos p) < 52 -> SF64 (Zpos p) = binary64_of_pos p.
Proof.
  intros Hp. pose proof (Z.log2_nonneg (Zpos p)) as Hl.
  destruct (log2_aligned p Hp) as [Hpos Hlog].
  unfold SF64, binary_normalize, binary_round, binary64_of_pos.
  change (Zpos (digits2_pos p)) with (Zdigits2 (Zpos p)).
  rewrite Zdigits2_log2. set (d := Z.log2 (Zpos p) + 1) in *.
  assert (fexp prec emax (d + 0) = d - 53) as ->
    by (unfold fexp, emin, prec, emax; lia).
  unfold shl_align.
  destruct (d - 53 - 0) as [|k|k] eqn:Hk; try lia.
  assert (Pos.iter xO p k = Z.to_pos (Zpos p * 2 ^ (53 - d))) as ->.
  { apply Pos2Z.inj. rewrite Hpos, Zpos_iter_xO. do 2 f_equal. lia. }
  apply binary_round_aux_53; [by rewrite Hpos | lia].
Qed.


(** A mantissa of 54 bits whose last bit is zero loses that bit and
    nothing else. *)
Lemma binary_round_aux_54 m e :
  Z.log2 (Zpos m) = 52 -> -1075 <= e <= 970 ->
  binary_round_aux prec emax false (Zpos m~0) e loc_Exact
  = S754_finite false m (e + 1).
Proof.
  intros Hm He. unfold binary_round_aux, shr_fexp.
  rewrite Zdigits2_log2.
  assert (Z.log2 (Zpos m~0) = 53) as ->.
  { rewrite (Pos2Z.inj_xO m), Z.log2_double by lia. lia. }
  assert (fexp prec emax (53 + 1 + e) - e = 1) as ->
    by (unfold fexp, emin, prec, emax; lia).
  cbn [shr shr_record_of_loc shr_m loc_of_shr_record round_nearest_even
       SpecFloat.iter_pos shr_1 orb].
  rewrite Zdigits2_log2, Hm.
  assert (fexp prec emax (52 + 1 + (e + 1)) - (e + 1) = 0) as ->
    by (unfold fexp, emin, prec, emax; lia).
  cbn [shr shr_record_of_loc shr_m].
  replace (e + 1 <=? emax - prec) with true; [done|].
  symmetry. apply Z.leb_le. unfold emax, prec. lia.
Qed.

Lemma div_eucl_exact a b : 0 < b -> Z.div_eucl (b * a) b = (a, 0).
Proof.
  intros Hb. pose proof (Z_div_mod (b * a) b ltac:(lia)) as Hdm.
  destruct (Z.div_eucl (b * a) b) as [q r]. destruct Hdm as [Heq Hr].
  assert (q = a) by nia. subst. f_equal. lia.
Qed.

(** [1000 p / 1000] in binary64 is [p]. *)
Lemma SF64div_1000 p :
  Z.log2 (Zpos p) < 52 ->
  SF64div (S754_finite false (1000 * p) 0) (S754_finite false 1000 0)
  = binary64_of_pos p.
Proof.
  intros Hp. pose proof (Z.log2_nonneg (Zpos p)) as Hl.
  destruct (log2_aligned p Hp) as [Hpos Hlog].
  unfold SF64div, SFdiv, SFdiv_core_binary.
  rewrite Zdigits2_log2. change (Zdigits2 1000) with 10.
  rewrite Pos2Z.inj_mul.
  set (l1 := Z.log2 (1000 * Zpos p)).
  assert (l1 = Z.log2 (Zpos p) + 9 \/ l1 = Z.log2 (Zpos p) + 10) as Hl1
    by (apply log2_times_1000; lia).
  assert (Z.min (fexp prec emax (l1 + 1 + 0 - (10 + 0))) (0 - 0) = l1 - 62)
    as -> by (unfold fexp, emin, prec, emax; lia).
  destruct (0 - 0 - (l1 - 62)) as [|k|k] eqn:Hk; try lia.
  rewrite Z.shiftl_mul_pow2 by lia.
  replace (1000 * Zpos p * 2 ^ Zpos k) with (1000 * (Zpos p * 2 ^ Zpos k))
    by lia.
  rewrite div_eucl_exact by lia.
  change (new_location 1000 0) with loc_Exact. cbn [xorb].
  unfold binary64_of_pos. set (d := Z.log2 (Zpos p) + 1) in *.
  set (m := Z.to_pos (Zpos p * 2 ^ (53 - d))) in *.
  destruct Hl1 as [Hl1|Hl1].
  - (* one bit too many *)
    assert (Zpos k = 54 - d) as Hk' by lia.
    assert (Zpos p * 2 ^ Zpos k = Zpos m~0) as ->.
    { rewrite (Pos2Z.inj_xO m), Hpos, Hk'.
      replace (54 - d) with (Z.succ (53 - d)) by lia.
      rewrite Z.pow_succ_r by lia. lia. }
    rewrite binary_round_aux_54; [|by rewrite Hpos|lia].
    f_equal. lia.
  - assert (Zpos k = 53 - d) as Hk' by lia.
    assert (Zpos p * 2 ^ Zpos k = Zpos m) as -> by (by rewrite Hpos, Hk').
    rewrite binary_round_aux_53; [|by rewrite Hpos|lia].
    f_equal. lia.
Qed.


Lemma binary64_of_pos_valid p :
  Z.log2 (Zpos p) < 52 -> Prim2SF (SF2Prim (binary64_of_pos p)) = binary64_of_pos p.
Proof.
  intros Hp. pose proof (Z.log2_nonneg (Zpos p)) as Hl.
  destruct (log2_aligned p Hp) as [Hpos Hlog].
  apply Prim2SF_SF2Prim. unfold binary64_of_pos, valid_binary, bounded.
  unfold canonical_mantissa.
  change (Zpos (digits2_pos ?m)) with (Zdigits2 (Zpos m)).
  rewrite Zdigits2_log2, Hpos, Hlog.
  apply andb_true_intro. split.
  - apply Z.eqb_eq. unfold fexp, emin, prec, emax. lia.
  - apply Z.leb_le. unfold prec, emax. lia.
Qed.

Lemma float_trunc_of_pos p :
  Z.log2 (Zpos p) < 52 -> float_trunc (SF2Prim (binary64_of_pos p)) = Zpos p.
Proof.
  intros Hp. pose proof (Z.log2_nonneg (Zpos p)) as Hl.
  destruct (log2_aligned p Hp) as [Hpos Hlog].
  unfold float_trunc. rewrite binary64_of_pos_valid by done.
  unfold binary64_of_pos, trunc_mag. cbn [cond_Zopp].
  set (d := Z.log2 (Zpos p) + 1) in *.
  destruct (d - 53) as [|k|k] eqn:Hk; try lia.
  rewrite Hpos, Z.shiftr_div_pow2 by lia.
  replace (53 - d) with (Zpos k) by lia.
  apply Z.div_mul. apply Z.pow_nonzero; lia.
Qed.

Lemma SF64sub_diag m e :
  SF64sub (S754_finite false m e) (S754_finite false m e) = S754_zero false.
Proof.
  unfold SF64sub, SFsub. rewrite Z.min_id. unfold shl_align.
  by rewrite Z.sub_diag.
Qed.

(** A whole number of seconds, as a float, is that instant. *)
Lemma fromtimestamp_whole_seconds p :
  Zpos p <= max_timestamp ->
  fromtimestamp_utc (SF2Prim (binary64_of_pos p)) = Ok (Zpos p * 1000000).
Proof.
  intros Hmax.
  assert (Z.log2 (Zpos p) < 52) as Hp.
  { apply Z.log2_lt_pow2; [lia|]. unfold max_timestamp in Hmax.
    change (2 ^ 52) with 4503599627370496. lia. }
  unfold fromtimestamp_utc.
  rewrite float_trunc_of_pos, (SF64_small p) by done.
  set (x := SF2Prim (binary64_of_pos p)).
  pose proof (binary64_of_pos_valid p Hp) as Hx. fold x in Hx.
  rewrite Hx. unfold binary64_of_pos at 1.
  assert (float_round ((x - x) * 1000000)%float = 0) as ->.
  { unfold float_round. rewrite FloatAxioms.mul_spec, FloatAxioms.sub_spec, Hx.
    unfold binary64_of_pos. rewrite SF64sub_diag. done. }
  cbn [Z.leb Z.ltb Z.compare].
  replace (Zpos p <? - 2 ^ 63) with false by (symmetry; apply Z.ltb_ge; lia).
  replace (2 ^ 63 <=? Zpos p) with false
    by (symmetry; apply Z.leb_gt; unfold max_timestamp in Hmax;
        change (2 ^ 63) with 9223372036854775808; lia).
  replace (Zpos p <? min_timestamp) with false
    by (symmetry; apply Z.ltb_ge; unfold min_timestamp; lia).
  replace (max_timestamp <? Zpos p) with false
    by (symmetry; apply Z.ltb_ge; lia).
  cbn [orb]. f_equal; lia.
Qed.

(** A candle that opens on a whole second, as the hourly candles do,
    resolves to exactly that instant. *)
Lemma whole_second_candle q :
  0 <= q <= max_timestamp ->
  truediv_1000 (VInt (1000 * q)) ≫= fromtimestamp_utc
  = Ok (1000 * q * 1000).
Proof.
  intros [Hlo Hhi]. destruct q as [|p|p]; [by vm_compute| |lia].
  assert (Z.log2 (Zpos p) < 52) as Hp.
  { apply Z.log2_lt_pow2; [lia|]. unfold max_timestamp in Hhi.
    change (2 ^ 52) with 4503599627370496. lia. }
  cbn [truediv_1000].
  change (1000 * Zpos p) with (Zpos (1000 * p)) at 1.
  cbn [int_truediv]. rewrite SF64div_1000 by done.
  unfold binary64_of_pos at 1. cbn [mbind result_bind].
  fold (binary64_of_pos p). rewrite fromtimestamp_whole_seconds by done.
  f_equal. lia.
Qed.

End WholeSeconds.

(** ** The market fetch *)

Section Fetch.
Context `{Remote}.

Lemma snapshot_delisted meta ctx o :
  snapshot meta ctx = Ok o -> delisted meta = match o with None => true | Some _ => false end.
Proof.
  unfold snapshot, delisted.
  destruct (Py.get meta "isDelisted" VNone) as [flag|e]; [|done].
  cbn [mbind result_bind]. destruct (Py.truthy flag); [by intros [= <-]|].
  intros Hs. inv_io. by subst.
Qed.


Lemma zip_markets_spec us : forall cs ms,
  zip_markets us cs = Ok ms ->
  ms = omap kept (zip us cs)
  /\ (forall i meta ctx, us !! i = Some meta -> cs !! i = Some ctx ->
        exists o, snapshot meta ctx = Ok o).
Proof.
  induction us as [|meta us IH]; intros [|ctx cs] ms; simpl;
    try (intros [= <-]; split; [done|]; intros i ? ?; by rewrite ?lookup_nil).
  intros Hz. inv_io.
  match goal with Hrest : zip_markets us cs = Ok _ |- _ =>
    destruct (IH _ _ Hrest) as [-> Hall] end.
  match goal with Hs : snapshot meta ctx = Ok _ |- _ => rename Hs into Hsnap end.
  split.
  - subst.
    assert (kept (meta, ctx) = x) as ->
      by (unfold kept; cbn [fst snd]; rewrite Hsnap; by destruct x).
    by destruct x.
  - intros [|i] meta' ctx'; simpl.
    + intros [= <-] [= <-]. eauto.
    + apply Hall.
Qed.


Lemma get_dex_markets_inv dex_name w ms w' :
  get_dex_markets dex_name w = (Ok ms, w') ->
  exists data us cs,
    post (markets_payload dex_name) w = (Ok data, w')
    /\ zipped_sequences data = Ok (us, cs)
    /\ zip_markets us cs = Ok ms.
Proof.
  unfold get_dex_markets, markets_of, zipped_sequences. intros Hrun. inv_io.
  eexists _, _, _. split; [done|].
  split; [|eassumption].
  repeat match goal with
    | Hq : ?t = Ok _ |- context [?t] => rewrite Hq; cbn [mbind result_bind]
    end.
  reflexivity.
Qed.


End Fetch.



(** ** The listing-date cache *)

Section Listing.
Context `{Builtins, Remote}.

Lemma take_out_perm {A} i (l : list A) x rest :
  take_out i l = Some (x, rest) -> l ≡ₚ x :: rest.
Proof.
  revert i x rest. induction l as [|y l IH]; intros i x rest; simpl; [done|].
  destruct i as [|i]; [by intros [= -> ->]|].
  destruct (take_out i l) as [[z r]|] eqn:E; [|done].
  intros [= -> <-]. rewrite (IH _ _ _ E). apply Permutation_swap.
Qed.

Lemma take_out_lt {A} i (l : list A) :
  (i < length l)%nat -> is_Some (take_out i l).
Proof.
  revert i. induction l as [|y l IH]; intros i; simpl; [lia|].
  destruct i as [|i]; [eauto|]. intros Hi.
  destruct (IH i ltac:(lia)) as [[z r] ->]. eauto.
Qed.

Lemma completion_order_perm {A} n : forall choices (l : list A),
  length l = n -> completion_order n choices l ≡ₚ l.
Proof.
  induction n as [|n IH]; intros choices l Hn; simpl.
  - by destruct l.
  - destruct (take_out_lt (hd 0%nat choices `mod` length l)%nat l)
      as [[x rest] Hx].
    { apply Nat.mod_upper_bound. lia. }
    rewrite Hx. pose proof (take_out_perm _ _ _ _ Hx) as Hp.
    rewrite Hp. constructor. apply IH.
    apply Permutation_length in Hp. simpl in Hp. lia.
Qed.

Lemma post_loop_log payload n : forall d w r w',
  post_loop payload n d w = (r, w') ->
  exists evs, w' = extend evs w
    /\ forall p, Request p ∈ evs -> p = payload.
Proof.
  induction n as [|n IH]; intros d w r w'; cbn [post_loop];
    unfold mbind at 1, IO_bind at 1, requests_post.
  - destruct (server (log w) payload) as [st body|]; intros Hrun.
    + exists [Request payload]. split.
      * unfold mbind, IO_bind, lift in Hrun.
        destruct (raise_for_status (st, body)); by injection Hrun as <- <-.
      * by intros p [= ->]%list_elem_of_singleton.
    + injection Hrun as <- <-. exists [Request payload]. split; [done|].
      by intros p [= ->]%list_elem_of_singleton.
  - destruct (server (log w) payload) as [st body|]; intros Hrun.
    + cbn [fst] in Hrun. destruct (st =? 429).
      * unfold mbind at 1, IO_bind at 1, time_sleep in Hrun.
        apply IH in Hrun as (evs & -> & Hevs).
        exists (Request payload :: Sleep d :: evs). split.
        { rewrite !record_extend, !extend_extend. done. }
        intros p. rewrite !elem_of_cons. intros [[= ->]|[?|?]]; [done|done|eauto].
      * exists [Request payload]. split.
        { unfold mbind, IO_bind, lift in Hrun.
          destruct (raise_for_status (st, body)); by injection Hrun as <- <-. }
        by intros p [= ->]%list_elem_of_singleton.
    + injection Hrun as <- <-. exists [Request payload]. split; [done|].
      by intros p [= ->]%list_elem_of_singleton.
Qed.

Lemma fetch_listing_date_log asset fallback w r w' :
  _fetch_listing_date asset fallback w = (r, w') ->
  exists evs, w' = extend evs w
    /\ forall p, Request p ∈ evs -> p = candle_payload asset.
Proof.
  unfold _fetch_listing_date, post, _post.
  unfold mbind at 1, IO_bind at 1, try_except.
  unfold mbind at 1, IO_bind at 1.
  destruct (post_loop _ _ _ w) as [res w1] eqn:Hpost.
  apply post_loop_log in Hpost as (evs & -> & Hevs).
  intros Hrun. exists evs. split; [|done].
  assert (forall (x : result (option Z)) w2,
            (match x with
             | Ok found =>
                 match found with
                 | Some dt => mret (Some dt)
                 | None =>
                     if Py.truthy fallback
                     then match parse_fallback fallback with
                          | Ok dt => mret (Some dt)
                          | Raise e =>
                              if is_value_or_type_error e
                              then mret None else raise e
                          end
                     else mret None
                 end w2
             | Raise e => (Raise e, w2)
             end) = (r, w') -> w' = w2) as Hk.
  { intros [[dt|]|e] w2; simpl.
    - by intros [= _ <-].
    - destruct (Py.truthy fallback); [|by intros [= _ <-]].
      destruct (parse_fallback fallback) as [dt|e]; [by intros [= _ <-]|].
      destruct (is_value_or_type_error e); by intros [= _ <-].
    - by intros [= _ <-]. }
  destruct res as [candles|e].
  - unfold lift in Hrun.
    destruct (first_candle_time candles) as [found|e];
      apply (Hk (Ok _)) in Hrun || apply (Hk (Ok None)) in Hrun; done.
  - unfold mret, IO_ret in Hrun. by apply (Hk (Ok None)) in Hrun.
Qed.


Lemma split_cached_fold (cache : gmap string (option Z))
    (l : list (string * value)) :
  forall (R0 : gmap string (option Z)) (F0 : list (string * value)),
  foldl (fun acc item =>
           match cache !! item.1 with
           | Some dt => (<[item.1 := dt]> acc.1, acc.2)
           | None => (acc.1, acc.2 ++ [item])
           end) (R0, F0) l
  = (foldl (fun (R : gmap string (option Z)) item =>
              match cache !! item.1 with
              | Some dt => <[item.1 := dt]> R
              | None => R
              end) R0 l,
     F0 ++ filter (fun item => cache !! item.1 = None) l).
Proof.
  induction l as [|item l IH]; intros R0 F0; simpl.
  - by rewrite app_nil_r.
  - destruct (cache !! item.1) as [dt|] eqn:E; simpl; rewrite IH.
    + rewrite filter_cons_False; [done|]. by rewrite E.
    + rewrite filter_cons_True by done. by rewrite <- app_assoc.
Qed.

Lemma cached_results_lookup (cache : gmap string (option Z))
    (l : list (string * value)) : forall (R0 : gmap string (option Z)) a,
  foldl (fun (R : gmap string (option Z)) item =>
           match cache !! item.1 with
           | Some dt => <[item.1 := dt]> R
           | None => R
           end) R0 l !! a
  = match cache !! a with
    | Some dt => if decide (a ∈ l.*1) then Some dt else R0 !! a
    | None => R0 !! a
    end.
Proof.
  induction l as [|item l IH]; intros R0 a; cbn [foldl].
  - destruct (cache !! a); [|done].
    rewrite decide_False; [done|]. apply not_elem_of_nil.
  - rewrite IH, fmap_cons. destruct (cache !! a) as [dt|] eqn:Ea.
    + destruct (decide (a ∈ l.*1)) as [Hin|Hout].
      * rewrite decide_True; [done|]. by right.
      * destruct (decide (a = item.1)) as [->|Hne].
        -- rewrite decide_True by by left. rewrite Ea.
           by rewrite lookup_insert_eq.
        -- rewrite decide_False by by intros [?|?]%elem_of_cons.
           destruct (cache !! item.1); [|done]. by rewrite lookup_insert_ne.
    + destruct (cache !! item.1) as [dt|] eqn:Ei; [|done].
      rewrite lookup_insert_ne; [done|]. congruence.
Qed.

Lemma try_fetch_run asset fallback w :
  exists evs,
    try_except (_fetch_listing_date asset fallback) (mret None) w
    = (Ok (resolved asset fallback w), extend evs w)
    /\ forall p, Request p ∈ evs -> p = candle_payload asset.
Proof.
  unfold try_except, resolved.
  destruct (_fetch_listing_date asset fallback w) as [r w1] eqn:Hrun.
  apply fetch_listing_date_log in Hrun as (evs & -> & Hevs).
  exists evs. split; [|done]. by destruct r.
Qed.

(** The loop over the completed futures never raises; it writes the
    outcome of every task to the cache and to the results, and leaves
    every other key alone. *)
Lemma collect_spec completed : forall results w,
  exists results' evs cache',
    collect completed results w
    = (Ok results', World (log w ++ evs) cache' (sched w) (now w))
    /\ (forall a, a ∉ completed.*1 ->
          results' !! a = results !! a
          /\ cache' !! a = _listing_date_cache w !! a)
    /\ (forall a, a ∈ completed.*1 ->
          exists fallback w1,
            (a, fallback) ∈ completed
            /\ results' !! a = Some (resolved a fallback w1)
            /\ cache' !! a = Some (resolved a fallback w1))
    /\ candle_traffic completed.*1 evs.
Proof.
  induction completed as [|[asset fallback] rest IH]; intros results w.
  - exists results, [], (_listing_date_cache w). simpl.
    rewrite app_nil_r. destruct w; simpl. repeat split; try done.
    + intros a Ha. by apply elem_of_nil in Ha.
    + intros p Hp. by apply elem_of_nil in Hp.
  - cbn [collect].
    destruct (try_fetch_run asset fallback w) as (evs1 & Hfetch & Hevs1).
    rewrite (IO_bind_run _ _ _ _ _ Hfetch).
    unfold mbind at 1, IO_bind at 1, cache_store.
    set (dt := resolved asset fallback w).
    set (w2 := World _ _ _ _).
    destruct (IH (<[asset := dt]> results) w2)
      as (results' & evs2 & cache' & Hrun & Hout & Hin & Htraffic).
    exists results', (evs1 ++ evs2), cache'. split.
    { rewrite Hrun. subst w2. simpl. by rewrite app_assoc. }
    split; [|split].
    + intros a Ha. rewrite fmap_cons, not_elem_of_cons in Ha.
      destruct Ha as [Hne Ha]. simpl in Hne.
      destruct (Hout a Ha) as [-> ->]. subst w2; simpl.
      by rewrite !lookup_insert_ne.
    + intros a Ha. destruct (decide (a ∈ rest.*1)) as [Hrest|Hrest].
      * destruct (Hin a Hrest) as (fb & w1 & ? & ? & ?).
        exists fb, w1. split; [by right | done].
      * rewrite fmap_cons, elem_of_cons in Ha. simpl in Ha.
        destruct Ha as [->|?]; [|done].
        destruct (Hout asset Hrest) as [-> ->]. subst w2; simpl.
        rewrite !lookup_insert_eq. exists fallback, w.
        split; [by left | done].
    + intros p Hp. apply elem_of_app in Hp as [Hp|Hp].
      * exists asset. split; [by left | by apply Hevs1].
      * destruct (Htraffic p Hp) as (a & Ha & ->). exists a.
        split; [by right | done].
Qed.


Lemma elem_of_uncached (cache : gmap string (option Z))
    (batch : list (string * value)) a :
  a ∈ uncached cache batch <-> a ∈ batch.*1 /\ cache !! a = None.
Proof.
  unfold uncached. rewrite !list_elem_of_fmap. split.
  - intros ([a' fb] & -> & [Hc Hin]%list_elem_of_filter). split; [|done].
    by exists (a', fb).
  - intros [([a' fb] & -> & Hin) Hc]. exists (a', fb). split; [done|].
    by apply list_elem_of_filter.
Qed.

Lemma get_listing_dates_spec batch w :
  exists results evs cache' sched',
    _get_listing_dates batch w
    = (Ok results, World (log w ++ evs) cache' sched' (now w))
    /\ (forall a dt, _listing_date_cache w !! a = Some dt ->
          cache' !! a = Some dt
          /\ (a ∈ batch.*1 -> results !! a = Some dt))
    /\ (forall a, a ∈ batch.*1 -> _listing_date_cache w !! a = None ->
          exists fallback w1,
            (a, fallback) ∈ batch
            /\ results !! a = Some (resolved a fallback w1)
            /\ cache' !! a = Some (resolved a fallback w1))
    /\ (forall a, a ∉ batch.*1 ->
          results !! a = None /\ cache' !! a = _listing_date_cache w !! a)
    /\ candle_traffic (uncached (_listing_date_cache w) batch) evs.
Proof.
  unfold _get_listing_dates, split_cached. rewrite split_cached_fold.
  cbn [app]. pose proof (elem_of_uncached (_listing_date_cache w) batch) as Hunc.
  unfold uncached in *.
  destruct (filter _ batch) as [|task tasks] eqn:Hfilter.
  - exists (foldl (fun (R : gmap string (option Z)) item =>
                     match _listing_date_cache w !! item.1 with
                     | Some dt => <[item.1 := dt]> R
                     | None => R
                     end) ∅ batch), [], (_listing_date_cache w), (sched w).
    split; [by destruct w; simpl; rewrite app_nil_r|].
    split; [|split; [|split]].
    + intros a dt Ha. split; [done|]. intros Hin.
      rewrite cached_results_lookup, Ha. by rewrite decide_True.
    + intros a Hin Ha. exfalso.
      assert (a ∈ ([] : list (string * value)).*1) as Hnil by by apply Hunc.
      by apply elem_of_nil in Hnil.
    + intros a Hout. split; [|done]. rewrite cached_results_lookup.
      destruct (_listing_date_cache w !! a); [|done].
      by rewrite decide_False.
    + intros p Hp. by apply elem_of_nil in Hp.
  - rewrite <- Hfilter in *. set (to_fetch := filter _ batch) in *.
    unfold ThreadPoolExecutor.
    unfold mbind at 1, IO_bind at 1, mret at 1, IO_ret at 1.
    unfold mbind at 1, IO_bind at 1, as_completed.
    set (completed := completion_order _ _ _).
    assert (completed ≡ₚ to_fetch) as Hperm
      by by apply completion_order_perm.
    set (w1 := World _ _ _ _).
    set (cached := foldl _ _ _).
    destruct (collect_spec completed cached w1)
      as (results & evs & cache' & Hrun & Hout & Hin & Htraffic).
    exists results, evs, cache', (sched w1). split; [done|].
    assert (forall a, a ∈ completed.*1 <->
                      a ∈ batch.*1 /\ _listing_date_cache w !! a = None)
      as Hmem by (intros a; by rewrite Hperm).
    split; [|split; [|split]].
    + intros a dt Ha.
      assert (a ∉ completed.*1) as Hnot
        by (rewrite Hmem; intros [_ ?]; congruence).
      destruct (Hout a Hnot) as [-> ->]. split; [done|]. intros Hb.
      subst cached. rewrite cached_results_lookup, Ha. by rewrite decide_True.
    + intros a Hb Ha. destruct (Hin a) as (fb & w2 & Hfb & ? & ?);
        [by apply Hmem|].
      exists fb, w2. split; [|done].
      rewrite Hperm in Hfb. by apply list_elem_of_filter in Hfb as [_ ?].
    + intros a Hb.
      assert (a ∉ completed.*1) as Hnot by (rewrite Hmem; tauto).
      destruct (Hout a Hnot) as [-> ->]. split; [|done].
      subst cached. rewrite cached_results_lookup.
      destruct (_listing_date_cache w !! a); [|done]. by rewrite decide_False.
    + intros p Hp. destruct (Htraffic p Hp) as (a & Ha & ->).
      exists a. split; [|done]. by rewrite <- Hperm.
Qed.

Lemma candle_payload_inj a b : candle_payload a = candle_payload b -> a = b.
Proof. by intros [= ->]. Qed.


Lemma resolutions_keep batches : forall w a dt,
  _listing_date_cache w !! a = Some dt ->
  _listing_date_cache (resolutions batches w) !! a = Some dt.
Proof.
  induction batches as [|batch rest IH]; intros w a dt Ha; simpl; [done|].
  apply IH.
  destruct (get_listing_dates_spec batch w)
    as (results & evs & cache' & sched' & Hrun & Hkeep & _).
  rewrite Hrun. simpl. by apply Hkeep.
Qed.

(** C2. Once the cache holds an entry for an asset (a date, or [None] for
    "unresolved"), a call of [_get_listing_dates] returns that entry for
    the asset, sends no candle request for it (every request it sends is
    for an asset of the batch that the cache does not hold; none at all
    when the cache holds the whole batch), and leaves the entry as it is;
    so the entry stays the same through any series of calls. *)
Theorem cached_listing_date_reused batch w a dt :
  _listing_date_cache w !! a = Some dt ->
  exists results w' evs,
    _get_listing_dates batch w = (Ok results, w')
    /\ (a ∈ batch.*1 -> results !! a = Some dt)
    /\ _listing_date_cache w' !! a = Some dt
    /\ log w' = log w ++ evs
    /\ (Request (candle_payload a) ∉ evs)
    /\ candle_traffic (uncached (_listing_date_cache w) batch) evs
    /\ (uncached (_listing_date_cache w) batch = [] -> evs = [] /\ w' = w)
    /\ (forall batches,
          _listing_date_cache (resolutions batches w') !! a = Some dt).
Proof.
  intros Ha.
  destruct (get_listing_dates_spec batch w)
    as (results & evs & cache' & sched' & Hrun & Hkeep & _ & _ & Htraffic).
  destruct (Hkeep a dt Ha) as [Hc Hr].
  eexists results, _, evs. split; [exact Hrun|]. simpl.
  split; [done|]. split; [done|]. split; [done|]. split; [|split; [done|split]].
  - intros Hreq. destruct (Htraffic _ Hreq) as (b & Hb & Heq).
    apply candle_payload_inj in Heq as <-.
    apply elem_of_uncached in Hb as [_ Hb]. congruence.
  - intros Hnone.
    unfold _get_listing_dates, split_cached in Hrun.
    rewrite split_cached_fold in Hrun. cbn [app] in Hrun.
    unfold uncached in Hnone. apply fmap_nil_inv in Hnone.
    rewrite Hnone in Hrun. injection Hrun as _ Hw.
    split; [|done]. apply (f_equal log) in Hw. simpl in Hw.
    apply (f_equal length) in Hw. rewrite length_app in Hw.
    destruct evs; [done | simpl in Hw; lia].
  - intros batches. by apply resolutions_keep.
Qed.


End Listing.

(** ** Resolving one listing date *)

Section Resolution.
Context `{Builtins, Remote}.

Lemma first_candle_time_cons c cs t x dt :
  Py.item c "t" = Ok t -> truediv_1000 t = Ok x ->
  fromtimestamp_utc x = Ok dt ->
  first_candle_time (VList (c :: cs)) = Ok (Some dt).
Proof.
  intros Ht Hx Hdt. unfold first_candle_time.
  cbn [Py.truthy Py.len Py.index nth_error mbind result_bind length].
  replace (0 <? Z.of_nat (S (length cs))) with true
    by (symmetry; apply Z.ltb_lt; lia).
  rewrite Ht. cbn [mbind result_bind]. rewrite Hx. cbn [mbind result_bind].
  by rewrite Hdt.
Qed.

Lemma fetch_with_candle asset fallback w w' c cs t x dt :
  post (candle_payload asset) w = (Ok (VList (c :: cs)), w') ->
  Py.item c "t" = Ok t -> truediv_1000 t = Ok x ->
  fromtimestamp_utc x = Ok dt ->
  _fetch_listing_date asset fallback w = (Ok (Some dt), w').
Proof.
  intros Hpost Ht Hx Hdt. unfold _fetch_listing_date.
  unfold mbind at 1, IO_bind at 1, try_except.
  rewrite (IO_bind_run _ _ _ _ _ Hpost). unfold lift.
  by rewrite (first_candle_time_cons _ _ _ _ _ Ht Hx Hdt).
Qed.

Lemma fetch_without_candle asset fallback w w' :
  no_candle asset w w' ->
  _fetch_listing_date asset fallback w
  = (if Py.truthy fallback then
       match parse_fallback fallback with
       | Ok dt => mret (Some dt)
       | Raise e => if is_value_or_type_error e then mret None else raise e
       end
     else mret None) w'.
Proof.
  intros [[e Hpost]|Hpost]; unfold _fetch_listing_date;
    unfold mbind at 1, IO_bind at 1, try_except.
  - by rewrite (IO_bind_raise _ _ _ _ _ Hpost).
  - by rewrite (IO_bind_run _ _ _ _ _ Hpost).
Qed.

(** C3. Resolution of an asset the cache does not hold. With at least
    one candle, the date is the first candle's ["t"] read as milliseconds
    since the epoch, UTC: the code goes through [t / 1000] in binary64
    and [fromtimestamp], and for a candle that opens on a whole second
    (as the hourly candles asked for do, [{"t": 1700000000000}] among
    them) the result is that instant exactly.
    When the request raises or returns no candle, a fallback string is
    cut to 26 characters, parsed as ISO-8601 and declared UTC. When that
    fails too, or no fallback was given, the result is absent, and a row
    whose listing date is absent has no [market_age_days]. *)
Theorem listing_date_resolution asset fallback w w' :
  (forall c cs t x dt,
     post (candle_payload asset) w = (Ok (VList (c :: cs)), w') ->
     Py.item c "t" = Ok t -> truediv_1000 t = Ok x ->
     fromtimestamp_utc x = Ok dt ->
     _fetch_listing_date asset fallback w = (Ok (Some dt), w'))
  /\ (forall c cs q,
        post (candle_payload asset) w = (Ok (VList (c :: cs)), w') ->
        Py.item c "t" = Ok (VInt (1000 * q)) -> 0 <= q <= max_timestamp ->
        _fetch_listing_date asset fallback w
        = (Ok (Some (1000 * q * 1000)), w'))
  /\ first_candle_time (VList [VDict [("t", VInt 1700000000000)]])
     = Ok (Some (1700000000000 * 1000))
  /\ (forall s dt,
        no_candle asset w w' -> fallback = VStr s -> s <> "" ->
        fromisoformat (Py.take_str 26 s) = Some dt ->
        _fetch_listing_date asset fallback w = (Ok (Some dt), w'))
  /\ (no_candle asset w w' ->
      Py.truthy fallback = false
      \/ (exists s, fallback = VStr s
                    /\ fromisoformat (Py.take_str 26 s) = None) ->
      _fetch_listing_date asset fallback w = (Ok None, w'))
  /\ (forall dates now row,
        Row.listing_date (finish_row dates now row)
        = default None (dates !! RawRow.asset row)
        /\ Row.market_age_days (finish_row dates now row)
           = (fun dt => days_between now dt)
               <$> Row.listing_date (finish_row dates now row))
  /\ (forall dates now row,
        Row.listing_date (finish_row dates now row) = None ->
        Row.market_age_days (finish_row dates now row) = None).
Proof.
  split; [|split; [|split; [|split; [|split; [|split]]]]].
  - intros c cs t x dt. apply fetch_with_candle.
  - intros c cs q Hpost Ht Hq.
    pose proof (whole_second_candle q Hq) as Hexact.
    apply result_bind_ok in Hexact as (x & Hx & Hdt).
    by apply (fetch_with_candle _ _ _ _ c cs (VInt (1000 * q)) x).
  - by vm_compute.
  - intros s dt Hno -> Hs Hdt. rewrite (fetch_without_candle _ _ _ _ Hno).
    cbn [Py.truthy parse_fallback]. rewrite Hdt.
    destruct (String.eqb s "") eqn:E; [by apply String.eqb_eq in E|done].
  - intros Hno Hfb. rewrite (fetch_without_candle _ _ _ _ Hno).
    destruct Hfb as [->|(s & -> & Hs)]; [done|].
    cbn [Py.truthy parse_fallback]. rewrite Hs.
    by destruct (negb _).
  - intros dates now row. unfold finish_row; cbn.
    split; [by destruct (dates !! RawRow.asset row)|].
    by destruct (dates !! RawRow.asset row) as [[dt|]|].
  - intros dates now row. unfold finish_row; cbn.
    by destruct (dates !! RawRow.asset row) as [[dt|]|].
Qed.

End Resolution.

(** No candle for ["two:BBB"], so its growth-mode timestamp, cut to 26
    characters, is its listing date. *)
Lemma listing_date_resolution_witness :
  @_fetch_listing_date sample_builtins demo_api "two:BBB"
    (VStr "2024-01-15T10:30:00.123456789") (fresh_world [] 0)
  = (Ok (Some 1705314600123456),
     extend [Request (candle_payload "two:BBB")] (fresh_world [] 0)).
Proof.
  apply (@listing_date_resolution sample_builtins demo_api "two:BBB"
           (VStr "2024-01-15T10:30:00.123456789") (fresh_world [] 0)
           (extend [Request (candle_payload "two:BBB")] (fresh_world [] 0)))
    with (s := "2024-01-15T10:30:00.123456789").
  - right. reflexivity.
  - reflexivity.
  - discriminate.
  - reflexivity.
Defined.

(** ** Where the rows of the table come from *)

Section Agg.
Context `{Builtins, Remote}.

Lemma build_raw_rows_all lookup name info markets rows :
  build_raw_rows lookup name info markets = Ok rows ->
  Forall (fun raw => exists m, m ∈ markets
                      /\ build_raw_row lookup name info m = Ok raw) rows.
Proof.
  revert rows. induction markets as [|m ms IH]; intros rows; simpl.
  - intros [= <-]. constructor.
  - intros Hrows. inv_io. subst. constructor.
    + exists m. split; [by left | done].
    + eapply Forall_impl; [by apply IH|].
      intros raw (m' & Hm' & Hraw). exists m'. split; [by right | done].
Qed.

Lemma process_dex_rows lookup info acc dex w acc' w' :
  process_dex lookup info acc dex w = (Ok acc', w') ->
  exists new,
    acc' = acc ++ new
    /\ Forall (fun raw => exists m, raw_row_of lookup m raw) new.
Proof.
  unfold process_dex. intros Hrun. inv_io.
  match type of Hrun with context [match ?o with _ => _ end] =>
    destruct o as [markets|] eqn:Ho end; inv_io.
  - subst. eexists; split; [done|].
    match goal with Hb : build_raw_rows _ _ _ _ = Ok _ |- _ =>
      apply build_raw_rows_all in Hb; rename Hb into Hall end.
    match goal with Hk : dict_key ?v = Ok ?k |- _ =>
      destruct v; try done; injection Hk as -> end.
    match goal with Ht : try_except _ _ ?w0 = (Ok (Some _), _) |- _ =>
      cbv [try_except mbind IO_bind mret IO_ret] in Ht;
      destruct (get_dex_markets _ w0) as [[ms|e] w1] eqn:Hfetch;
      [injection Ht as <- <- | discriminate] end.
    eapply Forall_impl; [exact Hall|].
    intros raw (m & Hm & Hraw). exists m. eexists _, _. split; [|exact Hraw].
    by exists w, ms, w1.
  - exists []. by rewrite app_nil_r.
Qed.

Lemma process_dexes_rows lookup info completed : forall acc w acc' w',
  process_dexes lookup info acc completed w = (Ok acc', w') ->
  Forall (fun raw => exists m, raw_row_of lookup m raw) acc ->
  Forall (fun raw => exists m, raw_row_of lookup m raw) acc'.
Proof.
  induction completed as [|dex rest IH]; intros acc w acc' w'; simpl.
  - by intros [= <- <-].
  - intros Hrun Hacc. inv_io.
    match goal with Hd : process_dex _ _ _ _ _ = _ |- _ =>
      apply process_dex_rows in Hd as (new & -> & Hnew) end.
    eapply IH; [done|]. by apply Forall_app.
Qed.

Lemma insert_row_perm r l : insert_row r l ≡ₚ r :: l.
Proof.
  induction l as [|r' l IH]; simpl; [done|].
  destruct (row_leb r r'); [done|]. rewrite IH. apply Permutation_swap.
Qed.

Lemma sort_values_perm rows : sort_values rows ≡ₚ rows.
Proof.
  induction rows as [|r rows IH]; simpl; [done|].
  by rewrite insert_row_perm, IH.
Qed.

Lemma get_all_markets_inv w rows w' :
  get_all_markets w = (Ok rows, w') ->
  exists dexes w1 tables raw_rows w2 dates,
    get_dexes w = (Ok dexes, w1)
    /\ scan_dexes (∅, ∅) dexes = Ok tables
    /\ dexes <> []
    /\ fetch_rows tables dexes w1 = (Ok raw_rows, w2)
    /\ Forall (fun raw => exists m, raw_row_of tables.1 m raw) raw_rows
    /\ (raw_rows <> [] ->
        _get_listing_dates
          (map (fun r => (RawRow.asset r, RawRow._fallback_iso r)) raw_rows)
          w2 = (Ok dates, w'))
    /\ rows = sort_values (map (finish_row dates (now w')) raw_rows).
Proof.
  unfold get_all_markets. intros Hrun. inv_io.
  match goal with Hd : get_dexes w = (Ok ?d, ?w1) |- _ =>
    exists d, w1; rename d into dexes end.
  match goal with Hs : scan_dexes _ _ = Ok ?t |- _ => exists t end.
  assert (dexes <> []) as Hne.
  { intros ->. simpl in *. discriminate. }
  match goal with Ht : ThreadPoolExecutor _ _ = _ |- _ =>
    destruct dexes as [|dex dexes]; [done|]; injection Ht as _ <- end.
  match goal with
    Ha : as_completed _ _ = (Ok _, _),
    Hp : process_dexes _ _ [] _ _ = (Ok ?r, ?w2) |- _ =>
      exists r, w2; rename r into raw_rows;
      pose proof (process_dexes_rows _ _ _ _ _ _ _ Hp ltac:(constructor))
        as Hraw;
      assert (fetch_rows _ (dex :: dexes) _ = (Ok raw_rows, w2)) as Hfetch
        by (unfold fetch_rows; rewrite (IO_bind_run _ _ _ _ _ Ha); exact Hp)
  end.
  destruct raw_rows as [|raw raw_rows].
  - exists ∅. injection Hrun as <- <-. done.
  - inv_io. unfold clock in *.
    match goal with Hc : (_, _) = (Ok _, _) |- _ => injection Hc as <- <- end.
    eexists. repeat split; try done.
Qed.

Lemma get_all_markets_rows w rows w' row :
  get_all_markets w = (Ok rows, w') -> row ∈ rows ->
  exists dexes w1 tables m,
    get_dexes w = (Ok dexes, w1)
    /\ scan_dexes (∅, ∅) dexes = Ok tables
    /\ aggregates tables.1 m row.
Proof.
  intros Hrun Hrow.
  destruct (get_all_markets_inv _ _ _ Hrun)
    as (dexes & w1 & tables & raw_rows & w2 & dates
        & Hd & Ht & _ & _ & Hraw & _ & ->).
  rewrite sort_values_perm in Hrow.
  apply list_elem_of_fmap in Hrow as (raw & -> & Hin).
  rewrite Forall_forall in Hraw.
  destruct (Hraw raw Hin) as (m & Hm).
  exists dexes, w1, tables, m. repeat split; try done.
  by exists raw, dates, (now w').
Qed.


Lemma build_raw_row_inv lookup name info m raw :
  build_raw_row lookup name info m = Ok raw ->
  exists asset a b,
    asset_str (Market.asset m) = Ok asset
    /\ float_or_zero (Market.open_interest m) = Ok a
    /\ float_or_zero (Market.mark_px m) = Ok b
    /\ RawRow.dex raw = name
    /\ RawRow.asset raw = asset
    /\ RawRow.ticker raw = ticker_of asset
    /\ RawRow.open_interest raw = (a * b)%float
    /\ RawRow.oi_cap raw = lookup !! asset
    /\ RawRow.oi_cap_pct raw = cap_pct (a * b)%float (lookup !! asset)
    /\ _to_float (Market.day_ntl_vlm m) = Ok (RawRow.day_ntl_vlm raw).
Proof.
  unfold build_raw_row. intros Hb. inv_io. subst raw. cbn.
  eexists _, _, _. repeat split; eassumption || reflexivity.
Qed.

Lemma aggregates_inv lookup m row :
  aggregates lookup m row ->
  exists asset a b,
    asset_str (Market.asset m) = Ok asset
    /\ float_or_zero (Market.open_interest m) = Ok a
    /\ float_or_zero (Market.mark_px m) = Ok b
    /\ Row.asset row = asset
    /\ Row.ticker row = ticker_of asset
    /\ Row.open_interest row = (a * b)%float
    /\ Row.oi_cap row = lookup !! asset
    /\ Row.oi_cap_pct row = cap_pct (a * b)%float (lookup !! asset).
Proof.
  intros (raw & dates & now & (name & info & _ & Hraw) & ->).
  apply build_raw_row_inv in Hraw
    as (asset & a & b & ? & ? & ? & ? & ? & ? & ? & ? & ? & ?).
  exists asset, a, b. unfold finish_row; cbn. repeat split; done.
Qed.

(** *** The coercion [float(v or 0)] *)

Lemma float_or_zero_present v x :
  Py.truthy v = true -> py_float v = Ok x -> float_or_zero v = Ok x.
Proof. intros Hv Hx. unfold float_or_zero, Py.or. by rewrite Hv, Hx. Qed.

Lemma float_or_zero_absent v :
  Py.truthy v = false -> float_or_zero v = Ok 0%float.
Proof. intros Hv. unfold float_or_zero, Py.or. by rewrite Hv. Qed.

Lemma float_or_zero_unparseable v e :
  py_float v = Raise e -> is_value_or_type_error e = true ->
  float_or_zero v = Ok 0%float.
Proof.
  intros Hx He. unfold float_or_zero, Py.or.
  destruct (Py.truthy v); [by rewrite Hx, He | done].
Qed.

Lemma float_or_zero_raises v e :
  float_or_zero v = Raise e ->
  e = OverflowError
  /\ exists n, v = VInt n /\ float_of_int n = Raise OverflowError.
Proof.
  unfold float_or_zero, Py.or. destruct (Py.truthy v) eqn:Hv; [|done].
  destruct v as [|b|n|x|s|xs|kvs]; cbn [py_float]; try done.
  - unfold float_of_int. destruct (SF64 n) eqn:Hn; try done.
    intros [= <-]. split; [done|]. exists n. by rewrite Hn.
  - by destruct (float_of_str s).
Qed.

(** C7, as the code has it. The row's [open_interest] is the binary64
    product of the two coerced inputs. A coerced input is the parsed
    number when the field is present (true) and [float] accepts it, and
    0.0 when the field is absent (or otherwise false) or [float] rejects
    it with [ValueError] or [TypeError]; the coercion itself raises only
    [OverflowError], on an [int] beyond the range of a float. The product
    is [>= 0] when both coerced inputs are finite and [>= 0], and it is
    zero when one of them is zero and the other is finite. *)
Theorem open_interest_usd_is_product w rows w' row :
  get_all_markets w = (Ok rows, w') -> row ∈ rows ->
  exists dexes w1 tables m a b,
    get_dexes w = (Ok dexes, w1)
    /\ scan_dexes (∅, ∅) dexes = Ok tables
    /\ aggregates tables.1 m row
    /\ float_or_zero (Market.open_interest m) = Ok a
    /\ float_or_zero (Market.mark_px m) = Ok b
    /\ Row.open_interest row = (a * b)%float
    /\ (finite a = true -> finite b = true ->
        nonneg a = true -> nonneg b = true ->
        nonneg (Row.open_interest row) = true)
    /\ (is_zero a = true -> finite b = true ->
        is_zero (Row.open_interest row) = true)
    /\ (finite a = true -> is_zero b = true ->
        is_zero (Row.open_interest row) = true)
    /\ (forall v x, Py.truthy v = true -> py_float v = Ok x ->
          float_or_zero v = Ok x)
    /\ (forall v, Py.truthy v = false -> float_or_zero v = Ok 0%float)
    /\ (forall v e, py_float v = Raise e ->
          is_value_or_type_error e = true -> float_or_zero v = Ok 0%float)
    /\ (forall v e, float_or_zero v = Raise e ->
          e = OverflowError
          /\ exists n, v = VInt n /\ float_of_int n = Raise OverflowError).
Proof.
  intros Hrun Hrow.
  destruct (get_all_markets_rows _ _ _ _ Hrun Hrow)
    as (dexes & w1 & tables & m & Hd & Ht & Hagg).
  pose proof Hagg as Hrow_of.
  apply aggregates_inv in Hagg
    as (asset & a & b & _ & Ha & Hb & _ & _ & Hoi & _).
  exists dexes, w1, tables, m, a, b. rewrite Hoi.
  split; [done|]. split; [done|]. split; [done|].
  split; [done|]. split; [done|]. split; [done|].
  split; [apply mul_nonneg|]. split; [apply mul_zero_l|].
  split; [apply mul_zero_r|].
  split; [apply float_or_zero_present|].
  split; [apply float_or_zero_absent|].
  split; [apply float_or_zero_unparseable | apply float_or_zero_raises].
Qed.

(** *** The cap table *)
















(** C9. The [ticker] of a row is what follows the last colon of its
    asset identifier, and the identifier itself when it has no colon. *)
Theorem ticker_after_last_colon w rows w' row :
  get_all_markets w = (Ok rows, w') -> row ∈ rows ->
  (contains_colon (Row.asset row) = true ->
     contains_colon (Row.ticker row) = false
     /\ exists prefix,
          Row.asset row
          = String.append prefix (String ":" (Row.ticker row)))
  /\ (contains_colon (Row.asset row) = false ->
      Row.ticker row = Row.asset row).
Proof.
  intros Hrun Hrow.
  destruct (get_all_markets_rows _ _ _ _ Hrun Hrow)
    as (dexes & w1 & tables & m & _ & _ & Hagg).
  apply aggregates_inv in Hagg
    as (asset & a & b & _ & _ & _ & -> & -> & _).
  apply ticker_of_spec.
Qed.

End Agg.

Lemma demo_run_eq :
  @get_all_markets sample_builtins demo_api demo_world
  = (Ok demo_table, demo_run.2).
Proof. vm_compute. reflexivity. Qed.

Lemma signed_run_eq :
  @get_all_markets sample_builtins signed_api (fresh_world [] 0) = signed_run.
Proof. vm_compute. reflexivity. Qed.

(** ** The order of the table *)

Section FloatOrder.

Lemma SFleb_trans a b c :
  SFleb a b = true -> SFleb b c = true -> SFleb a c = true.
Proof.
  unfold SFleb, SFcompare.
  destruct a as [sa|sa| |sa ma ea], b as [sb|sb| |sb mb eb],
           c as [sc|sc| |sc mc ec]; try done;
    try (destruct sa, sb, sc; done);
    try (destruct sa, sb; done); try (destruct sb, sc; done);
    try (destruct sa, sc; done).
  destruct sa, sb, sc; try done;
    rewrite ?Pos.compare_cont_spec; cbn [Pos.switch_Eq];
    destruct (Z.compare_spec ea eb), (Z.compare_spec eb ec),
             (Z.compare_spec ea ec); try done; try lia; subst;
    destruct (Pos.compare_spec ma mb), (Pos.compare_spec mb mc),
             (Pos.compare_spec ma mc); try done; try lia.
Qed.

Lemma SFleb_total a b :
  a <> S754_nan -> b <> S754_nan -> SFleb a b = false -> SFleb b a = true.
Proof.
  unfold SFleb, SFcompare.
  destruct a as [sa|sa| |sa ma ea], b as [sb|sb| |sb mb eb]; try done;
    try (destruct sa, sb; done); try (by destruct sa); try (by destruct sb).
  intros _ _. destruct sa, sb; try done;
    rewrite ?Pos.compare_cont_spec; cbn [Pos.switch_Eq];
    destruct (Z.compare_spec ea eb), (Z.compare_spec eb ea);
      try done; try lia; subst;
    destruct (Pos.compare_spec ma mb), (Pos.compare_spec mb ma);
      try done; try lia.
Qed.

Lemma is_nan_spec x :
  is_nan x = match Prim2SF x with S754_nan => true | _ => false end.
Proof.
  unfold is_nan. rewrite FloatAxioms.eqb_spec. unfold SFeqb, SFcompare.
  destruct (Prim2SF x) as [s|s| |s m e]; try done; try (by destruct s).
  destruct s; rewrite Z.compare_refl, Pos.compare_cont_spec, Pos.compare_refl; done.
Qed.

Lemma float_ge_trans x y z :
  float_ge x y = true -> float_ge y z = true -> float_ge x z = true.
Proof.
  unfold float_ge. rewrite !FloatAxioms.leb_spec. intros Hxy Hyz.
  by apply (SFleb_trans _ (Prim2SF y)).
Qed.

Lemma float_ge_total x y :
  is_nan x = false -> is_nan y = false ->
  float_ge x y = false -> float_ge y x = true.
Proof.
  unfold float_ge. rewrite !is_nan_spec, !FloatAxioms.leb_spec.
  intros Hx Hy. apply SFleb_total.
  - by destruct (Prim2SF y).
  - by destruct (Prim2SF x).
Qed.

End FloatOrder.

Section Sorting.

Lemma string_compare_trans a b c :
  String.compare a b = Lt -> String.compare b c = Lt ->
  String.compare a c = Lt.
Proof.
  intros Hab Hbc. apply String_as_OT.cmp_lt.
  apply String_as_OT.lt_trans with b; by apply String_as_OT.cmp_lt.
Qed.

Lemma string_compare_refl a : String.compare a a = Eq.
Proof.
  pose proof (String.compare_antisym a a) as Ha.
  by destruct (String.compare a a).
Qed.

Lemma string_compare_gt a b :
  String.compare a b = Gt -> String.compare b a = Lt.
Proof. intros Hab. rewrite String.compare_antisym, Hab. done. Qed.

Lemma vlm_leb_trans a b c :
  vlm_leb a b = true -> vlm_leb b c = true -> vlm_leb a c = true.
Proof.
  unfold vlm_leb.
  destruct (vlm_key a) as [x|], (vlm_key b) as [y|], (vlm_key c) as [z|];
    try done.
  apply float_ge_trans.
Qed.

Lemma vlm_key_not_nan r x : vlm_key r = Some x -> is_nan x = false.
Proof.
  unfold vlm_key. destruct (Row.day_ntl_vlm r) as [y|]; [|done].
  destruct (is_nan y) eqn:E; [done|]. by intros [= <-].
Qed.

Lemma vlm_leb_total a b : vlm_leb a b = false -> vlm_leb b a = true.
Proof.
  unfold vlm_leb.
  destruct (vlm_key a) as [x|] eqn:Ha, (vlm_key b) as [y|] eqn:Hb; try done.
  apply float_ge_total; by eapply vlm_key_not_nan.
Qed.

Lemma row_leb_trans a b c :
  row_leb a b = true -> row_leb b c = true -> row_leb a c = true.
Proof.
  unfold row_leb.
  destruct (String.compare (Row.dex a) (Row.dex b)) eqn:Hab; [| |done];
    destruct (String.compare (Row.dex b) (Row.dex c)) eqn:Hbc; try done.
  - apply String.compare_eq_iff in Hab, Hbc. rewrite Hab, Hbc.
    rewrite string_compare_refl.
    apply vlm_leb_trans.
  - apply String.compare_eq_iff in Hab. rewrite Hab, Hbc. done.
  - apply String.compare_eq_iff in Hbc. rewrite <- Hbc, Hab. done.
  - by rewrite (string_compare_trans _ _ _ Hab Hbc).
Qed.

Lemma row_leb_total a b : row_leb a b = false -> row_leb b a = true.
Proof.
  unfold row_leb.
  destruct (String.compare (Row.dex a) (Row.dex b)) eqn:Hab; [|done|].
  - apply String.compare_eq_iff in Hab. rewrite Hab.
    rewrite string_compare_refl.
    apply vlm_leb_total.
  - by rewrite (string_compare_gt _ _ Hab).
Qed.

Lemma insert_row_sorted r l :
  StronglySorted (fun a b => row_leb a b = true) l ->
  StronglySorted (fun a b => row_leb a b = true) (insert_row r l).
Proof.
  induction 1 as [|r' l Hl IH Hall]; simpl.
  - repeat constructor.
  - destruct (row_leb r r') eqn:Hrr'.
    + constructor; [by constructor|]. constructor; [done|].
      eapply Forall_impl; [exact Hall|]. intros c Hc.
      by apply row_leb_trans with r'.
    + constructor; [done|].
      rewrite insert_row_perm. constructor; [|done].
      by apply row_leb_total.
Qed.

Lemma sort_values_sorted rows :
  StronglySorted (fun a b => row_leb a b = true) (sort_values rows).
Proof.
  induction rows as [|r rows IH]; simpl; [constructor|].
  by apply insert_row_sorted.
Qed.

Lemma sorted_lookup (l : list Row.t) i j a b :
  StronglySorted (fun a b => row_leb a b = true) l ->
  (i < j)%nat -> l !! i = Some a -> l !! j = Some b -> row_leb a b = true.
Proof.
  intros Hl. revert i j. induction Hl as [|r l Hl IH Hall]; intros i j Hij.
  - by rewrite lookup_nil.
  - destruct i as [|i], j as [|j]; try lia; simpl.
    + intros [= ->] Hb. rewrite Forall_forall in Hall.
      apply Hall. by eapply list_elem_of_lookup_2.
    + apply IH. lia.
Qed.

Lemma filter_insert_row (P : Row.t -> Prop) `{forall r, Decision (P r)} r l :
  (P r -> forall r', P r' -> row_leb r r' = true) ->
  filter P (insert_row r l) = filter P (r :: l).
Proof.
  intros Hclass. induction l as [|r' l IH]; simpl; [done|].
  destruct (row_leb r r') eqn:Hrr'; [done|].
  rewrite filter_cons, IH, !filter_cons.
  destruct (decide (P r')) as [Hr'|Hr']; [|done].
  destruct (decide (P r)) as [Hr|Hr]; [|done].
  rewrite (Hclass Hr r' Hr') in Hrr'. done.
Qed.

Lemma sort_values_stable k rows :
  filter (fun r => same_key k r = true) (sort_values rows)
  = filter (fun r => same_key k r = true) rows.
Proof.
  induction rows as [|r rows IH]; simpl; [done|].
  rewrite filter_insert_row, !filter_cons, IH; [done|].
  unfold same_key. intros [Hkr Hrk]%andb_prop r' [Hkr' Hr'k]%andb_prop.
  by apply row_leb_trans with k.
Qed.


Lemma same_key_spec a b :
  same_key a b = true <->
  Row.dex a = Row.dex b
  /\ match vlm_key a, vlm_key b with
     | Some x, Some y => float_ge x y = true /\ float_ge y x = true
     | None, None => True
     | _, _ => False
     end.
Proof.
  unfold same_key, row_leb, vlm_leb. rewrite andb_true_iff. split.
  - intros [Hab Hba].
    destruct (String.compare (Row.dex a) (Row.dex b)) eqn:E; [| |done].
    + apply String.compare_eq_iff in E. split; [done|].
      rewrite E, string_compare_refl in Hba.
      by destruct (vlm_key a), (vlm_key b).
    + rewrite String.compare_antisym, E in Hba. done.
  - intros [-> Hv]. rewrite string_compare_refl.
    by destruct (vlm_key a), (vlm_key b); try destruct Hv.
Qed.

Lemma sort_values_order rows :
  let sorted := sort_values rows in
  (forall i j a b, sorted !! i = Some a -> sorted !! j = Some b ->
     String.compare (Row.dex a) (Row.dex b) = Lt -> (i < j)%nat)
  /\ (forall i j a b x y, (i < j)%nat ->
        sorted !! i = Some a -> sorted !! j = Some b ->
        Row.dex a = Row.dex b ->
        vlm_key a = Some x -> vlm_key b = Some y -> float_ge x y = true)
  /\ (forall i j a b, (i < j)%nat ->
        sorted !! i = Some a -> sorted !! j = Some b ->
        Row.dex a = Row.dex b -> vlm_key a = None -> vlm_key b = None).
Proof.
  intros sorted. pose proof (sort_values_sorted rows) as Hs.
  fold sorted in Hs. split; [|split].
  - intros i j a b Ha Hb Hlt.
    destruct (decide (i < j)%nat) as [|Hge]; [done|]. exfalso.
    destruct (decide (i = j)) as [->|Hne].
    + rewrite Ha in Hb. injection Hb as ->.
      by rewrite string_compare_refl in Hlt.
    + pose proof (sorted_lookup _ j i b a Hs ltac:(lia) Hb Ha) as Hba.
      unfold row_leb in Hba.
      by rewrite String.compare_antisym, Hlt in Hba.
  - intros i j a b x y Hij Ha Hb Hdex Hx Hy.
    pose proof (sorted_lookup _ i j a b Hs Hij Ha Hb) as Hab.
    unfold row_leb, vlm_leb in Hab.
    by rewrite Hdex, string_compare_refl, Hx, Hy in Hab.
  - intros i j a b Hij Ha Hb Hdex Hx.
    pose proof (sorted_lookup _ i j a b Hs Hij Ha Hb) as Hab.
    unfold row_leb, vlm_leb in Hab.
    rewrite Hdex, string_compare_refl, Hx in Hab.
    by destruct (vlm_key b).
Qed.

End Sorting.

Section Table.
Context `{Builtins, Remote}.

(** C5. The table is the fetched rows (in the order the fan-out appended
    them, each joined with its listing date), sorted: a row of a lesser
    sub-exchange stands before every row of a greater one; within a
    sub-exchange the volumes that are numbers do not increase, and rows
    without a volume follow them; and rows with the same key stand in
    the order they were fetched in. *)
Theorem table_sorted_stably w rows w' :
  get_all_markets w = (Ok rows, w') ->
  exists dexes w1 tables raw_rows w2 dates,
    get_dexes w = (Ok dexes, w1)
    /\ scan_dexes (∅, ∅) dexes = Ok tables
    /\ fetch_rows tables dexes w1 = (Ok raw_rows, w2)
    /\ let fetched := map (finish_row dates (now w')) raw_rows in
       rows = sort_values fetched
       /\ rows ≡ₚ fetched
       /\ (forall i j a b, rows !! i = Some a -> rows !! j = Some b ->
             String.compare (Row.dex a) (Row.dex b) = Lt -> (i < j)%nat)
       /\ (forall i j a b x y, (i < j)%nat ->
             rows !! i = Some a -> rows !! j = Some b ->
             Row.dex a = Row.dex b ->
             vlm_key a = Some x -> vlm_key b = Some y ->
             float_ge x y = true)
       /\ (forall i j a b, (i < j)%nat ->
             rows !! i = Some a -> rows !! j = Some b ->
             Row.dex a = Row.dex b -> vlm_key a = None ->
             vlm_key b = None)
       /\ (forall k,
             filter (fun r => same_key k r = true) rows
             = filter (fun r => same_key k r = true) fetched)
       /\ (forall a b,
             same_key a b = true <->
             Row.dex a = Row.dex b
             /\ match vlm_key a, vlm_key b with
                | Some x, Some y =>
                    float_ge x y = true /\ float_ge y x = true
                | None, None => True
                | _, _ => False
                end).
Proof.
  intros Hrun.
  destruct (get_all_markets_inv _ _ _ Hrun)
    as (dexes & w1 & tables & raw_rows & w2 & dates
        & Hd & Ht & _ & Hfetch & _ & _ & ->).
  exists dexes, w1, tables, raw_rows, w2, dates.
  split; [done|]. split; [done|]. split; [done|]. intros fetched.
  split; [reflexivity|]. split; [apply sort_values_perm|].
  destruct (sort_values_order fetched) as (Hdex & Hvlm & Hmissing).
  split; [exact Hdex|]. split; [exact Hvlm|]. split; [exact Hmissing|].
  split; [intros k; apply sort_values_stable | apply same_key_spec].
Qed.

End Table.

(** ** Failures of the fan-out *)

Section Failures.
Context `{Builtins, Remote}.

(** With no sub-exchange the pool is built with [max_workers=0]. *)
Lemma get_all_markets_no_dex w w1 :
  get_dexes w = (Ok [], w1) -> get_all_markets w = (Raise ValueError, w1).
Proof.
  intros Hd. unfold get_all_markets.
  rewrite (IO_bind_run _ _ _ _ _ Hd). done.
Qed.

(** A sub-exchange whose fetch fails contributes no row. *)
Lemma failed_fetch_contributes_nothing lookup info acc dex name e w w' :
  Py.get dex "name" (VStr "") = Ok (VStr name) ->
  get_dex_markets (VStr name) w = (Raise e, w') ->
  process_dex lookup info acc dex w = (Ok acc, w').
Proof.
  intros Hname Hfetch. unfold process_dex. rewrite Hname.
  cbv [lift mbind IO_bind try_except dict_key]. by rewrite Hfetch.
Qed.

Lemma scan_dex_name acc dex acc' :
  scan_dex acc dex = Ok acc' ->
  exists name, Py.get dex "name" (VStr "") = Ok (VStr name).
Proof.
  unfold scan_dex. intros Hs. inv_io.
  match goal with Hk : dict_key ?v = Ok _ |- _ => destruct v; try done end.
  eauto.
Qed.

Lemma scan_dexes_names dexes : forall acc acc',
  scan_dexes acc dexes = Ok acc' ->
  Forall (fun dex => exists name,
            Py.get dex "name" (VStr "") = Ok (VStr name)) dexes.
Proof.
  induction dexes as [|dex dexes IH]; intros acc acc'; simpl; [constructor|].
  intros Hs. inv_io. constructor; [by eapply scan_dex_name | by eapply IH].
Qed.

Lemma process_dexes_all_fail lookup info completed : forall acc w,
  (forall dex_name w0, exists e w0',
     get_dex_markets dex_name w0 = (Raise e, w0')) ->
  Forall (fun dex => exists name,
            Py.get dex "name" (VStr "") = Ok (VStr name)) completed ->
  exists w', process_dexes lookup info acc completed w = (Ok acc, w').
Proof.
  induction completed as [|dex rest IH]; intros acc w Hfail Hnames; simpl.
  - by exists w.
  - apply Forall_cons in Hnames as [[name Hname] Hrest].
    destruct (Hfail (VStr name) w) as (e & w1 & Hfetch).
    rewrite (IO_bind_run _ _ _ _ _
               (failed_fetch_contributes_nothing lookup info acc dex name
                  e w w1 Hname Hfetch)).
    by apply IH.
Qed.

(** When every market fetch fails the table is empty. *)
Lemma all_fetches_fail_empty w dexes w1 tables :
  get_dexes w = (Ok dexes, w1) -> dexes <> [] ->
  scan_dexes (∅, ∅) dexes = Ok tables ->
  (forall dex_name w0, exists e w0',
     get_dex_markets dex_name w0 = (Raise e, w0')) ->
  exists w', get_all_markets w = (Ok [], w').
Proof.
  intros Hd Hne Hscan Hfail. unfold get_all_markets.
  rewrite (IO_bind_run _ _ _ _ _ Hd). rewrite Hscan.
  unfold lift at 1. unfold mbind at 1, IO_bind at 1.
  destruct dexes as [|dex dexes]; [done|].
  unfold ThreadPoolExecutor. cbn [length].
  unfold mbind at 1, IO_bind at 1, mret at 1, IO_ret at 1.
  unfold mbind at 1, IO_bind at 1, as_completed.
  set (completed := completion_order _ _ _). set (w2 := World _ _ _ _).
  destruct (process_dexes_all_fail tables.1 tables.2 completed [] w2 Hfail)
    as [w' Hp].
  { assert (completed ≡ₚ dex :: dexes) as ->
      by by apply completion_order_perm.
    by eapply scan_dexes_names. }
  rewrite (IO_bind_run _ _ _ _ _ Hp). by exists w'.
Qed.

End Failures.

(** C4, at the failing input: discovery answers with an empty list (or
    with nothing but null placeholders), and the aggregation raises
    [ValueError] out of the pool constructor; it does not return the
    empty table. *)
Theorem aggregation_raises_without_sub_exchange :
  @get_dexes empty_api (fresh_world [] 0)
  = (Ok [], extend [Request perp_dexs_payload] (fresh_world [] 0))
  /\ @get_all_markets sample_builtins empty_api (fresh_world [] 0)
     = (Raise ValueError,
        extend [Request perp_dexs_payload] (fresh_world [] 0))
  /\ @get_dexes placeholder_api (fresh_world [] 0)
     = (Ok [], extend [Request perp_dexs_payload] (fresh_world [] 0))
  /\ @get_all_markets sample_builtins placeholder_api (fresh_world [] 0)
     = (Raise ValueError,
        extend [Request perp_dexs_payload] (fresh_world [] 0)).
Proof.
  assert (@get_dexes empty_api (fresh_world [] 0)
          = (Ok [], extend [Request perp_dexs_payload] (fresh_world [] 0)))
    as Hempty by by vm_compute.
  assert (@get_dexes placeholder_api (fresh_world [] 0)
          = (Ok [], extend [Request perp_dexs_payload] (fresh_world [] 0)))
    as Hnull by by vm_compute.
  split; [exact Hempty|]. split; [by apply get_all_markets_no_dex|].
  split; [exact Hnull|]. by apply get_all_markets_no_dex.
Qed.

Example all_fetches_fail_demo :
  (@get_all_markets sample_builtins failing_fetch_api (fresh_world [] 0)).1
  = Ok [].
Proof. by vm_compute. Qed.

(** ** The statements at work on the sample environments *)

Lemma open_interest_usd_is_product_witness :
  Forall (fun row =>
    exists m a b,
      @float_or_zero sample_builtins (Market.open_interest m) = Ok a
      /\ @float_or_zero sample_builtins (Market.mark_px m) = Ok b
      /\ Row.open_interest row = (a * b)%float)
    demo_table.
Proof.
  apply Forall_forall. intros row Hrow.
  destruct (@open_interest_usd_is_product sample_builtins demo_api
              demo_world demo_table demo_run.2 row demo_run_eq Hrow)
    as (dexes & w1 & tables & m & a & b & _ & _ & _ & Ha & Hb & Hoi & _).
  by exists m, a, b.
Defined.

(** The claim, as stated, fails on signs and on infinities: an open
    interest of "-1" at a mark price of "2" (both present, both numbers)
    gives [-2.0]; and an absent open interest at an infinite mark price
    gives a NaN, not zero. *)
Lemma negative_open_interest_usd :
  @py_float sample_builtins (VStr "-1") = Ok (-1)%float
  /\ @py_float sample_builtins (VStr "2") = Ok 2%float
  /\ exists neg inf w',
       @get_all_markets sample_builtins signed_api (fresh_world [] 0)
       = (Ok [neg; inf], w')
       /\ Row.asset neg = "x:NEG"
       /\ Row.open_interest neg = (-2)%float
       /\ nonneg (Row.open_interest neg) = false
       /\ Row.asset inf = "x:INF"
       /\ is_nan (Row.open_interest inf) = true
       /\ is_zero (Row.open_interest inf) = false.
Proof.
  split; [by vm_compute|]. split; [by vm_compute|].
  rewrite signed_run_eq. unfold signed_run.
  eexists _, _, _. split; [reflexivity|]. by vm_compute.
Qed.



Lemma ticker_after_last_colon_witness :
  Forall (fun row =>
    contains_colon (Row.asset row) = true ->
    contains_colon (Row.ticker row) = false
    /\ exists prefix,
         Row.asset row = String.append prefix (String ":" (Row.ticker row)))
    demo_table.
Proof.
  apply Forall_forall. intros row Hrow.
  apply (@ticker_after_last_colon sample_builtins demo_api
           demo_world demo_table demo_run.2 row demo_run_eq Hrow).
Defined.

Example demo_tickers :
  map Row.ticker demo_table = ["AAA"; "CCC"; "BBB"].
Proof. reflexivity. Qed.

(** The end-to-end scenario: one asset on the first sub-exchange, two
    live assets and a delisted one on the second; three rows, by
    sub-exchange and then by falling volume. *)
Example demo_table_order :
  map (fun row => (Row.dex row, Row.asset row, Row.day_ntl_vlm row,
                   Row.market_age_days row)) demo_table
  = [("one", "one:AAA", Some 100%float, Some 62);
     ("two", "two:CCC", Some 200%float, None);
     ("two", "two:BBB", Some 50%float, Some 0)].
Proof. reflexivity. Qed.

Lemma cached_listing_date_reused_witness :
  exists results w' evs,
    @_get_listing_dates sample_builtins demo_api
      [("one:AAA", VNone); ("two:CCC", VNone)] cached_world
    = (Ok results, w')
    /\ results !! "one:AAA" = Some (Some 1700000000000000)
    /\ _listing_date_cache w' !! "one:AAA" = Some (Some 1700000000000000)
    /\ log w' = log cached_world ++ evs
    /\ (Request (candle_payload "one:AAA") ∉ evs).
Proof.
  destruct (@cached_listing_date_reused sample_builtins demo_api
              [("one:AAA", VNone); ("two:CCC", VNone)] cached_world
              "one:AAA" (Some 1700000000000000))
    as (results & w' & evs & Hrun & Hres & Hcache & Hlog & Hreq & _).
  - by vm_compute.
  - exists results, w', evs. repeat split; try done.
    apply Hres. by left.
Defined.

Lemma table_sorted_stably_witness :
  map Row.asset demo_table = ["one:AAA"; "two:CCC"; "two:BBB"]
  /\ exists fetched, demo_table = sort_values fetched.
Proof.
  split; [reflexivity|].
  destruct (@table_sorted_stably sample_builtins demo_api demo_world
              demo_table demo_run.2 demo_run_eq)
    as (dexes & w1 & tables & raw_rows & w2 & dates & _ & _ & _ & Hsort & _).
  by eexists.
Defined.

(** A remark on the granularity of the cache: the batch is split into
    cached and uncached assets before any task runs, so an asset the
    cache does not hold yet and that the batch lists twice is resolved
    once per occurrence, and the task that completes last decides the
    entry. *)
Example new_asset_listed_twice :
  let batch := [("two:BBB", VNone);
                ("two:BBB", VStr "2024-01-15T10:30:00")] in
  let run choices :=
    @_get_listing_dates sample_builtins demo_api batch
      (fresh_world choices 0) in
  requests_in (log (run []).2) = 2%nat
  /\ _listing_date_cache (run []).2 !! "two:BBB"
     = Some (Some 1705314600000000)
  /\ _listing_date_cache (run [1%nat]).2 !! "two:BBB" = Some None.
Proof. by vm_compute. Qed.

(** * Further properties of the code

    Properties read off [api.py] that the specification does not state:
    edge and error behaviour, invariants of the cache, and what the
    aggregator never does. *)

(** ** Every run of the client *)

Section PostTotal.
Context `{Remote}.

Lemma reply_after_step payload d w i :
  reply_after (extend [Request payload; Sleep d] w) payload (d * 2)%float i
  = reply_after w payload d (S i).
Proof.
  unfold reply_after. cbn [backoff extend log]. by rewrite <- app_assoc.
Qed.

(** Whatever the server does, some number [k] of rate-limited rounds
    within the budget comes first, and the reply after them is final. *)
Lemma rate_limited_rounds payload n : forall d w,
  exists k, (k <= n)%nat
    /\ (forall i, (i < k)%nat ->
          rate_limited (reply_after w payload d i) = true)
    /\ ((k < n)%nat -> rate_limited (reply_after w payload d k) = false).
Proof.
  induction n as [|n IH]; intros d w.
  - exists O. split; [lia|]. split; intros; lia.
  - destruct (rate_limited (reply_after w payload d O)) eqn:E0.
    + destruct (IH (d * 2)%float (extend [Request payload; Sleep d] w))
        as (k & Hk & Hlim & Hstop).
      exists (S k). split; [lia|]. split.
      * intros [|i] Hi; [done|]. rewrite <- reply_after_step. apply Hlim. lia.
      * intros Hlt. rewrite <- reply_after_step. apply Hstop. lia.
    + exists O. split; [lia|]. split; [intros; lia | done].
Qed.

Lemma sleeps_in_backoff payload k : forall d,
  sleeps_in (backoff payload k d ++ [Request payload]) = delays k d.
Proof.
  induction k as [|k IH]; intros d; [done|].
  unfold sleeps_in in *. cbn. by rewrite IH.
Qed.

Lemma post_loop_total payload n d w :
  exists k, (k <= n)%nat
    /\ (forall i, (i < k)%nat ->
          rate_limited (reply_after w payload d i) = true)
    /\ ((k < n)%nat -> rate_limited (reply_after w payload d k) = false)
    /\ post_loop payload n d w
       = (outcome (reply_after w payload d k),
          extend (backoff payload k d ++ [Request payload]) w).
Proof.
  destruct (rate_limited_rounds payload n d w) as (k & Hk & Hlim & Hstop).
  exists k. repeat split; try done. by apply post_loop_spec.
Qed.

Lemma outcome_429 r : outcome r = Raise (HTTPError 429) -> rate_limited r = true.
Proof.
  destruct r as [st body|]; [|done]. unfold outcome, raise_for_status.
  cbn [fst rate_limited].
  destruct ((400 <=? st) && (st <? 600)); cbn.
  - by intros [= ->].
  - unfold json. cbn. by destruct body.
Qed.

(** X1. Whatever the server answers and whatever the retry budget,
    [_post] ends: it sends between one and [retries + 1] requests, all
    of them with the payload it was given, sleeps 1, 2, 4, ... seconds
    between them and nowhere else, retries only a 429, and hands out
    the outcome of the last reply. It raises the rate-limit error only
    when the whole budget is spent. *)
Theorem post_ends_within_budget payload retries w :
  exists k,
    let final := reply_after w payload 1 k in
    let events := backoff payload k 1 ++ [Request payload] in
    (k <= retries)%nat
    /\ _post payload retries w = (outcome final, extend events w)
    /\ (forall i, (i < k)%nat ->
          rate_limited (reply_after w payload 1 i) = true)
    /\ ((k < retries)%nat -> rate_limited final = false)
    /\ requests_in events = S k
    /\ (forall p, Request p ∈ events -> p = payload)
    /\ sleeps_in events = delays k 1
    /\ (outcome final = Raise (HTTPError 429) -> k = retries).
Proof.
  destruct (post_loop_total payload retries 1 w)
    as (k & Hk & Hlim & Hstop & Hrun).
  exists k. cbn zeta. split; [done|]. split; [done|]. split; [done|].
  split; [done|]. split; [apply requests_in_backoff|]. split.
  - destruct (post_loop_log payload retries 1 w _ _ Hrun)
      as (evs & Hw & Hreq).
    intros p Hp. apply Hreq.
    assert (log (extend (backoff payload k 1 ++ [Request payload]) w)
            = log (extend evs w)) as Hlog by by rewrite <- Hw.
    cbn [extend log] in Hlog. apply app_inv_head in Hlog. by rewrite <- Hlog.
  - split; [apply sleeps_in_backoff|].
    intros Hout. apply outcome_429 in Hout.
    destruct (decide (k < retries)%nat) as [Hlt|]; [|lia].
    rewrite (Hstop Hlt) in Hout. done.
Qed.

End PostTotal.

(** ** Sub-exchange discovery *)

Section Discovery.
Context `{Remote}.

Lemma get_dexes_inv w dexes w' :
  get_dexes w = (Ok dexes, w') ->
  exists data ds,
    post perp_dexs_payload w = (Ok data, w')
    /\ Py.iter data = Ok ds
    /\ dexes = List.filter (fun d => negb (Py.is_none d)) ds.
Proof.
  unfold get_dexes. intros Hrun. inv_io. subst. eauto.
Qed.

Lemma filter_not_none_sublist (ds : list value) :
  sublist (List.filter (fun d => negb (Py.is_none d)) ds) ds.
Proof.
  induction ds as [|d ds IH]; [constructor|].
  cbn. destruct (Py.is_none d); cbn; by constructor.
Qed.

Lemma elem_of_filter_not_none (ds : list value) d :
  d ∈ List.filter (fun d => negb (Py.is_none d)) ds <-> d ∈ ds /\ d <> VNone.
Proof.
  rewrite !list_elem_of_In, filter_In. split.
  - intros [Hin Hd]. split; [done|]. by intros ->.
  - intros [Hin Hd]. split; [done|]. by destruct d.
Qed.

(** X2. What discovery returns holds no null: it is the decoded
    response of one [perpDexs] call, iterated, with the null entries
    taken out and every other entry kept, as often as the response
    lists it and in the order of the response: the entries returned
    and the nulls add up to the response. *)
Theorem discovery_skips_nulls w dexes w' :
  get_dexes w = (Ok dexes, w') ->
  exists data ds,
    post perp_dexs_payload w = (Ok data, w')
    /\ Py.iter data = Ok ds
    /\ dexes = List.filter (fun d => negb (Py.is_none d)) ds
    /\ (length dexes + length (List.filter Py.is_none ds) = length ds)%nat
    /\ (VNone ∉ dexes)
    /\ (forall d, d ∈ dexes <-> d ∈ ds /\ d <> VNone)
    /\ sublist dexes ds
    /\ (VNone ∉ ds -> dexes = ds).
Proof.
  intros (data & ds & Hpost & Hiter & ->)%get_dexes_inv.
  exists data, ds. split; [done|]. split; [done|]. split; [done|].
  split.
  { clear. induction ds as [|d ds IH]; [done|]. cbn [List.filter].
    destruct (Py.is_none d); cbn [negb length]; lia. }
  split.
  - intros [_ Hd]%elem_of_filter_not_none. done.
  - split; [apply elem_of_filter_not_none|].
    split; [apply filter_not_none_sublist|].
    intros Hnone. clear Hiter Hpost. induction ds as [|d ds IH]; [done|].
    apply not_elem_of_cons in Hnone as [Hd Hds]. cbn.
    destruct d; cbn; by rewrite ?IH.
Qed.

End Discovery.

Lemma discovery_skips_nulls_witness :
  exists two one w',
    Py.iter demo_dexes = Ok [VNone; two; VNone; one]
    /\ @get_dexes demo_api demo_world = (Ok [two; one], w')
    /\ (VNone ∉ [two; one]).
Proof.
  eexists _, _, _. split; [reflexivity|]. split; [by vm_compute|].
  destruct (@discovery_skips_nulls demo_api demo_world _ _ eq_refl)
    as (data & ds & _ & _ & _ & _ & Hnone & _).
  exact Hnone.
Defined.

(** ** Parse or absent *)

Section ToFloat.
Context `{Builtins}.

Lemma py_float_raises v e :
  py_float v = Raise e ->
  is_value_or_type_error e = true
  \/ (e = OverflowError
      /\ exists n, v = VInt n /\ float_of_int n = Raise OverflowError).
Proof.
  destruct v as [|b|n|x|s|xs|kvs]; cbn; try (intros [= <-]; by left); try done.
  - intros Hn. right. unfold float_of_int in *.
    destruct (SF64 n) eqn:E; try done. injection Hn as <-.
    split; [done|]. exists n. split; [done|]. by rewrite E.
  - destruct (float_of_str s); [done|]. intros [= <-]. by left.
Qed.

(** X3. [_to_float] is parse-or-absent: a number when [float] accepts
    the value (a zero stays a zero), absent for null and for whatever
    [float] rejects with [ValueError] or [TypeError]; the one error it
    lets through is the [OverflowError] of an integer beyond the range
    of a float. Where it gives absent, the coercion used for the open
    interest gives zero; where it gives a number, that coercion gives
    the same number, or zero when the value is falsy. *)
Theorem to_float_parse_or_absent v :
  match _to_float v with
  | Ok (Some x) =>
      py_float v = Ok x
      /\ (float_or_zero v = Ok x
          \/ (Py.truthy v = false /\ float_or_zero v = Ok 0%float))
  | Ok None =>
      (v = VNone
       \/ exists e, py_float v = Raise e /\ is_value_or_type_error e = true)
      /\ float_or_zero v = Ok 0%float
  | Raise e =>
      e = OverflowError
      /\ float_or_zero v = Raise e
      /\ exists n, v = VInt n /\ float_of_int n = Raise OverflowError
  end.
Proof.
  unfold _to_float.
  destruct (py_float v) as [x|e] eqn:Hf.
  - destruct v as [|b|n|y|s|xs|kvs]; try done; (split; [done|]);
      (destruct (Py.truthy _) eqn:Ht;
       [left; by apply float_or_zero_present
       |right; split; [done|]; by apply float_or_zero_absent]).
  - destruct v as [|b|n|y|s|xs|kvs] eqn:Hv; rewrite <- Hv in *.
    + subst v. split; [by left|]. by apply float_or_zero_absent.
    + by subst v.
    + destruct (py_float_raises _ _ Hf) as [He|(-> & n' & Hn & Hov)].
      * rewrite He. subst v. cbn in Hf. unfold float_of_int in Hf.
        destruct (SF64 n); try done. by injection Hf as <-.
      * cbn. split; [done|]. split; [|eauto]. subst v. injection Hn as <-.
        unfold float_or_zero, Py.or. cbn [Py.truthy].
        destruct (Z.eqb_spec n 0) as [->|Hn0]; [by vm_compute in Hov|].
        cbn. by rewrite Hov.
    + by subst v.
    + subst v. cbn in Hf. destruct (float_of_str s) eqn:E; [done|].
      injection Hf as <-. cbn. split; [right; eauto|].
      unfold float_or_zero, Py.or. cbn [Py.truthy].
      destruct (String.eqb s ""); cbn; [done|]. by rewrite E.
    + subst v. cbn in Hf. injection Hf as <-. cbn. split; [right; eauto|].
      by destruct xs.
    + subst v. cbn in Hf. injection Hf as <-. cbn. split; [right; eauto|].
      by destruct kvs.
Qed.

End ToFloat.

(** ** The shapes of a market response *)

Section Shapes.
Context `{Remote}.

Lemma get_dex_markets_run dex_name w data w' :
  post (markets_payload dex_name) w = (Ok data, w') ->
  get_dex_markets dex_name w = (markets_of data, w').
Proof.
  intros Hpost. unfold get_dex_markets. by rewrite (IO_bind_run _ _ _ _ _ Hpost).
Qed.

Lemma zip_markets_length us : forall cs ms,
  zip_markets us cs = Ok ms ->
  (length ms <= Nat.min (length us) (length cs))%nat.
Proof.
  induction us as [|meta us IH]; intros cs ms; [intros [= <-]; cbn; lia|].
  destruct cs as [|ctx cs]; [intros [= <-]; cbn; lia|].
  cbn [zip_markets]. intros Hz. inv_io. subst ms.
  match goal with Hr : zip_markets us cs = Ok ?r |- _ =>
    specialize (IH _ _ Hr) end.
  match goal with |- context [match ?o with Some _ => _ | None => _ end] =>
    destruct o end; cbn [length]; lia.
Qed.

(** X4. The market fetch reads the first two elements of the response
    and nothing else. With no element, or with a single element that
    is not an object, there is nothing to pair and the fetch returns no
    market rather than an error; so it does with a single object whose
    universe can be iterated, and with a first element that is not an
    object next to contexts that can be iterated. A universe or a
    context array that cannot be iterated (a number, a boolean, null)
    makes the fetch raise the [TypeError] of [zip]. However long the
    two arrays are, there is at most one snapshot per position they
    share. A response that has no length (null, a number, a boolean)
    makes the fetch raise [TypeError]. *)
Theorem fetch_reads_two_arrays dex_name w data w' :
  post (markets_payload dex_name) w = (Ok data, w') ->
  (data = VList [] -> get_dex_markets dex_name w = (Ok [], w'))
  /\ (forall d0, data = VList [d0] -> Py.is_dict d0 = false ->
        get_dex_markets dex_name w = (Ok [], w'))
  /\ (forall kvs universe us, data = VList [VDict kvs] ->
        Py.get (VDict kvs) "universe" (VList []) = Ok universe ->
        Py.iter universe = Ok us ->
        get_dex_markets dex_name w = (Ok [], w'))
  /\ (forall d0 d1 rest cs, data = VList (d0 :: d1 :: rest) ->
        Py.is_dict d0 = false -> Py.iter d1 = Ok cs ->
        get_dex_markets dex_name w = (Ok [], w'))
  /\ (forall kvs universe e, data = VList [VDict kvs] ->
        Py.get (VDict kvs) "universe" (VList []) = Ok universe ->
        Py.iter universe = Raise e ->
        get_dex_markets dex_name w = (Raise e, w'))
  /\ (forall d0 d1 rest e, data = VList (d0 :: d1 :: rest) ->
        Py.is_dict d0 = false -> Py.iter d1 = Raise e ->
        get_dex_markets dex_name w = (Raise e, w'))
  /\ (forall v, Py.iter v = Raise TypeError <->
        match v with
        | VStr _ | VList _ | VDict _ => False
        | _ => True
        end)
  /\ (forall d0 d1 rest, data = VList (d0 :: d1 :: rest) ->
        get_dex_markets dex_name w = (markets_of (VList [d0; d1]), w'))
  /\ (forall ms, get_dex_markets dex_name w = (Ok ms, w') ->
        exists us cs,
          zipped_sequences data = Ok (us, cs)
          /\ (length ms <= Nat.min (length us) (length cs))%nat)
  /\ (Py.len data = Raise TypeError ->
      get_dex_markets dex_name w = (Raise TypeError, w')).
Proof.
  intros Hpost. rewrite (get_dex_markets_run _ _ _ _ Hpost).
  split; [by intros ->|].
  split; [intros d0 -> Hd; unfold markets_of, universe_of; cbn; by rewrite Hd|].
  split.
  { intros kvs universe us -> Hget Hus.
    unfold markets_of, universe_of, asset_ctxs_of.
    cbn -[Py.iter Py.get]. rewrite Hget.
    change (0 <? Z.of_nat 1) with true. change (1 <? Z.of_nat 1) with false.
    cbn -[Py.iter]. rewrite Hus. cbn.
    by destruct us. }
  split.
  { intros d0 d1 rest cs -> Hd Hcs.
    unfold markets_of, universe_of, asset_ctxs_of.
    cbn [Py.len Py.index nth_error length mbind result_bind].
    replace (1 <? Z.of_nat (S (S (length rest)))) with true
      by (symmetry; apply Z.ltb_lt; lia).
    replace (0 <? Z.of_nat (S (S (length rest)))) with true
      by (symmetry; apply Z.ltb_lt; lia).
    rewrite Hd. cbn -[Py.iter]. rewrite Hcs. done. }
  split.
  { intros kvs universe e -> Hget Hus.
    unfold markets_of, universe_of, asset_ctxs_of.
    cbn -[Py.iter Py.get]. rewrite Hget.
    change (0 <? Z.of_nat 1) with true. change (1 <? Z.of_nat 1) with false.
    cbn -[Py.iter]. by rewrite Hus. }
  split.
  { intros d0 d1 rest e -> Hd He.
    unfold markets_of, universe_of, asset_ctxs_of.
    cbn [Py.len Py.index nth_error length mbind result_bind].
    replace (1 <? Z.of_nat (S (S (length rest)))) with true
      by (symmetry; apply Z.ltb_lt; lia).
    replace (0 <? Z.of_nat (S (S (length rest)))) with true
      by (symmetry; apply Z.ltb_lt; lia).
    rewrite Hd. cbn -[Py.iter]. by rewrite He. }
  split.
  { intros v. by destruct v. }
  split.
  { intros d0 d1 rest ->. f_equal.
    unfold markets_of, universe_of, asset_ctxs_of.
    cbn [Py.len Py.index nth_error length mbind result_bind].
    replace (1 <? Z.of_nat (S (S (length rest)))) with true
      by (symmetry; apply Z.ltb_lt; lia).
    replace (0 <? Z.of_nat (S (S (length rest)))) with true
      by (symmetry; apply Z.ltb_lt; lia).
    done. }
  split.
  { intros ms [= Hms]. unfold markets_of in Hms. unfold zipped_sequences.
    inv_io.
    repeat (match goal with Hx : _ = Ok _ |- _ => rewrite Hx; clear Hx end;
            cbn [mbind result_bind]).
    eexists _, _. split; [reflexivity|]. by eapply zip_markets_length. }
  intros Hlen. unfold markets_of, universe_of. by rewrite Hlen.
Qed.

End Shapes.

Lemma fetch_reads_two_arrays_witness :
  let run name :=
    @get_dex_markets odd_shape_api (VStr name) (fresh_world [] 0) in
  let after name :=
    extend [Request (markets_payload (VStr name))] (fresh_world [] 0) in
  run "none" = (Ok [], after "none")
  /\ run "scalar" = (Ok [], after "scalar")
  /\ run "universe" = (Raise TypeError, after "universe")
  /\ run "contexts" = (Raise TypeError, after "contexts").
Proof.
  cbn zeta. split; [|split; [|split]].
  - apply (@fetch_reads_two_arrays odd_shape_api (VStr "none")
             (fresh_world [] 0) (VList []) _); [by vm_compute|reflexivity].
  - destruct (@fetch_reads_two_arrays odd_shape_api (VStr "scalar")
                (fresh_world [] 0) (VList [VInt 5])
                (extend [Request (markets_payload (VStr "scalar"))]
                   (fresh_world [] 0)))
      as (_ & Hone & _); [by vm_compute|].
    by apply (Hone (VInt 5)).
  - destruct (@fetch_reads_two_arrays odd_shape_api (VStr "universe")
                (fresh_world [] 0) (VList [VDict [("universe", VInt 5)]])
                (extend [Request (markets_payload (VStr "universe"))]
                   (fresh_world [] 0)))
      as (_ & _ & _ & _ & Huniv & _); [by vm_compute|].
    by apply (Huniv [("universe", VInt 5)] (VInt 5)).
  - destruct (@fetch_reads_two_arrays odd_shape_api (VStr "contexts")
                (fresh_world [] 0) (VList [VInt 5; VInt 7])
                (extend [Request (markets_payload (VStr "contexts"))]
                   (fresh_world [] 0)))
      as (_ & _ & _ & _ & _ & Hctx & _); [by vm_compute|].
    by apply (Hctx (VInt 5) (VInt 7) []).
Defined.

(** ** One resolution, whatever the candle response *)

Section FetchTotal.
Context `{Builtins, Remote}.

Lemma fetch_listing_date_run asset fallback w r w' :
  post (candle_payload asset) w = (r, w') ->
  _fetch_listing_date asset fallback w
  = match r ≫= first_candle_time with
    | Ok (Some dt) => (Ok (Some dt), w')
    | _ =>
        (if Py.truthy fallback then
           match parse_fallback fallback with
           | Ok dt => mret (Some dt)
           | Raise e => if is_value_or_type_error e then mret None else raise e
           end
         else mret None) w'
    end.
Proof.
  intros Hpost. unfold _fetch_listing_date.
  unfold mbind at 1, IO_bind at 1, try_except.
  destruct r as [candles|e].
  - rewrite (IO_bind_run _ _ _ _ _ Hpost). unfold lift. cbn [mbind result_bind].
    by destruct (first_candle_time candles) as [[dt|]|e].
  - by rewrite (IO_bind_raise _ _ _ _ _ Hpost).
Qed.

(** X5. A candle response that cannot be read is treated like no
    candle at all: when the response is falsy (null, an empty object,
    an empty string, zero), or its first element has no ["t"], or
    ["t"] is not a number, or the timestamp is outside the years
    1..9999, the exception is swallowed and the date comes from the
    fallback alone. *)
Theorem unreadable_candle_falls_back :
  (forall asset fallback w w' candles,
     post (candle_payload asset) w = (Ok candles, w') ->
     unusable candles = true ->
     _fetch_listing_date asset fallback w
     = (if Py.truthy fallback then
          match parse_fallback fallback with
          | Ok dt => mret (Some dt)
          | Raise e => if is_value_or_type_error e then mret None else raise e
          end
        else mret None) w')
  /\ (forall candles, Py.truthy candles = false -> unusable candles = true)
  /\ (forall c cs e, Py.item c "t" = Raise e ->
        unusable (VList (c :: cs)) = true)
  /\ (forall c cs t e, Py.item c "t" = Ok t -> truediv_1000 t = Raise e ->
        unusable (VList (c :: cs)) = true)
  /\ (forall c cs t x e, Py.item c "t" = Ok t -> truediv_1000 t = Ok x ->
        fromtimestamp_utc x = Raise e ->
        unusable (VList (c :: cs)) = true)
  /\ (forall kv kvs, unusable (VDict (kv :: kvs)) = true).
Proof.
  split.
  { intros asset fallback w w' candles Hpost Hun.
    rewrite (fetch_listing_date_run _ _ _ _ _ Hpost). cbn [mbind result_bind].
    unfold unusable in Hun.
    by destruct (first_candle_time candles) as [[dt|]|e]. }
  split.
  { intros candles Hc. unfold unusable, first_candle_time. by rewrite Hc. }
  assert (forall c cs, first_candle_time (VList (c :: cs))
          = (t ← Py.item c "t"; x ← truediv_1000 t;
             dt ← fromtimestamp_utc x; Ok (Some dt))) as Hfirst.
  { intros c cs. unfold first_candle_time.
    cbn [Py.truthy Py.len Py.index nth_error mbind result_bind length].
    by replace (0 <? Z.of_nat (S (length cs))) with true
      by (symmetry; apply Z.ltb_lt; lia). }
  split.
  { intros c cs e Ht. unfold unusable. rewrite Hfirst, Ht. done. }
  split.
  { intros c cs t e Ht Hx. unfold unusable. rewrite Hfirst, Ht. cbn.
    by rewrite Hx. }
  split.
  { intros c cs t x e Ht Hx Hdt. unfold unusable. rewrite Hfirst, Ht. cbn.
    rewrite Hx. cbn. by rewrite Hdt. }
  intros kv kvs. unfold unusable, first_candle_time.
  cbn [Py.truthy Py.len Py.index mbind result_bind length].
  by replace (0 <? Z.of_nat (S (length kvs))) with true
    by (symmetry; apply Z.ltb_lt; lia).
Qed.

(** X6. Called as annotated, with a string or null for the fallback
    (anything but an object), [_fetch_listing_date] never raises: it
    returns a date or absent after the one to five candle requests of a
    single [_post], whatever the server answers. *)
Theorem fetch_listing_date_never_raises asset fallback w :
  Py.is_dict fallback = false ->
  exists dt k,
    (k <= 4)%nat
    /\ _fetch_listing_date asset fallback w
       = (Ok dt,
          extend (backoff (candle_payload asset) k 1
                  ++ [Request (candle_payload asset)]) w).
Proof.
  intros Hfb.
  destruct (post_loop_total (candle_payload asset) 4 1 w)
    as (k & Hk & _ & _ & Hrun).
  rewrite (fetch_listing_date_run _ _ _ _ _ Hrun).
  assert (exists dt,
    (if Py.truthy fallback then
       match parse_fallback fallback with
       | Ok dt => mret (Some dt)
       | Raise e => if is_value_or_type_error e then mret None else raise e
       end
     else mret None : IO (option Z))
      (extend (backoff (candle_payload asset) k 1
               ++ [Request (candle_payload asset)]) w)
    = (Ok dt, extend (backoff (candle_payload asset) k 1
                      ++ [Request (candle_payload asset)]) w)) as [dt Hdt].
  { destruct (Py.truthy fallback); [|by eexists].
    destruct fallback as [|b|n|x|s|xs|kvs]; try done;
      unfold parse_fallback; try by eexists.
    destruct (fromisoformat _); by eexists. }
  destruct (_ ≫= first_candle_time) as [[dt'|]|e]; eauto.
Qed.

Lemma take_str_app n : forall s tail,
  String.length s = n -> Py.take_str n (String.append s tail) = s.
Proof.
  induction n as [|n IH]; intros [|c s] tail Hlen; try done.
  cbn. f_equal. apply IH. by injection Hlen.
Qed.

Lemma take_str_all n : forall s,
  (String.length s <= n)%nat -> Py.take_str n s = s.
Proof.
  induction n as [|n IH]; intros [|c s] Hlen; try done.
  - cbn in Hlen. lia.
  - cbn. f_equal. apply IH. cbn in Hlen. lia.
Qed.

(** X7. The fallback is read up to its 26th character: whatever
    follows (nanosecond digits, a zone suffix) has no effect on the
    resolution. *)
Theorem fallback_read_to_26_characters asset s tail w :
  String.length s = 26%nat ->
  _fetch_listing_date asset (VStr (String.append s tail)) w
  = _fetch_listing_date asset (VStr s) w.
Proof.
  intros Hlen.
  destruct (post (candle_payload asset) w) as [r w'] eqn:Hpost.
  rewrite !(fetch_listing_date_run _ _ _ _ _ Hpost).
  assert (Py.truthy (VStr (String.append s tail)) = Py.truthy (VStr s)) as ->.
  { destruct s; [done|]. done. }
  unfold parse_fallback. rewrite (take_str_app 26 s tail Hlen).
  by rewrite (take_str_all 26 s) by lia.
Qed.

End FetchTotal.

Lemma unreadable_candle_falls_back_witness :
  @_fetch_listing_date sample_builtins odd_candle_api "two:BBB"
    (VStr "2024-01-15T10:30:00") (fresh_world [] 0)
  = (Ok (Some 1705314600000000),
     extend [Request (candle_payload "two:BBB")] (fresh_world [] 0)).
Proof.
  destruct (@unreadable_candle_falls_back sample_builtins odd_candle_api)
    as (Hfall & _).
  rewrite (Hfall "two:BBB" (VStr "2024-01-15T10:30:00") (fresh_world [] 0)
             (extend [Request (candle_payload "two:BBB")] (fresh_world [] 0))
             (VList [VDict [("T", VInt 1700000000000)]]));
    by vm_compute.
Defined.

Lemma fetch_listing_date_never_raises_witness :
  exists dt k,
    (k <= 4)%nat
    /\ @_fetch_listing_date sample_builtins always_rate_limited "one:AAA"
         VNone (fresh_world [] 0)
       = (Ok dt,
          extend (backoff (candle_payload "one:AAA") k 1
                  ++ [Request (candle_payload "one:AAA")]) (fresh_world [] 0)).
Proof.
  apply (@fetch_listing_date_never_raises sample_builtins always_rate_limited).
  reflexivity.
Defined.

Lemma fallback_read_to_26_characters_witness :
  @_fetch_listing_date sample_builtins demo_api "two:BBB"
    (VStr "2024-01-15T10:30:00.123456789") (fresh_world [] 0)
  = @_fetch_listing_date sample_builtins demo_api "two:BBB"
      (VStr "2024-01-15T10:30:00.123456") (fresh_world [] 0).
Proof.
  apply (@fallback_read_to_26_characters sample_builtins demo_api "two:BBB"
           "2024-01-15T10:30:00.123456" "789").
  reflexivity.
Defined.

(** ** The cost of a batch of resolutions *)

Section ListingCost.
Context `{Builtins, Remote}.

Lemma requests_in_app evs evs' :
  requests_in (evs ++ evs') = (requests_in evs + requests_in evs')%nat.
Proof. unfold requests_in. by rewrite List.filter_app, length_app. Qed.

(** A task, with the [except] around it: one [_post]. *)
Lemma try_fetch_world asset fallback w :
  exists k, (k <= 4)%nat
    /\ (try_except (_fetch_listing_date asset fallback) (mret None) w).2
       = extend (backoff (candle_payload asset) k 1
                 ++ [Request (candle_payload asset)]) w.
Proof.
  destruct (post_loop_total (candle_payload asset) 4 1 w)
    as (k & Hk & _ & _ & Hrun).
  exists k. split; [done|]. unfold try_except.
  rewrite (fetch_listing_date_run _ _ _ _ _ Hrun).
  destruct (_ ≫= first_candle_time) as [[dt|]|e]; try done;
    (destruct (Py.truthy fallback); [|done];
     destruct (parse_fallback fallback) as [dt|e']; [done|];
     by destruct (is_value_or_type_error e')).
Qed.

Lemma collect_requests completed : forall results w,
  exists evs,
    log (collect completed results w).2 = log w ++ evs
    /\ (length completed <= requests_in evs <= 5 * length completed)%nat.
Proof.
  induction completed as [|[asset fallback] rest IH]; intros results w.
  - exists []. cbn. rewrite app_nil_r. split; [done|]. unfold requests_in. cbn. lia.
  - cbn [collect].
    destruct (try_fetch_run asset fallback w) as (evs1 & Hfetch & _).
    destruct (try_fetch_world asset fallback w) as (k & Hk & Hw).
    rewrite Hfetch in Hw. cbn [snd] in Hw.
    rewrite (IO_bind_run _ _ _ _ _ Hfetch).
    unfold mbind at 1, IO_bind at 1, cache_store.
    set (w2 := World _ _ _ _).
    destruct (IH (<[asset := resolved asset fallback w]> results) w2)
      as (evs2 & Hlog & Hcount).
    exists ((backoff (candle_payload asset) k 1
             ++ [Request (candle_payload asset)]) ++ evs2).
    split.
    + rewrite Hlog. subst w2. cbn [log]. rewrite Hw. cbn [extend log].
      by rewrite <- !app_assoc.
    + rewrite requests_in_app, requests_in_backoff. cbn [length]. lia.
Qed.

Lemma get_listing_dates_cached batch w :
  uncached (_listing_date_cache w) batch = [] ->
  exists results,
    _get_listing_dates batch w = (Ok results, w)
    /\ forall a, results !! a
         = if decide (a ∈ batch.*1) then _listing_date_cache w !! a else None.
Proof.
  intros Hnone.
  pose proof (elem_of_uncached (_listing_date_cache w) batch) as Hunc.
  rewrite Hnone in Hunc.
  unfold _get_listing_dates, split_cached. rewrite split_cached_fold.
  cbn [app]. unfold uncached in Hnone. apply fmap_nil_inv in Hnone.
  rewrite Hnone. eexists. split; [reflexivity|].
  intros a. rewrite cached_results_lookup.
  destruct (_listing_date_cache w !! a) eqn:Hc.
  - by destruct (decide _).
  - destruct (decide _) as [Hin|]; [|done].
    exfalso. eapply not_elem_of_nil. apply Hunc. eauto.
Qed.

(** X8. Once a batch has been resolved, resolving it again (or any
    batch of assets taken from it) is free: the call returns the same
    entries, sends no request and leaves the process exactly as it
    is. *)
Theorem resolved_batch_is_free batch w results w1 :
  _get_listing_dates batch w = (Ok results, w1) ->
  _get_listing_dates batch w1 = (Ok results, w1)
  /\ (forall batch', (forall a, a ∈ batch'.*1 -> a ∈ batch.*1) ->
        exists results',
          _get_listing_dates batch' w1 = (Ok results', w1)
          /\ forall a, a ∈ batch'.*1 -> results' !! a = results !! a).
Proof.
  intros Hrun.
  destruct (get_listing_dates_spec batch w)
    as (results0 & evs & cache' & sched' & Hrun0 & Hkeep & Hnew & Hout & _).
  rewrite Hrun in Hrun0. injection Hrun0 as <- ->.
  assert (forall a, a ∈ batch.*1 ->
            is_Some (cache' !! a) /\ cache' !! a = results !! a) as Hin.
  { intros a Ha. destruct (_listing_date_cache w !! a) as [dt|] eqn:Hc.
    - destruct (Hkeep a dt Hc) as [-> Hr]. rewrite (Hr Ha). eauto.
    - destruct (Hnew a Ha Hc) as (fb & w1 & _ & -> & ->). eauto. }
  set (w1 := World _ _ _ _).
  assert (forall batch', (forall a, a ∈ batch'.*1 -> a ∈ batch.*1) ->
            uncached (_listing_date_cache w1) batch' = []) as Hfree.
  { intros batch' Hsub.
    destruct (uncached _ batch') as [|a l] eqn:E; [done|]. exfalso.
    assert (a ∈ uncached (_listing_date_cache w1) batch') as Ha
      by (rewrite E; by left).
    apply elem_of_uncached in Ha as [Ha Hc].
    destruct (Hin a (Hsub a Ha)) as [[dt Hdt] _].
    subst w1. cbn in Hc. congruence. }
  split.
  - destruct (get_listing_dates_cached batch w1 (Hfree batch (fun _ Ha => Ha)))
      as (results' & Hrun' & Hlook).
    rewrite Hrun'. do 2 f_equal. apply map_eq. intros a. rewrite Hlook.
    destruct (decide (a ∈ batch.*1)) as [Ha|Ha].
    + by destruct (Hin a Ha) as [_ <-].
    + by destruct (Hout a Ha) as [-> _].
  - intros batch' Hsub.
    destruct (get_listing_dates_cached batch' w1 (Hfree batch' Hsub))
      as (results' & Hrun' & Hlook).
    exists results'. split; [done|]. intros a Ha. rewrite Hlook.
    rewrite decide_True by done. by destruct (Hin a (Hsub a Ha)) as [_ <-].
Qed.

Lemma get_listing_dates_requests batch w :
  let misses := uncached (_listing_date_cache w) batch in
  exists evs,
    log (_get_listing_dates batch w).2 = log w ++ evs
    /\ (length misses <= requests_in evs <= 5 * length misses)%nat
    /\ sched (_get_listing_dates batch w).2 = drop (length misses) (sched w).
Proof.
  intros misses. subst misses.
  unfold _get_listing_dates, split_cached. rewrite split_cached_fold.
  cbn [app]. unfold uncached. rewrite length_fmap.
  destruct (filter _ batch) as [|task tasks] eqn:Hfilter.
  - exists []. cbn. rewrite app_nil_r. unfold requests_in. cbn.
    split; [done|]. split; [lia|]. done.
  - rewrite <- Hfilter in *. set (to_fetch := filter _ batch) in *.
    unfold ThreadPoolExecutor.
    unfold mbind at 1, IO_bind at 1, mret at 1, IO_ret at 1.
    unfold mbind at 1, IO_bind at 1, as_completed.
    set (completed := completion_order _ _ _).
    assert (length completed = length to_fetch) as Hlen
      by (apply Permutation_length; by apply completion_order_perm).
    set (w1 := World _ _ _ _). set (cached := foldl _ _ _).
    destruct (collect_requests completed cached w1) as (evs' & Hlog & Hc).
    destruct (collect_spec completed cached w1)
      as (r & evs2 & c2 & Hrun2 & _).
    exists evs'.
    match goal with |- context [sched (?X).2] =>
      change X with (collect completed cached w1) end.
    split; [by rewrite Hlog|]. split; [by rewrite <- Hlen|].
    rewrite Hrun2. cbn [snd sched]. subst w1. cbn [sched].
    by rewrite <- Hlen.
Qed.

(** X9. What a batch costs: every entry of the batch that the cache
    does not hold (counted as often as the batch lists it) is one task,
    and a task is one [_post], so the call sends at least one and at
    most five requests per such entry. The call leaves the clock alone,
    takes one scheduler choice per task, and writes the cache at these
    assets only: afterwards the cache holds exactly the assets it held
    before and those of the batch. *)
Theorem listing_dates_cost batch w :
  let misses := uncached (_listing_date_cache w) batch in
  exists results w' evs,
    _get_listing_dates batch w = (Ok results, w')
    /\ log w' = log w ++ evs
    /\ (length misses <= requests_in evs <= 5 * length misses)%nat
    /\ now w' = now w
    /\ sched w' = drop (length misses) (sched w)
    /\ (forall a, a ∉ misses ->
          _listing_date_cache w' !! a = _listing_date_cache w !! a)
    /\ (forall a, is_Some (_listing_date_cache w' !! a) <->
          is_Some (_listing_date_cache w !! a) \/ a ∈ batch.*1).
Proof.
  intros misses.
  destruct (get_listing_dates_spec batch w)
    as (results & evs & cache' & sched' & Hrun & Hkeep & Hnew & Hout & _).
  destruct (get_listing_dates_requests batch w) as (evs' & Hlog & Hcount & Hs).
  fold misses in Hcount, Hs.
  rewrite Hrun in Hlog, Hs. cbn [snd log sched] in Hlog, Hs.
  apply app_inv_head in Hlog as ->.
  eexists results, _, evs'. split; [exact Hrun|]. cbn [log now sched _listing_date_cache].
  split; [done|]. split; [done|]. split; [done|]. split; [done|].
  assert (forall a, a ∉ misses -> cache' !! a = _listing_date_cache w !! a)
    as Hframe.
  { intros a Ha. destruct (_listing_date_cache w !! a) as [dt|] eqn:Hc.
    - by destruct (Hkeep a dt Hc) as [-> _].
    - destruct (decide (a ∈ batch.*1)) as [Hin|Hnot].
      + exfalso. apply Ha. by apply elem_of_uncached.
      + destruct (Hout a Hnot) as [_ ->]. done. }
  split; [done|].
  intros a. destruct (decide (a ∈ misses)) as [Hm|Hm].
  - apply elem_of_uncached in Hm as [Hin Hc].
    destruct (Hnew a Hin Hc) as (fb & w1 & _ & _ & ->). split; eauto.
  - rewrite (Hframe a Hm). split; [by left|].
    intros [?|Hin]; [done|].
    destruct (_listing_date_cache w !! a) eqn:Hc; [eauto|].
    exfalso. apply Hm. by apply elem_of_uncached.
Qed.

End ListingCost.

Lemma resolved_batch_is_free_witness :
  exists results w1,
    @_get_listing_dates sample_builtins demo_api
      [("one:AAA", VNone); ("two:CCC", VNone)] (fresh_world [] 0)
    = (Ok results, w1)
    /\ requests_in (log w1) = 2%nat
    /\ @_get_listing_dates sample_builtins demo_api
         [("one:AAA", VNone); ("two:CCC", VNone)] w1
       = (Ok results, w1).
Proof.
  eexists _, _. split; [by vm_compute|]. split; [by vm_compute|].
  apply (@resolved_batch_is_free sample_builtins demo_api
           [("one:AAA", VNone); ("two:CCC", VNone)] (fresh_world [] 0)).
  by vm_compute.
Defined.

(** ** The worlds of an aggregation *)

Section Worlds.
Context `{Builtins, Remote}.

Lemma later_refl w : later w w.
Proof. exists []. by rewrite app_nil_r. Qed.

Lemma later_trans w1 w2 w3 : later w1 w2 -> later w2 w3 -> later w1 w3.
Proof.
  intros [evs Hevs] [evs' Hevs']. exists (evs ++ evs').
  by rewrite Hevs', Hevs, app_assoc.
Qed.

Lemma later_extend evs w : later w (extend evs w).
Proof. by exists evs. Qed.

Lemma get_dexes_world w r w' :
  get_dexes w = (r, w') ->
  exists evs, w' = extend evs w
    /\ forall p, Request p ∈ evs -> p = perp_dexs_payload.
Proof.
  unfold get_dexes, post, _post. unfold mbind at 1, IO_bind at 1.
  destruct (post_loop _ _ _ w) as [res w1] eqn:Hpost.
  apply post_loop_log in Hpost as (evs & -> & Hevs).
  intros Hrun. exists evs. split; [|done].
  destruct res as [data|e]; [|by injection Hrun].
  unfold mbind, IO_bind, lift in Hrun.
  destruct (Py.iter data); by injection Hrun.
Qed.

Lemma get_dex_markets_world dex_name w r w' :
  get_dex_markets dex_name w = (r, w') ->
  exists evs, w' = extend evs w
    /\ forall p, Request p ∈ evs -> p = markets_payload dex_name.
Proof.
  unfold get_dex_markets, post, _post. unfold mbind at 1, IO_bind at 1.
  destruct (post_loop _ _ _ w) as [res w1] eqn:Hpost.
  apply post_loop_log in Hpost as (evs & -> & Hevs).
  intros Hrun. exists evs. split; [|done].
  destruct res as [data|e]; by injection Hrun.
Qed.

(** One iteration of the fan-out, whatever its outcome: it adds the
    requests of one market fetch to the log and touches nothing else. *)
Lemma process_dex_world lookup info acc dex w r w' :
  process_dex lookup info acc dex w = (r, w') ->
  exists evs, w' = extend evs w
    /\ forall p, Request p ∈ evs -> exists dex_name, p = markets_payload dex_name.
Proof.
  unfold process_dex. unfold mbind at 1, IO_bind at 1, lift at 1.
  destruct (Py.get dex "name" (VStr "")) as [dex_name|e].
  2: { intros [= <- <-]. exists []. by rewrite extend_nil; split;
         [|intros p Hp; by apply elem_of_nil in Hp]. }
  unfold mbind at 1, IO_bind at 1, lift at 1.
  destruct (dict_key dex_name) as [key|e].
  2: { intros [= <- <-]. exists []. by rewrite extend_nil; split;
         [|intros p Hp; by apply elem_of_nil in Hp]. }
  unfold mbind at 1, IO_bind at 1, try_except.
  unfold mbind at 1, IO_bind at 1.
  destruct (get_dex_markets dex_name w) as [res w1] eqn:Hfetch.
  apply get_dex_markets_world in Hfetch as (evs & -> & Hevs).
  intros Hrun. exists evs. split; [|by eauto].
  destruct res as [markets|e]; cbn in Hrun.
  - unfold mbind, IO_bind, lift in Hrun.
    destruct (build_raw_rows _ _ _ _); by injection Hrun.
  - by injection Hrun.
Qed.

Lemma process_dexes_world lookup info completed : forall acc w r w',
  process_dexes lookup info acc completed w = (r, w') ->
  exists evs, w' = extend evs w
    /\ forall p, Request p ∈ evs -> exists dex_name, p = markets_payload dex_name.
Proof.
  induction completed as [|dex rest IH]; intros acc w r w'; cbn [process_dexes].
  - intros [= <- <-]. exists []. rewrite extend_nil. split; [done|].
    intros p Hp. by apply elem_of_nil in Hp.
  - unfold mbind at 1, IO_bind at 1.
    destruct (process_dex lookup info acc dex w) as [r1 w1] eqn:Hd.
    apply process_dex_world in Hd as (evs1 & -> & Hevs1).
    destruct r1 as [acc1|e].
    + intros (evs2 & -> & Hevs2)%IH. exists (evs1 ++ evs2).
      rewrite extend_extend. split; [done|].
      intros p [Hp|Hp]%elem_of_app; eauto.
    + intros [= <- <-]. eauto.
Qed.

(** A completed fetch, followed through the loop body. *)
Lemma process_dex_trace lookup info acc dex w acc' w' :
  process_dex lookup info acc dex w = (Ok acc', w') ->
  exists new,
    acc' = acc ++ new
    /\ Forall (fun raw => exists m,
                 row_fetched (lookup, info) w w' dex m raw) new.
Proof.
  unfold process_dex. intros Hrun. inv_io.
  match type of Hrun with context [match ?o with _ => _ end] =>
    destruct o as [markets|] eqn:Ho end; inv_io.
  - subst. eexists; split; [done|].
    match goal with Hb : build_raw_rows _ _ _ _ = Ok _ |- _ =>
      apply build_raw_rows_all in Hb; rename Hb into Hall end.
    match goal with Hk : dict_key ?v = Ok ?k |- _ =>
      destruct v; try done; injection Hk as -> end.
    match goal with Ht : try_except _ _ ?w0 = (Ok (Some _), _) |- _ =>
      cbv [try_except mbind IO_bind mret IO_ret] in Ht;
      destruct (get_dex_markets _ w0) as [[ms|e] w1] eqn:Hfetch;
      [injection Ht as <- <- | discriminate] end.
    eapply Forall_impl; [exact Hall|].
    intros raw (m & Hm & Hraw). exists m.
    eexists _, w, ms, w1. repeat split; try done; apply later_refl.
  - exists []. by rewrite app_nil_r.
Qed.

Lemma row_fetched_later tables w1 w2 w3 w4 dex m raw :
  later w1 w2 -> later w3 w4 ->
  row_fetched tables w2 w3 dex m raw -> row_fetched tables w1 w4 dex m raw.
Proof.
  intros H12 H34 (name & w0 & markets & w0' & ? & ? & ? & ? & ? & ?).
  exists name, w0, markets, w0'. repeat split; try done;
    eapply later_trans; done.
Qed.

Lemma process_dexes_trace lookup info completed : forall acc w acc' w',
  process_dexes lookup info acc completed w = (Ok acc', w') ->
  exists new,
    acc' = acc ++ new
    /\ Forall (fun raw => exists dex m,
                 dex ∈ completed
                 /\ row_fetched (lookup, info) w w' dex m raw) new.
Proof.
  induction completed as [|dex rest IH]; intros acc w acc' w'; cbn [process_dexes].
  - intros [= <- <-]. exists []. by rewrite app_nil_r.
  - intros Hrun. inv_io.
    match goal with
      Hd : process_dex _ _ _ _ _ = (Ok ?a1, ?w1) |- _ =>
        pose proof (process_dex_world _ _ _ _ _ _ _ Hd) as (evs1 & Hw1 & _);
        apply process_dex_trace in Hd as (new1 & -> & Hnew1)
    end.
    pose proof (process_dexes_world _ _ _ _ _ _ _ Hrun) as (evs2 & Hw2 & _).
    apply IH in Hrun as (new2 & -> & Hnew2).
    exists (new1 ++ new2). rewrite app_assoc. split; [done|].
    apply Forall_app. split.
    + eapply Forall_impl; [exact Hnew1|]. intros raw (m & Hm).
      exists dex, m. split; [by left|].
      eapply row_fetched_later; [apply later_refl| |exact Hm].
      rewrite Hw2. apply later_extend.
    + eapply Forall_impl; [exact Hnew2|]. intros raw (d & m & Hd & Hm).
      exists d, m. split; [by right|].
      eapply row_fetched_later; [|apply later_refl|exact Hm].
      rewrite Hw1. apply later_extend.
Qed.

End Worlds.

(** ** The aggregation, step by step *)

Section Trace.
Context `{Builtins, Remote}.

Lemma as_completed_inv {A} (futures : list A) w completed w' :
  as_completed futures w = (Ok completed, w') ->
  completed ≡ₚ futures
  /\ w' = World (log w) (_listing_date_cache w)
              (drop (length futures) (sched w)) (now w).
Proof.
  unfold as_completed. intros [= <- <-]. split; [|done].
  by apply completion_order_perm.
Qed.

(** A successful aggregation, with the states it goes through: [w1]
    after discovery, [w2] after the fan-out, [w'] at the end. Discovery
    and the fan-out leave the cache alone. *)
Lemma get_all_markets_trace w rows w' :
  get_all_markets w = (Ok rows, w') ->
  exists dexes w1 tables raw_rows w2 dates,
    get_dexes w = (Ok dexes, w1)
    /\ scan_dexes (∅, ∅) dexes = Ok tables
    /\ dexes <> []
    /\ later w w1 /\ later w1 w2 /\ later w2 w'
    /\ _listing_date_cache w2 = _listing_date_cache w
    /\ now w' = now w
    /\ Forall (fun raw => exists dex m,
                 dex ∈ dexes /\ row_fetched tables w1 w2 dex m raw) raw_rows
    /\ (raw_rows = [] -> w' = w2)
    /\ (raw_rows <> [] ->
        _get_listing_dates
          (map (fun r => (RawRow.asset r, RawRow._fallback_iso r)) raw_rows)
          w2 = (Ok dates, w'))
    /\ rows = sort_values (map (finish_row dates (now w')) raw_rows)
    /\ fetch_rows tables dexes w1 = (Ok raw_rows, w2).
Proof.
  unfold get_all_markets. intros Hrun. inv_io.
  match goal with Hd : get_dexes w = (Ok ?d, ?w1) |- _ =>
    exists d, w1; rename d into dexes; rename w1 into wd;
    pose proof (get_dexes_world _ _ _ Hd) as (evs1 & Hw1 & _) end.
  match goal with Hs : scan_dexes _ _ = Ok ?t |- _ =>
    exists t; rename t into tables end.
  assert (dexes <> []) as Hne.
  { intros ->. simpl in *. discriminate. }
  match goal with Ht : ThreadPoolExecutor _ _ = _ |- _ =>
    destruct dexes as [|dex dexes]; [done|]; injection Ht as _ <- end.
  match goal with
    Ha : as_completed _ _ = (Ok ?c, ?wa),
    Hp : process_dexes _ _ [] _ _ = (Ok ?r, ?w2) |- _ =>
      exists r, w2; rename r into raw_rows; rename c into completed;
      rename w2 into wf; rename wa into wa';
      pose proof (process_dexes_world _ _ _ _ _ _ _ Hp) as (evs2 & Hw2 & _);
      pose proof (process_dexes_trace _ _ _ _ _ _ _ Hp)
        as (new & Hnew & Hrows);
      assert (fetch_rows tables (dex :: dexes) wd = (Ok raw_rows, wf))
        as Hfetch
        by (unfold fetch_rows; rewrite (IO_bind_run _ _ _ _ _ Ha); exact Hp);
      apply as_completed_inv in Ha as [Hperm Hwa]
  end.
  cbn [app] in Hnew. subst new.
  assert (later w wd) as L1 by (rewrite Hw1; apply later_extend).
  assert (later wd wf) as L2 by (rewrite Hw2, Hwa; by exists evs2).
  assert (_listing_date_cache wf = _listing_date_cache w) as Hcache
    by (rewrite Hw2, Hwa; by rewrite Hw1).
  assert (now wf = now w) as Hnow by (rewrite Hw2, Hwa; by rewrite Hw1).
  assert (Forall (fun raw => exists dex0 m,
                    dex0 ∈ dex :: dexes
                    /\ row_fetched tables wd wf dex0 m raw) raw_rows) as Hall.
  { eapply Forall_impl; [exact Hrows|]. intros raw (d & m & Hd & Hm).
    exists d, m. split; [by rewrite <- Hperm|].
    apply (row_fetched_later tables wd wa' wf wf d m raw);
      [|apply later_refl|destruct tables; exact Hm].
    rewrite Hwa. exists []. cbn. by rewrite app_nil_r. }
  destruct raw_rows as [|raw raw_rows].
  - exists ∅. injection Hrun as <- <-.
    repeat split; try done. apply later_refl.
  - inv_io. unfold clock in *.
    match goal with Hc : (_, _) = (Ok _, _) |- _ => injection Hc as <- <- end.
    match goal with
      Hl : _get_listing_dates ?b ?w2 = (Ok ?d, ?w3) |- _ =>
        exists d;
        destruct (get_listing_dates_spec b w2)
          as (r0 & evs3 & c3 & s3 & Hrun3 & _);
        rewrite Hl in Hrun3; injection Hrun3 as _ Hw3
    end.
    repeat split; try done.
    + rewrite Hw3. by exists evs3.
    + by rewrite Hw3.
Qed.

End Trace.

(** ** The tables of the first loop *)

Section Tables.
Context `{Builtins}.

Lemma scan_dex_inv acc dex acc' :
  scan_dex acc dex = Ok acc' ->
  exists name full_name deployer caps pairs,
    Py.get dex "name" (VStr "") = Ok (VStr name)
    /\ Py.get dex "fullName" (VStr name) = Ok full_name
    /\ Py.get dex "deployer" (VStr "") = Ok deployer
    /\ Py.get dex "assetToStreamingOiCap" (VList []) = Ok caps
    /\ Py.iter (Py.or caps (VList [])) = Ok pairs
    /\ add_caps acc.1 pairs = Ok acc'.1
    /\ acc'.2 = <[name := (full_name, deployer)]> acc.2.
Proof.
  unfold scan_dex. intros Hs. inv_io.
  match goal with Hk : dict_key ?v = Ok ?k |- _ =>
    destruct v; try done; injection Hk as -> end.
  subst acc'. cbn [fst snd]. eexists _, _, _, _, _. repeat split; eauto.
Qed.

(** The entry of [dex_info] under a name is that of the last
    sub-exchange of the list with that name. *)
Lemma scan_dexes_info dexes : forall acc acc' name,
  scan_dexes acc dexes = Ok acc' ->
  (acc'.2 !! name = acc.2 !! name /\ unnamed name dexes)
  \/ exists before dex after,
       dexes = before ++ dex :: after
       /\ unnamed name after
       /\ Py.get dex "name" (VStr "") = Ok (VStr name)
       /\ exists full_name deployer,
            Py.get dex "fullName" (VStr name) = Ok full_name
            /\ Py.get dex "deployer" (VStr "") = Ok deployer
            /\ acc'.2 !! name = Some (full_name, deployer).
Proof.
  induction dexes as [|dex rest IH]; intros acc acc' name; cbn [scan_dexes].
  - intros [= <-]. left. split; [done|]. intros d Hd. by apply elem_of_nil in Hd.
  - intros Hs. inv_io.
    match goal with Hd : scan_dex acc dex = Ok ?a1 |- _ =>
      rename a1 into acc1;
      apply scan_dex_inv in Hd
        as (n & full & dep & caps & pairs & Hn & Hfull & Hdep & _ & _ & _ & H2)
    end.
    destruct (IH _ _ name Hs)
      as [[Hsame Hun]|(before & d & after & -> & Hun & Hd & Hrest)].
    + destruct (decide (n = name)) as [->|Hne].
      * right. exists [], dex, rest. split; [done|]. split; [done|].
        split; [done|]. exists full, dep. split; [done|]. split; [done|].
        rewrite Hsame, H2. by rewrite lookup_insert_eq.
      * left. split.
        -- rewrite Hsame, H2. by rewrite lookup_insert_ne.
        -- intros d [->|Hd]%elem_of_cons; [|by apply Hun].
           rewrite Hn. by intros [= ->].
    + right. exists (dex :: before), d, after. done.
Qed.

Lemma add_cap_inv lookup pr lookup' :
  add_cap lookup pr = Ok lookup' ->
  lookup' = lookup
  \/ exists asset v cap,
       Py.index pr 0 = Ok (VStr asset) /\ Py.index pr 1 = Ok v
       /\ py_float v = Ok cap /\ lookup' = <[asset := cap]> lookup.
Proof.
  unfold add_cap. destruct (Py.is_none pr); [intros [= <-]; by left|].
  destruct (Py.len pr) as [n|e]; [|done]. cbn [mbind result_bind].
  destruct (n <? 2); [intros [= <-]; by left|].
  destruct (Py.index pr 1) as [v|e] eqn:H1; cbn [mbind result_bind].
  2: { destruct (is_value_or_type_error e); [intros [= <-]; by left|done]. }
  destruct (py_float v) as [cap|e] eqn:Hf; cbn [mbind result_bind].
  2: { destruct (is_value_or_type_error e); [intros [= <-]; by left|done]. }
  destruct (Py.index pr 0) as [key|e] eqn:H0; cbn [mbind result_bind].
  2: { destruct (is_value_or_type_error e); [intros [= <-]; by left|done]. }
  destruct key as [|b|k|x|s|xs|kvs]; cbn [store_cap];
    try (intros [= <-]; by left);
    try (cbn; intros [= <-]; by left).
  intros [= <-]. right. by exists s, v, cap.
Qed.

Lemma add_caps_inv pairs : forall lookup lookup' asset cap,
  add_caps lookup pairs = Ok lookup' ->
  lookup' !! asset = Some cap ->
  lookup !! asset = Some cap
  \/ exists pr v,
       pr ∈ pairs /\ Py.index pr 0 = Ok (VStr asset)
       /\ Py.index pr 1 = Ok v /\ py_float v = Ok cap.
Proof.
  induction pairs as [|pr rest IH]; intros lookup lookup' asset cap;
    cbn [add_caps].
  - intros [= <-]. by left.
  - intros Ha Hl. inv_io.
    destruct (IH _ _ _ _ Ha Hl) as [Hmid|(pr' & v & Hin & ?)].
    + match goal with Hc : add_cap lookup pr = Ok _ |- _ =>
        apply add_cap_inv in Hc
          as [->|(a & v & c & H0 & H1 & Hf & ->)] end; [by left|].
      destruct (decide (a = asset)) as [->|Hne].
      * rewrite lookup_insert_eq in Hmid. injection Hmid as ->.
        right. exists pr, v. split; [by left|done].
      * rewrite lookup_insert_ne in Hmid by done. by left.
    + right. exists pr', v. split; [by right|done].
Qed.

(** Every cap of the lookup was read off a pair of some sub-exchange. *)
Lemma scan_dexes_caps dexes : forall acc acc' asset cap,
  scan_dexes acc dexes = Ok acc' ->
  acc'.1 !! asset = Some cap ->
  acc.1 !! asset = Some cap
  \/ exists dex caps pairs pr v,
       dex ∈ dexes
       /\ Py.get dex "assetToStreamingOiCap" (VList []) = Ok caps
       /\ Py.iter (Py.or caps (VList [])) = Ok pairs
       /\ pr ∈ pairs /\ Py.index pr 0 = Ok (VStr asset)
       /\ Py.index pr 1 = Ok v /\ py_float v = Ok cap.
Proof.
  induction dexes as [|dex rest IH]; intros acc acc' asset cap;
    cbn [scan_dexes].
  - intros [= <-]. by left.
  - intros Hs Hl. inv_io.
    destruct (IH _ _ _ _ Hs Hl)
      as [Hmid|(d & caps & pairs & pr & v & Hd & ?)].
    + match goal with Hd : scan_dex acc dex = Ok _ |- _ =>
        apply scan_dex_inv in Hd
          as (n & full & dep & caps & pairs & _ & _ & _ & Hcaps & Hit & Hadd & _)
      end.
      destruct (add_caps_inv _ _ _ _ _ Hadd Hmid) as [?|(pr & v & Hin & ?)];
        [by left|].
      right. exists dex, caps, pairs, pr, v. split; [by left|done].
    + right. exists d, caps, pairs, pr, v. split; [by right|done].
Qed.

End Tables.

(** ** Every row of the table, traced back *)

Section Rows.
Context `{Builtins, Remote}.

Lemma snapshot_inv meta ctx m :
  snapshot meta ctx = Ok (Some m) ->
  delisted meta = false
  /\ Py.get meta "name" (VStr "") = Ok (Market.asset m)
  /\ Py.get meta "maxLeverage" VNone = Ok (Market.max_leverage m)
  /\ Py.get meta "growthMode" VNone = Ok (Market.growth_mode m)
  /\ Py.get meta "lastGrowthModeChangeTime" VNone
     = Ok (Market.last_growth_mode_change_time m)
  /\ Py.get (context_of ctx) "funding" VNone = Ok (Market.funding m)
  /\ Py.get (context_of ctx) "openInterest" VNone = Ok (Market.open_interest m)
  /\ Py.get (context_of ctx) "prevDayPx" VNone = Ok (Market.prev_day_px m)
  /\ Py.get (context_of ctx) "dayNtlVlm" VNone = Ok (Market.day_ntl_vlm m)
  /\ Py.get (context_of ctx) "markPx" VNone = Ok (Market.mark_px m)
  /\ Py.get (context_of ctx) "oraclePx" VNone = Ok (Market.oracle_px m).
Proof.
  intros Hs. split; [by apply (snapshot_delisted _ _ _ Hs)|].
  unfold snapshot in Hs. fold (context_of ctx) in Hs. inv_io.
  destruct (Py.truthy _); [done|]. inv_io. subst m. cbn. repeat split; done.
Qed.

Lemma fetched_market_inv dex_name w ms w' m :
  get_dex_markets dex_name w = (Ok ms, w') -> m ∈ ms ->
  exists data us cs i meta ctx,
    post (markets_payload dex_name) w = (Ok data, w')
    /\ zipped_sequences data = Ok (us, cs)
    /\ us !! i = Some meta /\ cs !! i = Some ctx
    /\ snapshot meta ctx = Ok (Some m).
Proof.
  intros Hrun Hm.
  destruct (get_dex_markets_inv _ _ _ _ Hrun)
    as (data & us & cs & Hpost & Hseq & Hzip).
  destruct (zip_markets_spec _ _ _ Hzip) as [-> _].
  apply list_elem_of_omap in Hm as [[meta ctx] [Hin Hk]].
  apply list_elem_of_lookup in Hin as [i Hi].
  apply lookup_zip_with_Some in Hi as (meta' & ctx' & [= <- <-] & Hu & Hc).
  unfold kept in Hk; cbn [fst snd] in Hk.
  destruct (snapshot meta ctx) as [[m'|]|] eqn:Hs; try done.
  injection Hk as ->. by exists data, us, cs, i, meta, ctx.
Qed.

Lemma build_raw_row_fields lookup name info m raw :
  build_raw_row lookup name info m = Ok raw ->
  RawRow.dex raw = name
  /\ Market.asset m = VStr (RawRow.asset raw)
  /\ RawRow.dex_full_name raw
     = match info with Some i => i.1 | None => VStr name end
  /\ RawRow.deployer raw
     = match info with Some i => i.2 | None => VStr "" end
  /\ RawRow.oi_cap raw = lookup !! RawRow.asset raw
  /\ _to_float (Market.mark_px m) = Ok (RawRow.mark_px raw)
  /\ _to_float (Market.oracle_px m) = Ok (RawRow.oracle_px raw)
  /\ _to_float (Market.day_ntl_vlm m) = Ok (RawRow.day_ntl_vlm raw)
  /\ _to_float (Market.funding m) = Ok (RawRow.funding raw)
  /\ RawRow.max_leverage raw = Market.max_leverage m
  /\ RawRow.growth_mode raw = Market.growth_mode m
  /\ RawRow._fallback_iso raw = Market.last_growth_mode_change_time m.
Proof.
  unfold build_raw_row. intros Hb. inv_io. subst raw. cbn.
  match goal with Ha : asset_str ?v = Ok _ |- _ =>
    destruct v; try done; cbn in Ha;
      try (match type of Ha with (if ?c then _ else _) = _ =>
             destruct c; done end);
      injection Ha as -> end.
  repeat split; done.
Qed.

(** A row of the table, with the raw row it was finished from. *)
Lemma table_row_inv w rows w' row :
  get_all_markets w = (Ok rows, w') -> row ∈ rows ->
  exists dexes w1 tables raw_rows w2 dates raw dex m,
    get_dexes w = (Ok dexes, w1)
    /\ scan_dexes (∅, ∅) dexes = Ok tables
    /\ later w w1 /\ later w2 w'
    /\ _listing_date_cache w2 = _listing_date_cache w
    /\ now w' = now w
    /\ _get_listing_dates
         (map (fun r => (RawRow.asset r, RawRow._fallback_iso r)) raw_rows)
         w2 = (Ok dates, w')
    /\ raw ∈ raw_rows
    /\ dex ∈ dexes
    /\ row_fetched tables w1 w2 dex m raw
    /\ row = finish_row dates (now w') raw.
Proof.
  intros Hrun Hrow.
  destruct (get_all_markets_trace _ _ _ Hrun)
    as (dexes & w1 & tables & raw_rows & w2 & dates & Hd & Hs & _ & L1 & _
        & L3 & Hcache & Hnow & Hall & _ & Hdates & -> & _).
  rewrite sort_values_perm in Hrow.
  apply list_elem_of_fmap in Hrow as (raw & -> & Hin).
  rewrite Forall_forall in Hall.
  destruct (Hall raw Hin) as (dex & m & Hdex & Hm).
  exists dexes, w1, tables, raw_rows, w2, dates, raw, dex, m.
  repeat split; try done. apply Hdates. intros ->. by apply elem_of_nil in Hin.
Qed.

(** X10. Every row of the table is the snapshot of one position of
    one market response: the response the API gave, during this very
    aggregation, to the request for the row's own sub-exchange, which
    discovery had listed. At that position the metadata entry is not
    flagged delisted and carries the row's asset name; leverage and
    growth mode are copied from it, and the four numeric columns are
    the parse-or-absent reading of the context entry at the same
    position (an empty object when the context is null). *)
Theorem row_provenance w rows w' row :
  get_all_markets w = (Ok rows, w') -> row ∈ rows ->
  exists dexes w1 dex w0 w0' data us cs i meta ctx,
    get_dexes w = (Ok dexes, w1)
    /\ dex ∈ dexes
    /\ Py.get dex "name" (VStr "") = Ok (VStr (Row.dex row))
    /\ later w1 w0 /\ later w0' w'
    /\ post (markets_payload (VStr (Row.dex row))) w0 = (Ok data, w0')
    /\ zipped_sequences data = Ok (us, cs)
    /\ us !! i = Some meta /\ cs !! i = Some ctx
    /\ delisted meta = false
    /\ Py.get meta "name" (VStr "") = Ok (VStr (Row.asset row))
    /\ Py.get meta "maxLeverage" VNone = Ok (Row.max_leverage row)
    /\ Py.get meta "growthMode" VNone = Ok (Row.growth_mode row)
    /\ Py.get (context_of ctx) "markPx" VNone ≫= _to_float
       = Ok (Row.mark_px row)
    /\ Py.get (context_of ctx) "oraclePx" VNone ≫= _to_float
       = Ok (Row.oracle_px row)
    /\ Py.get (context_of ctx) "dayNtlVlm" VNone ≫= _to_float
       = Ok (Row.day_ntl_vlm row)
    /\ Py.get (context_of ctx) "funding" VNone ≫= _to_float
       = Ok (Row.funding row).
Proof.
  intros Hrun Hrow.
  destruct (table_row_inv _ _ _ _ Hrun Hrow)
    as (dexes & w1 & tables & raw_rows & w2 & dates & raw & dex & m
        & Hd & _ & _ & L3 & _ & _ & _ & _ & Hdex & Hm & ->).
  destruct Hm as (name & w0 & markets & w0' & Hname & L0 & L0' & Hfetch
                  & Hin & Hraw).
  destruct (fetched_market_inv _ _ _ _ _ Hfetch Hin)
    as (data & us & cs & i & meta & ctx & Hpost & Hseq & Hu & Hc & Hs).
  apply snapshot_inv in Hs
    as (Hlisted & Hn & Hlev & Hgm & _ & Hfd & _ & _ & Hvlm & Hmk & Horc).
  apply build_raw_row_fields in Hraw
    as (Hrd & Hra & _ & _ & _ & Hmark & Horacle & Hv & Hfund & Hl & Hg & _).
  exists dexes, w1, dex, w0, w0', data, us, cs, i, meta, ctx.
  unfold finish_row; cbn. rewrite Hrd.
  split; [done|]. split; [done|]. split; [done|]. split; [done|].
  split; [by eapply later_trans|]. split; [done|]. split; [done|].
  split; [done|]. split; [done|]. split; [done|].
  split; [by rewrite Hn, Hra|]. split; [by rewrite Hlev, Hl|].
  split; [by rewrite Hgm, Hg|].
  rewrite Hmk, Horc, Hvlm, Hfd. cbn. done.
Qed.

(** X11. The display name and the deployer of a row are those of the
    sub-exchange that discovery lists last under the row's name: the
    ["fullName"] (the name itself when there is none) and the
    ["deployer"] (the empty string when there is none). The defaults
    of the lookup in [dex_info] are never used. *)
Theorem row_carries_sub_exchange w rows w' row :
  get_all_markets w = (Ok rows, w') -> row ∈ rows ->
  exists dexes w1 before dex after,
    get_dexes w = (Ok dexes, w1)
    /\ dexes = before ++ dex :: after
    /\ unnamed (Row.dex row) after
    /\ Py.get dex "name" (VStr "") = Ok (VStr (Row.dex row))
    /\ Py.get dex "fullName" (VStr (Row.dex row))
       = Ok (Row.dex_full_name row)
    /\ Py.get dex "deployer" (VStr "") = Ok (Row.deployer row).
Proof.
  intros Hrun Hrow.
  destruct (table_row_inv _ _ _ _ Hrun Hrow)
    as (dexes & w1 & tables & raw_rows & w2 & dates & raw & dex0 & m
        & Hd & Hscan & _ & _ & _ & _ & _ & _ & Hdex & Hm & ->).
  destruct Hm as (name & w0 & markets & w0' & Hname & _ & _ & _ & _ & Hraw).
  apply build_raw_row_fields in Hraw as (Hrd & _ & Hfull & Hdep & _).
  unfold finish_row; cbn. rewrite Hrd, Hfull, Hdep.
  destruct (scan_dexes_info _ _ _ name Hscan)
    as [[_ Hun]|(before & dex & after & -> & Hun & Hn & full & dep
                 & Hf & Hdp & Hinfo)].
  - by destruct (Hun dex0 Hdex).
  - exists (before ++ dex :: after), w1, before, dex, after.
    rewrite Hinfo. done.
Qed.

(** X12. A cap shown on a row was read off a pair of the discovery
    response: some sub-exchange lists, under ["assetToStreamingOiCap"],
    a pair whose first element is the row's asset and whose second
    element [float] turns into that cap. *)
Theorem row_cap_was_listed w rows w' row cap :
  get_all_markets w = (Ok rows, w') -> row ∈ rows ->
  Row.oi_cap row = Some cap ->
  exists dexes w1 dex caps pairs pr v,
    get_dexes w = (Ok dexes, w1)
    /\ dex ∈ dexes
    /\ Py.get dex "assetToStreamingOiCap" (VList []) = Ok caps
    /\ Py.iter (Py.or caps (VList [])) = Ok pairs
    /\ pr ∈ pairs
    /\ Py.index pr 0 = Ok (VStr (Row.asset row))
    /\ Py.index pr 1 = Ok v
    /\ py_float v = Ok cap.
Proof.
  intros Hrun Hrow Hcap.
  destruct (table_row_inv _ _ _ _ Hrun Hrow)
    as (dexes & w1 & tables & raw_rows & w2 & dates & raw & dex0 & m
        & Hd & Hscan & _ & _ & _ & _ & _ & _ & Hdex & Hm & ->).
  destruct Hm as (name & w0 & markets & w0' & Hname & _ & _ & _ & _ & Hraw).
  apply build_raw_row_fields in Hraw as (_ & _ & _ & _ & Hoc & _).
  unfold finish_row in *; cbn in *. rewrite Hoc in Hcap.
  destruct (scan_dexes_caps _ _ _ _ _ Hscan Hcap)
    as [Hnil|(dex & caps & pairs & pr & v & ? & ? & ? & ? & ? & ? & ?)];
    [done|].
  by exists dexes, w1, dex, caps, pairs, pr, v.
Qed.

End Rows.

(** ** Listing dates on the table *)

Section Dates.
Context `{Builtins, Remote}.

Lemma table_dates_cached w rows w' row :
  get_all_markets w = (Ok rows, w') -> row ∈ rows ->
  _listing_date_cache w' !! Row.asset row = Some (Row.listing_date row)
  /\ (forall dt, _listing_date_cache w !! Row.asset row = Some dt ->
        Row.listing_date row = dt)
  /\ Row.market_age_days row
     = (fun dt => days_between (now w) dt) <$> Row.listing_date row.
Proof.
  intros Hrun Hrow.
  destruct (table_row_inv _ _ _ _ Hrun Hrow)
    as (dexes & w1 & tables & raw_rows & w2 & dates & raw & dex & m
        & _ & _ & _ & _ & Hcache & Hnow & Hdates & Hin & _ & _ & ->).
  set (batch := map _ raw_rows) in Hdates.
  assert (RawRow.asset raw ∈ batch.*1) as Hbatch.
  { apply list_elem_of_fmap. exists (RawRow.asset raw, RawRow._fallback_iso raw).
    split; [done|]. apply list_elem_of_fmap. by exists raw. }
  destruct (get_listing_dates_spec batch w2)
    as (results & evs & cache' & sched' & Hrun' & Hkeep & Hnew & _).
  rewrite Hdates in Hrun'. injection Hrun' as -> ->.
  unfold finish_row; cbn [Row.asset Row.listing_date Row.market_age_days
                            _listing_date_cache now].
  assert (cache' !! RawRow.asset raw = results !! RawRow.asset raw
          /\ is_Some (results !! RawRow.asset raw)) as [Hc [dt Hdt]].
  { destruct (_listing_date_cache w2 !! RawRow.asset raw) as [dt|] eqn:Hc.
    - destruct (Hkeep _ dt Hc) as [-> Hr]. rewrite (Hr Hbatch). eauto.
    - destruct (Hnew _ Hbatch Hc) as (fb & w0 & _ & -> & ->). eauto. }
  rewrite Hc, Hdt. split; [done|]. split.
  - intros dt0 Hdt0. rewrite <- Hcache in Hdt0.
    destruct (Hkeep _ dt0 Hdt0) as [_ Hr]. rewrite (Hr Hbatch) in Hdt.
    by injection Hdt.
  - cbn in Hnow. rewrite Hnow. by destruct dt.
Qed.

(** X13. When the aggregation returns, the cache holds every asset of
    the table, with the listing date its row shows. A date the cache
    held for the asset before the aggregation is the date shown; two
    rows for the same asset (listed by two sub-exchanges) show the same
    date; and the aggregation leaves the cache as it was at every asset
    that is not on the table. *)
Theorem table_shows_cached_dates w rows w' :
  get_all_markets w = (Ok rows, w') ->
  (forall row, row ∈ rows ->
     _listing_date_cache w' !! Row.asset row = Some (Row.listing_date row))
  /\ (forall row dt, row ∈ rows ->
        _listing_date_cache w !! Row.asset row = Some dt ->
        Row.listing_date row = dt)
  /\ (forall row row', row ∈ rows -> row' ∈ rows ->
        Row.asset row = Row.asset row' ->
        Row.listing_date row = Row.listing_date row'
        /\ Row.market_age_days row = Row.market_age_days row')
  /\ (forall asset, asset ∉ map Row.asset rows ->
        _listing_date_cache w' !! asset = _listing_date_cache w !! asset).
Proof.
  intros Hrun. split; [|split; [|split]].
  - intros row Hrow. by apply (table_dates_cached _ _ _ _ Hrun Hrow).
  - intros row dt Hrow. by apply (table_dates_cached _ _ _ _ Hrun Hrow).
  - intros row row' Hrow Hrow' Heq.
    destruct (table_dates_cached _ _ _ _ Hrun Hrow) as (Hc & _ & Ha).
    destruct (table_dates_cached _ _ _ _ Hrun Hrow') as (Hc' & _ & Ha').
    rewrite Heq, Hc' in Hc. injection Hc as Hc.
    by rewrite Ha, Ha', Hc.
  - intros asset Hout.
    destruct (get_all_markets_trace _ _ _ Hrun)
      as (dexes & w1 & tables & raw_rows & w2 & dates & _ & _ & _ & _ & _
          & _ & Hcache & _ & _ & Hempty & Hdates & -> & _).
    rewrite <- Hcache.
    destruct raw_rows as [|raw raw_rows]; [by rewrite (Hempty eq_refl)|].
    specialize (Hdates ltac:(done)).
    set (batch := map _ (raw :: raw_rows)) in Hdates.
    destruct (get_listing_dates_spec batch w2)
      as (results & evs & cache' & sched' & Hrun' & _ & _ & Hframe & _).
    rewrite Hdates in Hrun'. injection Hrun' as <- ->.
    apply Hframe. intros Hin. apply Hout.
    apply list_elem_of_fmap in Hin as ([a fb] & -> & Hin).
    apply list_elem_of_fmap in Hin as (r & [= -> ->] & Hr).
    apply list_elem_of_fmap.
    eexists. split; [|rewrite sort_values_perm; apply list_elem_of_fmap;
                        exists r; split; [reflexivity|exact Hr]].
    done.
Qed.

(** X14. Listing dates are stable across refreshes: in any later
    aggregation of the same process (its cache holds what the cache of
    the first one held at its end), a row shows the listing date that
    the first table showed for the asset. *)
Theorem listing_date_stable_across_refreshes
    w rows w' v rows' v' row row' :
  get_all_markets w = (Ok rows, w') -> row ∈ rows ->
  _listing_date_cache w' ⊆ _listing_date_cache v ->
  get_all_markets v = (Ok rows', v') -> row' ∈ rows' ->
  Row.asset row' = Row.asset row ->
  Row.listing_date row' = Row.listing_date row.
Proof.
  intros Hrun Hrow Hsub Hrun' Hrow' Heq.
  destruct (table_dates_cached _ _ _ _ Hrun Hrow) as (Hc & _).
  destruct (table_dates_cached _ _ _ _ Hrun' Hrow') as (_ & Hkeep & _).
  apply Hkeep. rewrite Heq.
  by apply (lookup_weaken _ _ _ _ Hc Hsub).
Qed.

(** X15. The age of a market is the number of whole days from its
    listing date to the clock reading of the aggregation, rounded down:
    it is negative for a listing date in the future (minus one for
    anything up to a day ahead), and absent exactly when the listing
    date is. *)
Theorem market_age_rounds_down w rows w' row :
  get_all_markets w = (Ok rows, w') -> row ∈ rows ->
  match Row.listing_date row with
  | Some dt =>
      exists days,
        Row.market_age_days row = Some days
        /\ days * 86400000000 <= now w - dt < (days + 1) * 86400000000
        /\ (0 <= days <-> dt <= now w)
  | None => Row.market_age_days row = None
  end.
Proof.
  intros Hrun Hrow.
  destruct (table_dates_cached _ _ _ _ Hrun Hrow) as (_ & _ & ->).
  destruct (Row.listing_date row) as [dt|]; [|done].
  exists (days_between (now w) dt). split; [done|].
  unfold days_between.
  pose proof (Z.div_mod (now w - dt) 86400000000 ltac:(lia)) as Hdm.
  pose proof (Z.mod_pos_bound (now w - dt) 86400000000 ltac:(lia)) as Hb.
  split; [lia|]. split; intros Hd.
  - lia.
  - apply Z.div_pos; lia.
Qed.

End Dates.


(** ** Failures, and what the aggregation sends *)

Section Outcomes.
Context `{Builtins, Remote}.

Lemma process_dexes_app lookup info before : forall after acc w,
  process_dexes lookup info acc (before ++ after) w
  = (acc' ← process_dexes lookup info acc before;
     process_dexes lookup info acc' after) w.
Proof.
  induction before as [|dex before IH]; intros after acc w; [done|].
  cbn [app process_dexes]. unfold mbind, IO_bind.
  destruct (process_dex lookup info acc dex w) as [[acc1|e] w1]; [|done].
  by rewrite IH.
Qed.

(** X16. A sub-exchange whose market fetch fails is passed over: the
    rows gathered before it are kept, and the fan-out goes on with the
    sub-exchanges after it as if it had not been there (the requests it
    cost stay in the log). *)
Theorem failed_fetch_is_passed_over
    lookup info acc before dex after name e w acc1 w1 w2 :
  process_dexes lookup info acc before w = (Ok acc1, w1) ->
  Py.get dex "name" (VStr "") = Ok (VStr name) ->
  get_dex_markets (VStr name) w1 = (Raise e, w2) ->
  process_dexes lookup info acc (before ++ dex :: after) w
  = process_dexes lookup info acc1 after w2.
Proof.
  intros Hbefore Hname Hfetch.
  rewrite process_dexes_app, (IO_bind_run _ _ _ _ _ Hbefore).
  cbn [process_dexes].
  by rewrite (IO_bind_run _ _ _ _ _
                (failed_fetch_contributes_nothing lookup info acc1 dex name
                   e w1 w2 Hname Hfetch)).
Qed.

(** X17. With at least one sub-exchange, when every market fetch fails
    the aggregation returns the empty table; it does not raise. *)
Theorem all_failed_fetches_give_empty_table w dexes w1 tables :
  get_dexes w = (Ok dexes, w1) -> dexes <> [] ->
  scan_dexes (∅, ∅) dexes = Ok tables ->
  (forall dex_name w0, exists e w0',
     get_dex_markets dex_name w0 = (Raise e, w0')) ->
  exists w', get_all_markets w = (Ok [], w') /\ later w1 w'
             /\ _listing_date_cache w' = _listing_date_cache w.
Proof.
  intros Hd Hne Hscan Hfail.
  destruct (all_fetches_fail_empty _ _ _ _ Hd Hne Hscan Hfail) as [w' Hrun].
  exists w'. split; [done|].
  destruct (get_all_markets_trace _ _ _ Hrun)
    as (dexes' & w1' & tables' & raw_rows & w2 & dates & Hd' & _ & _ & _ & L2
        & L3 & Hcache & _ & _ & Hw' & _ & Hrows & _).
  rewrite Hd in Hd'. injection Hd' as <- <-.
  assert (raw_rows = []) as ->.
  { destruct raw_rows as [|raw raw_rows]; [done|].
    apply (f_equal length) in Hrows.
    rewrite sort_values_perm in Hrows. done. }
  rewrite (Hw' eq_refl). done.
Qed.

Lemma build_raw_rows_raise lookup name info markets e :
  build_raw_rows lookup name info markets = Raise e ->
  exists m, m ∈ markets /\ build_raw_row lookup name info m = Raise e.
Proof.
  induction markets as [|m ms IH]; cbn [build_raw_rows]; [done|].
  destruct (build_raw_row lookup name info m) as [row|e'] eqn:Hrow;
    cbn [mbind result_bind].
  - destruct (build_raw_rows lookup name info ms) as [rows|e'] eqn:Hrows;
      cbn [mbind result_bind]; [done|].
    intros [= ->]. destruct (IH eq_refl) as (m' & Hin & Hm').
    exists m'. split; [by right|done].
  - intros [= ->]. exists m. split; [by left|done].
Qed.

Lemma to_float_raises v e : _to_float v = Raise e -> e = OverflowError.
Proof.
  unfold _to_float. destruct v as [|b|n|x|s|xs|kvs]; try done; cbn.
  - unfold float_of_int. destruct (SF64 n); try done. by intros [= <-].
  - by destruct (float_of_str s).
Qed.

Lemma build_raw_row_raise lookup name info m e :
  build_raw_row lookup name info m = Raise e ->
  (asset_str (Market.asset m) = Raise e
   /\ (e = TypeError \/ e = AttributeError)
   /\ forall s, Market.asset m <> VStr s)
  \/ e = OverflowError.
Proof.
  unfold build_raw_row.
  destruct (asset_str (Market.asset m)) as [asset|e'] eqn:Ha;
    cbn [mbind result_bind].
  2: { intros [= ->]. left. split; [done|].
       destruct (Market.asset m) as [|b|n|x|s|xs|kvs]; cbn in Ha; try done;
         try (injection Ha as <-; split; [by left|done]).
       - destruct (existsb _ _); injection Ha as <-;
           (split; [by (left + right)|done]).
       - destruct (existsb _ _); injection Ha as <-;
           (split; [by (left + right)|done]). }
  destruct (float_or_zero (Market.open_interest m)) as [a|e'] eqn:Hoi;
    cbn [mbind result_bind].
  2: { intros [= ->]. right. by apply float_or_zero_raises in Hoi as [-> _]. }
  destruct (float_or_zero (Market.mark_px m)) as [b|e'] eqn:Hmk;
    cbn [mbind result_bind].
  2: { intros [= ->]. right. by apply float_or_zero_raises in Hmk as [-> _]. }
  destruct (_to_float (Market.mark_px m)) as [x1|e'] eqn:H1;
    cbn [mbind result_bind].
  2: { intros [= ->]. right. by apply to_float_raises in H1. }
  destruct (_to_float (Market.oracle_px m)) as [x2|e'] eqn:H2;
    cbn [mbind result_bind].
  2: { intros [= ->]. right. by apply to_float_raises in H2. }
  destruct (_to_float (Market.day_ntl_vlm m)) as [x3|e'] eqn:H3;
    cbn [mbind result_bind].
  2: { intros [= ->]. right. by apply to_float_raises in H3. }
  destruct (_to_float (Market.funding m)) as [x4|e'] eqn:H4;
    cbn [mbind result_bind]; [done|].
  intros [= ->]. right. by apply to_float_raises in H4.
Qed.

Lemma process_dex_raise lookup info acc dex name w e w' :
  Py.get dex "name" (VStr "") = Ok (VStr name) ->
  process_dex lookup info acc dex w = (Raise e, w') ->
  exists markets m,
    get_dex_markets (VStr name) w = (Ok markets, w')
    /\ m ∈ markets
    /\ build_raw_row lookup name (info !! name) m = Raise e.
Proof.
  intros Hname. unfold process_dex. rewrite Hname.
  cbv [lift mbind IO_bind try_except dict_key mret IO_ret].
  destruct (get_dex_markets (VStr name) w) as [[markets|e'] w1]; [|done].
  destruct (build_raw_rows lookup name (info !! name) markets)
    as [rows|e'] eqn:Hrows; [done|].
  intros [= -> ->]. apply build_raw_rows_raise in Hrows as (m & ? & ?).
  by exists markets, m.
Qed.

Lemma process_dexes_raise lookup info completed : forall acc w e w',
  Forall (fun dex => exists name,
            Py.get dex "name" (VStr "") = Ok (VStr name)) completed ->
  process_dexes lookup info acc completed w = (Raise e, w') ->
  exists dex name w0 markets m,
    dex ∈ completed
    /\ Py.get dex "name" (VStr "") = Ok (VStr name)
    /\ later w w0
    /\ get_dex_markets (VStr name) w0 = (Ok markets, w')
    /\ m ∈ markets
    /\ build_raw_row lookup name (info !! name) m = Raise e.
Proof.
  induction completed as [|dex rest IH]; intros acc w e w' Hnames;
    cbn [process_dexes]; [done|].
  apply Forall_cons in Hnames as [[name Hname] Hrest].
  unfold mbind at 1, IO_bind at 1.
  destruct (process_dex lookup info acc dex w) as [[acc1|e1] w1] eqn:Hd.
  - intros Hrun. apply process_dex_world in Hd as (evs & -> & _).
    destruct (IH _ _ _ _ Hrest Hrun)
      as (d & n & w0 & markets & m & Hin & ? & L & ?).
    exists d, n, w0, markets, m. split; [by right|]. split; [done|].
    split; [|done]. eapply later_trans; [apply later_extend|exact L].
  - intros [= <- <-].
    destruct (process_dex_raise _ _ _ _ _ _ _ _ Hname Hd)
      as (markets & m & ? & ? & ?).
    exists dex, name, w, markets, m. split; [by left|].
    split; [done|]. split; [apply later_refl|done].
Qed.

(** X18. The ways the aggregation can fail. It raises what discovery
    raises; or what the first loop raises on a sub-exchange entry it
    cannot read; or [ValueError], when discovery lists no sub-exchange;
    or else the error of a row it could not build from a snapshot that
    a market fetch did return: a [TypeError] or [AttributeError] for an
    asset name that is not a string, an [OverflowError] for an integer
    beyond the range of a float. A failed market fetch and a failed
    listing-date resolution are never the reason. (Runs that leave the
    embedding, [Unsupported], are set aside.) *)
Theorem aggregation_failures w e w' :
  get_all_markets w = (Raise e, w') ->
  e <> Unsupported ->
  get_dexes w = (Raise e, w')
  \/ (exists dexes, get_dexes w = (Ok dexes, w')
        /\ (scan_dexes (∅, ∅) dexes = Raise e
            \/ (dexes = [] /\ e = ValueError)))
  \/ (exists dexes w1 tables dex name w0 markets m,
        get_dexes w = (Ok dexes, w1)
        /\ scan_dexes (∅, ∅) dexes = Ok tables
        /\ dex ∈ dexes
        /\ Py.get dex "name" (VStr "") = Ok (VStr name)
        /\ later w1 w0
        /\ get_dex_markets (VStr name) w0 = (Ok markets, w')
        /\ m ∈ markets
        /\ build_raw_row tables.1 name (tables.2 !! name) m = Raise e
        /\ (e = OverflowError
            \/ ((e = TypeError \/ e = AttributeError)
                /\ forall s, Market.asset m <> VStr s))).
Proof.
  intros Hrun _. revert Hrun.
  unfold get_all_markets. unfold mbind at 1, IO_bind at 1.
  destruct (get_dexes w) as [[dexes|e1] w1] eqn:Hd; [|intros [= <- <-]; by left].
  unfold mbind at 1, IO_bind at 1, lift at 1.
  destruct (scan_dexes (∅, ∅) dexes) as [tables|e1] eqn:Hscan.
  2: { intros [= <- <-]. right; left. exists dexes. split; [done|]. by left. }
  unfold mbind at 1, IO_bind at 1.
  destruct dexes as [|dex dexes].
  { intros [= <- <-]. right; left. exists []. split; [done|]. by right. }
  cbn [ThreadPoolExecutor length]. unfold mret at 1, IO_ret at 1.
  unfold mbind at 1, IO_bind at 1.
  destruct (as_completed (dex :: dexes) w1) as [rc wa] eqn:Ha.
  assert (exists completed, rc = Ok completed) as [completed ->]
    by (unfold as_completed in Ha; injection Ha as <- _; eauto).
  apply as_completed_inv in Ha as [Hperm Hwa].
  unfold mbind at 1, IO_bind at 1.
  destruct (process_dexes tables.1 tables.2 [] completed wa)
    as [[raw_rows|e1] w2] eqn:Hp.
  - destruct raw_rows as [|raw raw_rows]; [done|].
    unfold mbind at 1, IO_bind at 1.
    match goal with |- context [_get_listing_dates ?b w2] =>
      destruct (get_listing_dates_spec b w2)
        as (results & evs & cache' & sched' & -> & _) end.
    done.
  - intros [= <- <-]. right; right.
    pose proof (scan_dexes_names _ _ _ Hscan) as Hnames.
    rewrite <- Hperm in Hnames.
    destruct (process_dexes_raise _ _ _ _ _ _ _ Hnames Hp)
      as (d & name & w0 & markets & m & Hin & Hname & L & Hfetch & Hm & Hrow).
    exists (dex :: dexes), w1, tables, d, name, w0, markets, m.
    split; [done|]. split; [done|]. split; [by rewrite <- Hperm|].
    split; [done|]. split.
    { destruct L as [evs Hevs]. exists evs. rewrite Hevs, Hwa. done. }
    split; [done|]. split; [done|]. split; [done|].
    destruct (build_raw_row_raise _ _ _ _ _ Hrow) as [(_ & ? & ?)|?];
      [by right|by left].
Qed.

End Outcomes.

(** ** What the aggregation sends *)

Section Traffic.
Context `{Builtins, Remote}.

Lemma backoff_requests payload k : forall d p,
  Request p ∈ backoff payload k d ++ [Request payload] -> p = payload.
Proof.
  induction k as [|k IH]; intros d p; cbn [backoff app].
  - intros [[= ->]|Hp]%elem_of_cons; [done|]. by apply elem_of_nil in Hp.
  - intros [[= ->]|Hp]%elem_of_cons; [done|].
    apply elem_of_cons in Hp as [Hp|Hp]; [done|]. by eapply IH.
Qed.

Lemma backoff_starts_with_request payload k d :
  exists evs,
    backoff payload k d ++ [Request payload] = Request payload :: evs
    /\ forall p, Request p ∈ evs -> p = payload.
Proof.
  destruct k as [|k].
  - exists []. split; [done|]. intros p Hp. by apply elem_of_nil in Hp.
  - cbn [backoff app]. eexists. split; [reflexivity|].
    intros p [Hp|Hp]%elem_of_cons; [done|]. by eapply backoff_requests.
Qed.

Lemma get_dexes_first_request w r w' :
  get_dexes w = (r, w') ->
  exists evs,
    w' = extend (Request perp_dexs_payload :: evs) w
    /\ forall p, Request p ∈ evs -> p = perp_dexs_payload.
Proof.
  unfold get_dexes, post, _post. unfold mbind at 1, IO_bind at 1.
  destruct (post_loop_total perp_dexs_payload 4 1 w)
    as (k & _ & _ & _ & ->).
  destruct (backoff_starts_with_request perp_dexs_payload k 1)
    as (evs & -> & Hevs).
  intros Hrun. exists evs. split; [|done].
  destruct (outcome _) as [data|e]; [|by injection Hrun].
  unfold mbind, IO_bind, lift in Hrun.
  destruct (Py.iter data); by injection Hrun.
Qed.

(** X19. Whatever its outcome, the aggregation only ever asks the API
    for the three read operations of the module: it starts with the
    [perpDexs] request, and every request after it is a [perpDexs], a
    [metaAndAssetCtxs] or a [candleSnapshot] request. It never moves
    the clock. (Runs that leave the embedding, [Unsupported], are set
    aside.) *)
Theorem aggregation_traffic w r w' :
  get_all_markets w = (r, w') ->
  r <> Raise Unsupported ->
  exists evs,
    log w' = log w ++ Request perp_dexs_payload :: evs
    /\ (forall p, Request p ∈ evs -> api_operation p)
    /\ now w' = now w.
Proof.
  intros Hrun _. revert Hrun.
  unfold get_all_markets. unfold mbind at 1, IO_bind at 1.
  destruct (get_dexes w) as [r1 w1] eqn:Hd.
  apply get_dexes_first_request in Hd as (evs1 & -> & Hevs1).
  assert (forall p, Request p ∈ evs1 -> api_operation p) as Hop1
    by (intros p Hp; left; by apply Hevs1).
  destruct r1 as [dexes|e1]; [|intros [= <- <-]; by exists evs1].
  unfold mbind at 1, IO_bind at 1, lift at 1.
  destruct (scan_dexes (∅, ∅) dexes) as [tables|e1];
    [|intros [= <- <-]; by exists evs1].
  unfold mbind at 1, IO_bind at 1.
  destruct dexes as [|dex dexes]; [intros [= <- <-]; by exists evs1|].
  cbn [ThreadPoolExecutor length]. unfold mret at 1, IO_ret at 1.
  unfold mbind at 1, IO_bind at 1.
  destruct (as_completed (dex :: dexes) _) as [rc wa] eqn:Ha.
  assert (exists completed, rc = Ok completed) as [completed ->]
    by (unfold as_completed in Ha; injection Ha as <- _; eauto).
  apply as_completed_inv in Ha as [_ ->].
  unfold mbind at 1, IO_bind at 1.
  destruct (process_dexes tables.1 tables.2 [] completed _)
    as [r2 w2] eqn:Hp.
  apply process_dexes_world in Hp as (evs2 & -> & Hevs2).
  assert (forall p, Request p ∈ evs1 ++ evs2 -> api_operation p) as Hop2.
  { intros p [Hp|Hp]%elem_of_app; [by apply Hop1|].
    right; left. by apply Hevs2. }
  destruct r2 as [raw_rows|e2].
  2: { intros [= <- <-]. exists (evs1 ++ evs2). cbn.
       by rewrite <- app_assoc. }
  destruct raw_rows as [|raw raw_rows].
  { intros [= <- <-]. exists (evs1 ++ evs2). cbn. by rewrite <- app_assoc. }
  unfold mbind at 1, IO_bind at 1.
  match goal with |- context [_get_listing_dates ?b ?w2] =>
    destruct (get_listing_dates_spec b w2)
      as (results & evs3 & cache' & sched' & -> & _ & _ & _ & Hevs3) end.
  cbv [clock mbind IO_bind mret IO_ret]. intros [= <- <-].
  exists ((evs1 ++ evs2) ++ evs3). cbn. split.
  - by rewrite <- !app_assoc.
  - split; [|done]. intros p [Hp|Hp]%elem_of_app; [by apply Hop2|].
    right; right. destruct (Hevs3 p Hp) as (a & _ & ->). by exists a.
Qed.

End Traffic.

(** ** Tickers and the order of the table *)

Lemma contains_colon_app s t :
  contains_colon (String.append s t) = contains_colon s || contains_colon t.
Proof.
  induction s as [|c s IH]; [done|]. simpl. rewrite IH. by rewrite orb_assoc.
Qed.

Lemma split_colon_app_last s t :
  contains_colon t = false ->
  List.last (split_colon (String.append s (String ":" t))) EmptyString = t.
Proof.
  intros Ht. induction s as [|c s IH].
  - change (String.append "" (String ":" t)) with (String ":" t).
    change (split_colon (String ":" t)) with (EmptyString :: split_colon t).
    by rewrite (split_colon_plain t Ht).
  - change (String.append (String c s) (String ":" t))
      with (String c (String.append s (String ":" t))).
    cbn [split_colon].
    destruct (Ascii.eqb c ":").
    + rewrite last_cons_nonempty by apply split_colon_nonempty. exact IH.
    + destruct (split_colon (String.append s (String ":" t)))
        as [|piece pieces] eqn:E; [by apply split_colon_nonempty in E|].
      destruct pieces as [|p2 pieces].
      * apply split_colon_single in E. rewrite contains_colon_app in E.
        cbn in E. by rewrite orb_true_r in E.
      * rewrite last_cons_nonempty by done.
        by rewrite last_cons_nonempty in IH by done.
Qed.

(** X20. The ticker undoes a prefix: for a ticker [t] without a colon,
    the ticker of [prefix:t] is [t], whatever the prefix (colons
    included); and taking the ticker twice is taking it once. *)
Theorem ticker_of_prefixed prefix t :
  contains_colon t = false ->
  ticker_of (String.append prefix (String ":" t)) = t
  /\ ticker_of t = t
  /\ forall asset, ticker_of (ticker_of asset) = ticker_of asset.
Proof.
  intros Ht. split; [|split].
  - unfold ticker_of. rewrite contains_colon_app. cbn [contains_colon].
    replace (Ascii.eqb ":" ":") with true by done.
    rewrite orb_true_r. by apply split_colon_app_last.
  - unfold ticker_of. by rewrite Ht.
  - intros asset. destruct (ticker_of_spec asset) as [Hyes Hno].
    destruct (contains_colon asset) eqn:E.
    + destruct (Hyes eq_refl) as [Hc _]. unfold ticker_of at 1. by rewrite Hc.
    + by rewrite !(Hno eq_refl).
Qed.

Lemma ticker_of_prefixed_witness :
  ticker_of "km:US500:PERP" = "PERP".
Proof.
  apply (ticker_of_prefixed "km:US500" "PERP"). reflexivity.
Defined.

Lemma sorted_sort_values rows :
  StronglySorted (fun a b => row_leb a b = true) rows ->
  sort_values rows = rows.
Proof.
  induction 1 as [|r rows Hsorted IH Hall]; [done|].
  cbn [sort_values]. rewrite IH.
  destruct rows as [|r' rows]; [done|]. cbn [insert_row].
  apply Forall_cons in Hall as [-> _]. done.
Qed.

(** X21. Sorting is idempotent: the table the aggregation hands out is
    already in the order the sort would give it, and so is any table
    that is in order. The sort neither adds nor loses a row. *)
Theorem sort_values_idempotent rows :
  sort_values (sort_values rows) = sort_values rows
  /\ length (sort_values rows) = length rows
  /\ (StronglySorted (fun a b => row_leb a b = true) rows ->
      sort_values rows = rows).
Proof.
  split; [apply sorted_sort_values, sort_values_sorted|].
  split; [by rewrite sort_values_perm|]. apply sorted_sort_values.
Qed.

(** ** What a refresh costs *)

Section Cost.
Context `{Builtins, Remote}.

Lemma get_dexes_cost w :
  exists k, (k <= 4)%nat
    /\ (get_dexes w).2
       = extend (backoff perp_dexs_payload k 1 ++ [Request perp_dexs_payload])
           w.
Proof.
  unfold get_dexes, post, _post. unfold mbind at 1, IO_bind at 1.
  destruct (post_loop_total perp_dexs_payload 4 1 w)
    as (k & Hk & _ & _ & ->).
  exists k. split; [done|].
  destruct (outcome _) as [data|e]; [|done].
  unfold mbind, IO_bind, lift. by destruct (Py.iter data).
Qed.

Lemma process_dex_cost lookup info acc dex name w :
  Py.get dex "name" (VStr "") = Ok (VStr name) ->
  exists k, (k <= 4)%nat
    /\ (process_dex lookup info acc dex w).2
       = extend (backoff (markets_payload (VStr name)) k 1
                 ++ [Request (markets_payload (VStr name))]) w.
Proof.
  intros Hname. unfold process_dex. rewrite Hname.
  cbv [lift mbind IO_bind try_except dict_key mret IO_ret
       get_dex_markets post _post].
  destruct (post_loop_total (markets_payload (VStr name)) 4 1 w)
    as (k & Hk & _ & _ & ->).
  exists k. split; [done|].
  destruct (outcome _) as [data|e]; [|done].
  destruct (markets_of data) as [markets|e]; [|done].
  by destruct (build_raw_rows _ _ _ _).
Qed.

Lemma process_dexes_cost lookup info completed : forall acc w acc' w',
  Forall (fun dex => exists name,
            Py.get dex "name" (VStr "") = Ok (VStr name)) completed ->
  process_dexes lookup info acc completed w = (Ok acc', w') ->
  exists evs,
    w' = extend evs w
    /\ (length completed <= requests_in evs <= 5 * length completed)%nat.
Proof.
  induction completed as [|dex rest IH]; intros acc w acc' w' Hnames;
    cbn [process_dexes].
  - intros [= <- <-]. exists []. rewrite extend_nil. split; [done|].
    unfold requests_in. cbn. lia.
  - apply Forall_cons in Hnames as [[name Hname] Hrest].
    intros Hrun. inv_io.
    match goal with Hd : process_dex _ _ _ _ _ = (Ok ?a1, ?w1) |- _ =>
      destruct (process_dex_cost lookup info acc dex name w Hname)
        as (k & Hk & Hw1);
      rewrite Hd in Hw1; cbn [snd] in Hw1; subst w1 end.
    destruct (IH _ _ _ _ Hrest Hrun) as (evs2 & -> & Hcount).
    eexists. rewrite extend_extend. split; [reflexivity|].
    rewrite requests_in_app, requests_in_backoff. cbn [length]. lia.
Qed.

Lemma length_filter_fmap {A B} (f : A -> B) (P : B -> Prop)
    `{forall b, Decision (P b)} (l : list A) :
  length (filter P (f <$> l)) = length (filter (fun a => P (f a)) l).
Proof.
  induction l as [|a l IH]; [done|]. rewrite fmap_cons, !filter_cons.
  destruct (decide (P (f a))); cbn [length]; by rewrite IH.
Qed.

(** X22. What a refresh costs. With [n] sub-exchanges discovered and
    [m] rows whose asset the cache did not hold when the aggregation
    started, a successful aggregation runs [1 + n + m] calls of [_post]
    (one discovery, one market fetch per sub-exchange, one candle
    lookup per such row) and so sends between [1 + n + m] and
    [5 (1 + n + m)] requests, retries included. With a warm cache
    ([m = 0]) it sends no candle request at all. *)
Theorem aggregation_cost w rows w' :
  get_all_markets w = (Ok rows, w') ->
  exists dexes w1 evs,
    get_dexes w = (Ok dexes, w1)
    /\ log w' = log w ++ evs
    /\ let misses :=
         filter (fun row => _listing_date_cache w !! Row.asset row = None)
                rows in
       let calls := (1 + length dexes + length misses)%nat in
       (calls <= requests_in evs <= 5 * calls)%nat
       /\ (misses = [] ->
           forall asset, Request (candle_payload asset) ∉ evs).
Proof.
  intros Hrun.
  destruct (get_all_markets_trace _ _ _ Hrun)
    as (dexes & w1 & tables & raw_rows & w2 & dates & Hd & Hscan & _ & _ & _
        & _ & Hcache & _ & _ & Hempty & Hdates & -> & Hfetch).
  exists dexes, w1.
  destruct (get_dexes_cost w) as (k & Hk & Hw1).
  rewrite Hd in Hw1. cbn [snd] in Hw1.
  unfold fetch_rows in Hfetch. inv_io.
  match goal with Ha : as_completed _ _ = _ |- _ =>
    apply as_completed_inv in Ha as [Hperm ->] end.
  pose proof (scan_dexes_names _ _ _ Hscan) as Hnames.
  rewrite <- Hperm in Hnames.
  destruct (process_dexes_cost _ _ _ _ _ _ _ Hnames Hfetch)
    as (evs2 & Hw2 & Hcount2).
  pose proof (process_dexes_world _ _ _ _ _ _ _ Hfetch)
    as (evs2' & Hw2' & Htraffic2).
  assert (evs2' = evs2) as ->.
  { rewrite Hw2 in Hw2'. apply (f_equal log) in Hw2'. cbn in Hw2'.
    by apply app_inv_head in Hw2'. }
  rewrite (Permutation_length Hperm) in Hcount2.
  set (misses := filter _ (sort_values _)).
  assert (length misses
          = length (uncached (_listing_date_cache w2)
                      (map (fun r => (RawRow.asset r, RawRow._fallback_iso r))
                           raw_rows))) as Hmisses.
  { subst misses. rewrite sort_values_perm. unfold uncached.
    rewrite length_fmap, Hcache.
    rewrite (length_filter_fmap (finish_row dates (now w'))
               (fun row => _listing_date_cache w !! Row.asset row = None)).
    rewrite (length_filter_fmap
               (fun r => (RawRow.asset r, RawRow._fallback_iso r))
               (fun item => _listing_date_cache w !! item.1 = None)).
    reflexivity. }
  assert (forall asset,
            Request (candle_payload asset)
            ∉ backoff perp_dexs_payload k 1 ++ [Request perp_dexs_payload])
    as Hno1.
  { intros asset Hin. by apply backoff_requests in Hin. }
  assert (forall asset, Request (candle_payload asset) ∉ evs2) as Hno2.
  { intros asset Hin. by destruct (Htraffic2 _ Hin) as [name Hp]. }
  destruct raw_rows as [|raw raw_rows].
  - exists ((backoff perp_dexs_payload k 1 ++ [Request perp_dexs_payload])
            ++ evs2).
    split; [done|].
    split; [rewrite (Hempty eq_refl), Hw2, Hw1; cbn; by rewrite <- !app_assoc|].
    cbn zeta. clear Hmisses. subst misses. cbn [map sort_values].
    rewrite filter_nil. cbn [length].
    rewrite requests_in_app, requests_in_backoff. split; [lia|].
    intros _ asset [Hin|Hin]%elem_of_app; [by eapply Hno1|by eapply Hno2].
  - specialize (Hdates ltac:(done)).
    set (batch := map (fun r => (RawRow.asset r, RawRow._fallback_iso r))
                      (raw :: raw_rows)) in *.
    destruct (get_listing_dates_requests batch w2) as (evs3 & Hlog3 & Hcount3 & _).
    destruct (get_listing_dates_spec batch w2)
      as (results & evs3' & cache' & sched' & Hrun3 & _ & _ & _ & Htraffic3).
    rewrite Hdates in Hlog3. cbn [snd] in Hlog3.
    assert (evs3' = evs3) as ->.
    { rewrite Hdates in Hrun3. injection Hrun3 as _ Hw'.
      rewrite Hw' in Hlog3. cbn in Hlog3. by apply app_inv_head in Hlog3. }
    exists ((backoff perp_dexs_payload k 1 ++ [Request perp_dexs_payload])
            ++ evs2 ++ evs3).
    split; [done|]. split.
    { rewrite Hlog3, Hw2, Hw1. cbn. by rewrite <- !app_assoc. }
    cbn zeta. rewrite Hmisses.
    rewrite requests_in_app, (requests_in_app evs2 evs3), requests_in_backoff.
    split; [lia|].
    intros Hnil asset [Hin|[Hin|Hin]%elem_of_app]%elem_of_app;
      [by eapply Hno1|by eapply Hno2|].
    destruct (Htraffic3 _ Hin) as (a & Ha & _).
    assert (length (uncached (_listing_date_cache w2) batch) = 0%nat) as Hz
      by (rewrite <- Hmisses, Hnil; done).
    destruct (uncached _ batch); [by apply elem_of_nil in Ha|done].
Qed.

End Cost.

(** ** The further properties at work on the sample environments *)

Lemma refresh_run_eq :
  @get_all_markets sample_builtins demo_api refresh_world
  = (Ok refresh_table, refresh_run.2).
Proof. vm_compute. reflexivity. Qed.

Lemma row_provenance_witness :
  Forall (fun row =>
    exists meta,
      delisted meta = false
      /\ Py.get meta "name" (VStr "") = Ok (VStr (Row.asset row)))
    demo_table.
Proof.
  apply Forall_forall. intros row Hrow.
  destruct (@row_provenance sample_builtins demo_api demo_world demo_table
              demo_run.2 row demo_run_eq Hrow)
    as (dexes & w1 & dex & w0 & w0' & data & us & cs & i & meta & ctx
        & _ & _ & _ & _ & _ & _ & _ & _ & _ & Hlisted & Hname & _).
  by exists meta.
Defined.

Lemma row_carries_sub_exchange_witness :
  Forall (fun row =>
    exists dex,
      Py.get dex "name" (VStr "") = Ok (VStr (Row.dex row))
      /\ Py.get dex "fullName" (VStr (Row.dex row))
         = Ok (Row.dex_full_name row)
      /\ Py.get dex "deployer" (VStr "") = Ok (Row.deployer row))
    demo_table.
Proof.
  apply Forall_forall. intros row Hrow.
  destruct (@row_carries_sub_exchange sample_builtins demo_api demo_world
              demo_table demo_run.2 row demo_run_eq Hrow)
    as (dexes & w1 & before & dex & after & _ & _ & _ & Hname & Hfull & Hdep).
  by exists dex.
Defined.

Lemma row_cap_was_listed_witness :
  exists row pr v,
    demo_table !! 2%nat = Some row
    /\ Row.asset row = "two:BBB"
    /\ Row.oi_cap row = Some 1000%float
    /\ Py.index pr 0 = Ok (VStr "two:BBB")
    /\ Py.index pr 1 = Ok v
    /\ @py_float sample_builtins v = Ok 1000%float.
Proof.
  assert (exists row, demo_table !! 2%nat = Some row
                      /\ Row.asset row = "two:BBB"
                      /\ Row.oi_cap row = Some 1000%float)
    as (row & Hrow & Hasset & Hcap) by (eexists; by vm_compute).
  destruct (@row_cap_was_listed sample_builtins demo_api demo_world
              demo_table demo_run.2 row 1000%float demo_run_eq
              (list_elem_of_lookup_2 _ _ _ Hrow) Hcap)
    as (dexes & w1 & dex & caps & pairs & pr & v & _ & _ & _ & _ & _
        & H0 & H1 & Hf).
  exists row, pr, v. rewrite Hasset in H0. done.
Defined.

Lemma table_shows_cached_dates_witness :
  Forall (fun row =>
    _listing_date_cache demo_run.2 !! Row.asset row
    = Some (Row.listing_date row))
    demo_table.
Proof.
  apply Forall_forall. intros row Hrow.
  by apply (@table_shows_cached_dates sample_builtins demo_api demo_world
              demo_table demo_run.2 demo_run_eq).
Defined.

Lemma listing_date_stable_across_refreshes_witness :
  exists row row',
    demo_table !! 0%nat = Some row
    /\ refresh_table !! 0%nat = Some row'
    /\ Row.market_age_days row = Some 62
    /\ Row.market_age_days row' = Some 63
    /\ Row.listing_date row' = Row.listing_date row.
Proof.
  assert (exists row row',
            demo_table !! 0%nat = Some row
            /\ refresh_table !! 0%nat = Some row'
            /\ Row.market_age_days row = Some 62
            /\ Row.market_age_days row' = Some 63
            /\ Row.asset row' = Row.asset row)
    as (row & row' & Hrow & Hrow' & Hage & Hage' & Hasset)
    by (eexists _, _; by vm_compute).
  exists row, row'. repeat split; try done.
  assert (_listing_date_cache demo_run.2
          ⊆ _listing_date_cache refresh_world) as Hsub by done.
  exact (@listing_date_stable_across_refreshes sample_builtins demo_api
           demo_world demo_table demo_run.2 refresh_world refresh_table
           refresh_run.2 row row' demo_run_eq
           (list_elem_of_lookup_2 _ _ _ Hrow) Hsub refresh_run_eq
           (list_elem_of_lookup_2 _ _ _ Hrow') Hasset).
Defined.

Lemma market_age_rounds_down_witness :
  Forall (fun row =>
    match Row.listing_date row with
    | Some dt =>
        exists days,
          Row.market_age_days row = Some days
          /\ days * 86400000000 <= now demo_world - dt
             < (days + 1) * 86400000000
          /\ (0 <= days <-> dt <= now demo_world)
    | None => Row.market_age_days row = None
    end)
    demo_table.
Proof.
  apply Forall_forall. intros row Hrow.
  exact (@market_age_rounds_down sample_builtins demo_api demo_world
           demo_table demo_run.2 row demo_run_eq Hrow).
Defined.

Lemma failed_fetch_is_passed_over_witness :
  @process_dexes sample_builtins failing_fetch_api ∅ ∅ []
    [VDict [("name", VStr "x")]] (fresh_world [] 0)
  = (Ok [],
     extend [Request (markets_payload (VStr "x"))] (fresh_world [] 0)).
Proof.
  apply (@failed_fetch_is_passed_over sample_builtins failing_fetch_api
           ∅ ∅ [] [] (VDict [("name", VStr "x")]) [] "x" (HTTPError 500)
           (fresh_world [] 0) [] (fresh_world [] 0)
           (extend [Request (markets_payload (VStr "x"))]
              (fresh_world [] 0))); by vm_compute.
Defined.

Lemma failing_fetch_api_fails dex_name w0 :
  exists e w0',
    @get_dex_markets failing_fetch_api dex_name w0 = (Raise e, w0').
Proof.
  unfold get_dex_markets, post, _post. unfold mbind, IO_bind.
  rewrite (@post_loop_spec failing_fetch_api (markets_payload dex_name)
             4 0 1 w0); [|lia|intros; lia|done].
  eexists _, _. reflexivity.
Qed.

Lemma all_failed_fetches_give_empty_table_witness :
  exists w',
    @get_all_markets sample_builtins failing_fetch_api (fresh_world [] 0)
    = (Ok [], w')
    /\ requests_in (log w') = 2%nat.
Proof.
  destruct (@all_failed_fetches_give_empty_table sample_builtins
              failing_fetch_api (fresh_world [] 0)
              [VDict [("name", VStr "x")]]
              (extend [Request perp_dexs_payload] (fresh_world [] 0))
              (∅, {["x" := (VStr "x", VStr "")]}))
    as (w' & Hrun & _).
  - by vm_compute.
  - done.
  - by vm_compute.
  - apply failing_fetch_api_fails.
  - exists w'. split; [done|].
    vm_compute in Hrun. by injection Hrun as <-.
Defined.

Lemma aggregation_failures_witness :
  exists e w',
    @get_all_markets sample_builtins nameless_api (fresh_world [] 0)
    = (Raise e, w')
    /\ (e = OverflowError \/ e = TypeError \/ e = AttributeError).
Proof.
  assert (exists e w',
            @get_all_markets sample_builtins nameless_api (fresh_world [] 0)
            = (Raise e, w')
            /\ requests_in (log w') = 2%nat) as (e & w' & Hrun & Hlog)
    by (eexists _, _; by vm_compute).
  exists e, w'. split; [done|].
  assert (e <> Unsupported) as Hin
    by (vm_compute in Hrun; by injection Hrun as <- _).
  destruct (@aggregation_failures sample_builtins nameless_api
              (fresh_world [] 0) e w' Hrun Hin)
    as [Hd|[(dexes & Hd & _)|(dexes & w1 & tables & dex & name & w0 & markets
                              & m & _ & _ & _ & _ & _ & _ & _ & _ & Hcause)]].
  - vm_compute in Hd. discriminate.
  - vm_compute in Hd. injection Hd as _ <-. done.
  - destruct Hcause as [->|[[->| ->] _]]; auto.
Defined.

Lemma aggregation_traffic_witness :
  exists evs,
    log demo_run.2 = log demo_world ++ Request perp_dexs_payload :: evs
    /\ (forall p, Request p ∈ evs -> api_operation p)
    /\ now demo_run.2 = now demo_world.
Proof.
  apply (@aggregation_traffic sample_builtins demo_api demo_world
           (Ok demo_table) demo_run.2 demo_run_eq).
  discriminate.
Defined.

Lemma aggregation_cost_witness :
  exists evs,
    log refresh_run.2 = log refresh_world ++ evs
    /\ (3 <= requests_in evs <= 15)%nat
    /\ forall asset, Request (candle_payload asset) ∉ evs.
Proof.
  destruct (@aggregation_cost sample_builtins demo_api refresh_world
              refresh_table refresh_run.2 refresh_run_eq)
    as (dexes & w1 & evs & Hd & Hlog & Hcount & Hwarm).
  exists evs. split; [done|].
  vm_compute in Hd. injection Hd as <- _.
  split; [exact Hcount|]. by apply Hwarm.
Defined.
